(** * The dashboard's data pipeline (ITMO_lastTask/plotlyDash.py)

    A shallow embedding of the data preparation and filtering code of the
    dashboard: [safe_extract], [preprocess_data] with its inner
    [convert_to_usd], the module-level sampling block, [filter_data] and the
    widget and device aggregations of [update_graphs].

    pandas DataFrames are Python objects that the code both shares and
    assigns into, so tables live in a store of frames addressed by
    locations, and every function is a computation over that store that may
    raise a Python exception. *)

From Stdlib Require Import ZArith QArith String List Lia Permutation.
From stdpp Require Import gmap strings list fin_maps sorting.

Local Close Scope Q_scope.
Local Open Scope string_scope.
Local Open Scope list_scope.

(** ** Cells *)

(** A float cell of a column: a number, or pandas' not-a-number marker. *)
Definition Num : Type := option Q.
Definition NaN : Num := None.

Definition isna (x : Num) : bool :=
  match x with
  | None => true
  | Some _ => false
  end.

Definition notna (x : Num) : bool := negb (isna x).

(** [x * y] on cells: not-a-number is absorbing. *)
Definition num_mul (x y : Num) : Num :=
  match x, y with
  | Some a, Some b => Some (a * b)%Q
  | _, _ => NaN
  end.

(** A cell of a [date] column: [df['timestamp'].dt.date] yields Python
    [date] objects (days since 1970-01-01), [pd.to_datetime] yields
    timestamps (nanoseconds since the epoch). *)
Inductive DateCell : Type :=
  | PyDate (days : Z)
  | Stamp (ns : Z).

#[global] Instance DateCell_eq_dec : EqDecision DateCell.
Proof. solve_decision. Defined.

Definition ns_per_second : Z := 1000000000.
Definition ns_per_hour : Z := 3600 * ns_per_second.
Definition ns_per_day : Z := 86400 * ns_per_second.

(** [pd.to_datetime] on a date cell: a date becomes its midnight. *)
Definition to_datetime (c : DateCell) : DateCell :=
  match c with
  | PyDate d => Stamp (d * ns_per_day)
  | Stamp t => Stamp t
  end.

(** [.dt.floor('s')], [.dt.date], [.dt.hour], [.dt.day_name()]. *)
Definition floor_s (ns : Z) : Z := (ns / ns_per_second) * ns_per_second.
Definition dt_date (ns : Z) : DateCell := PyDate (ns / ns_per_day).
Definition dt_hour (ns : Z) : Z := (ns / ns_per_hour) mod 24.

Definition day_names : list string :=
  ["Monday"; "Tuesday"; "Wednesday"; "Thursday"; "Friday"; "Saturday"; "Sunday"].

(** 1970-01-01 was a Thursday. *)
Definition dt_day_name (ns : Z) : string :=
  nth (Z.to_nat ((ns / ns_per_day + 3) mod 7)) day_names "".

(** ** Records *)

(** The value of a [last_hour_activity] cell: a dict of numeric-or-missing
    entries, or anything else. *)
Inductive PyObj : Type :=
  | PyNone
  | PyFloat (q : Q)
  | PyStr (s : string)
  | PyDict (d : list (string * Num)).

(** One row of the raw transaction table, with the columns of the
    transaction schema: [timestamp] in nanoseconds since the epoch, [amount]
    a decimal in the row's currency. *)
Record RawRow : Type := mkRawRow {
  timestamp : Z;
  amount : Q;
  currency : string;
  country : string;
  city : string;
  city_size : string;
  vendor : string;
  vendor_category : string;
  vendor_type : string;
  channel : string;
  device : string;
  card_type : string;
  is_card_present : bool;
  is_outside_home_country : bool;
  is_high_risk_vendor : bool;
  is_weekend : bool;
  customer_id : string;
  is_fraud : bool;
  last_hour_activity : PyObj
}.

Definition raw_columns : list string :=
  ["timestamp"; "amount"; "currency"; "country"; "city"; "city_size";
   "vendor"; "vendor_category"; "vendor_type"; "channel"; "device";
   "card_type"; "is_card_present"; "is_outside_home_country";
   "is_high_risk_vendor"; "is_weekend"; "customer_id"; "is_fraud";
   "last_hour_activity"].

(** The exchange-rate table: a [date] column and one column per currency
    code; [rates] of a row are aligned with [rt_columns]. *)
Record RateRow : Type := mkRateRow {
  rate_date : DateCell;
  rates : list Num
}.

Record RateTable : Type := mkRateTable {
  rt_columns : list string;
  rt_rows : list RateRow
}.

(** A row after [pd.concat(..., axis=1)], [df['date'] = ...] and the left
    join with [df2.reset_index()]: [joined] is [None] where no rate row has
    the row's date (every right column is then not-a-number), and otherwise
    the position of the matching rate row (the [index] column that
    [reset_index] adds) with its rates. *)
Record MergedRow : Type := mkMergedRow {
  base : RawRow;
  activity : list Num;
  date : DateCell;
  joined : option (nat * list Num)
}.

Record EnrRow : Type := mkEnrRow {
  merged : MergedRow;
  amount_usd : Num;
  hour : Z;
  weekday : string
}.

Record EnrTable : Type := mkEnrTable {
  activity_columns : list string;
  rate_columns : list string;
  enr_rows : list EnrRow
}.

(** A row of [filter_data]'s result; [target_rate] is the
    [<currency>_target_rate] column, which only the conversion branch adds. *)
Record FiltRow : Type := mkFiltRow {
  enr : EnrRow;
  target_rate : option Num;
  amount_converted : Num
}.

Record FiltTable : Type := mkFiltTable {
  filt_activity_columns : list string;
  filt_rate_columns : list string;
  target_rate_column : option string;
  filt_rows : list FiltRow
}.

(** A DataFrame object. [NoColumns] is [pd.DataFrame()]. *)
Inductive Frame : Type :=
  | NoColumns
  | RawFrame (rows : list RawRow)
  | EnrichedFrame (t : EnrTable)
  | FilteredFrame (t : FiltTable)
  | RatesFrame (t : RateTable).

(** [len(df)] and [df.empty]. *)
Definition frame_len (f : Frame) : nat :=
  match f with
  | NoColumns => 0
  | RawFrame rows => length rows
  | EnrichedFrame t => length (enr_rows t)
  | FilteredFrame t => length (filt_rows t)
  | RatesFrame t => length (rt_rows t)
  end.

Definition frame_empty (f : Frame) : bool := Nat.eqb (frame_len f) 0.

(** Column lookup in a row whose cells are aligned with [cols]. *)
Fixpoint cell (cols : list string) (cells : list Num) (c : string) : Num :=
  match cols, cells with
  | k :: cols', v :: cells' => if String.eqb k c then v else cell cols' cells' c
  | _, _ => NaN
  end.

(** A rate column of a merged row. *)
Definition joined_cell (cols : list string) (row : MergedRow) (c : string) : Num :=
  match joined row with
  | None => NaN
  | Some (_, cells) => cell cols cells c
  end.

(** The column names of an enriched table, in order. *)
Definition merged_columns (act_cols rate_cols : list string) : list string :=
  raw_columns ++ act_cols ++ ["date"; "index"] ++ rate_cols.

Definition enr_columns (t : EnrTable) : list string :=
  merged_columns (activity_columns t) (rate_columns t)
    ++ ["amount_usd"; "hour"; "weekday"].

(** ** The store, files and exceptions *)

Definition loc : Type := positive.

(** What the process reads from disk, in order. *)
Inductive event : Type :=
  | OpenTransactions
  | ReadRowGroup (rg : nat)
  | ReadRates.

Record State : Type := mkState {
  heap : gmap loc Frame;
  trace : list event
}.

(** The two parquet files: the transaction file as its row groups, the
    rate file with one calendar date per row. [None] is a missing or
    unreadable file. *)
Record RateFile : Type := mkRateFile {
  file_columns : list string;
  file_rows : list (Z * list Num)
}.

Record Files : Type := mkFiles {
  transactions_file : option (list (list RawRow));
  rates_file : option RateFile
}.

Inductive exn : Type :=
  | KeyError (key : string)
  | TypeError
  | ValueError
  | IndexError
  | FileNotFoundError.

(** The result of a call: it returns, it raises, or it leaves the part of
    pandas modelled here ([Unmodelled]: clashing column names, frames of a
    shape the function is never given). *)
Inductive result (A : Type) : Type :=
  | Return (a : A)
  | Raise (e : exn)
  | Unmodelled.

Arguments Return {A} a.
Arguments Raise {A} e.
Arguments Unmodelled {A}.

Definition M (A : Type) : Type := State -> result A * State.

Definition ret {A} (a : A) : M A := fun st => (Return a, st).
Definition raise {A} (e : exn) : M A := fun st => (Raise e, st).
Definition unmodelled {A} : M A := fun st => (Unmodelled, st).

Definition bind {A B} (m : M A) (k : A -> M B) : M B :=
  fun st =>
    match m st with
    | (Return a, st') => k a st'
    | (Raise e, st') => (Raise e, st')
    | (Unmodelled, st') => (Unmodelled, st')
    end.

Notation "'let*' x ':=' m 'in' k" := (bind m (fun x => k))
  (at level 10, x pattern, m at level 100, k at level 200, only parsing).

(** [try: m except Exception: h]. *)
Definition try_except {A} (m : M A) (h : M A) : M A :=
  fun st =>
    match m st with
    | (Raise _, st') => h st'
    | r => r
    end.

Definition lift {A} (r : result A) : M A := fun st => (r, st).

Definition deref (l : loc) : M Frame :=
  fun st =>
    match heap st !! l with
    | Some f => (Return f, st)
    | None => (Unmodelled, st)
    end.

(** Assignment into an existing object. *)
Definition store (l : loc) (f : Frame) : M unit :=
  fun st => (Return tt, mkState (<[l := f]> (heap st)) (trace st)).

(** A new object. *)
Definition alloc (f : Frame) : M loc :=
  fun st =>
    let l := fresh (dom (heap st)) in
    (Return l, mkState (<[l := f]> (heap st)) (trace st)).

Definition log (e : event) : M unit :=
  fun st => (Return tt, mkState (heap st) (trace st ++ [e])).

(** [df.apply(f, axis=1)] for a row function that may raise. *)
Fixpoint apply_rows {A B} (f : A -> result B) (rows : list A) : result (list B) :=
  match rows with
  | [] => Return []
  | r :: rows' =>
      match f r with
      | Return b =>
          match apply_rows f rows' with
          | Return bs => Return (b :: bs)
          | Raise e => Raise e
          | Unmodelled => Unmodelled
          end
      | Raise e => Raise e
      | Unmodelled => Unmodelled
      end
  end.

(** ** safe_extract and the flattening of last_hour_activity *)

Definition activity_defaults : list (string * Num) :=
  [("num_transactions", NaN); ("total_amount", NaN);
   ("unique_merchants", NaN); ("unique_countries", NaN);
   ("max_single_amount", NaN)].

Definition activity_keys : list string := map fst activity_defaults.

Definition safe_extract (x : PyObj) : list (string * Num) :=
  match x with
  | PyDict d => d
  | _ => activity_defaults
  end.

Definition is_dict (x : PyObj) : bool :=
  match x with
  | PyDict _ => true
  | _ => false
  end.

(** [d.get(k, nan)]. *)
Fixpoint dict_get (d : list (string * Num)) (k : string) : Num :=
  match d with
  | [] => NaN
  | (k', v) :: d' => if String.eqb k' k then v else dict_get d' k
  end.

Definition add_key (acc : list string) (k : string) : list string :=
  if bool_decide (k ∈ acc) then acc else acc ++ [k].

(** [pd.json_normalize] on flat dicts: the columns are the keys in order of
    first appearance, and a key a dict lacks is not-a-number in its row. *)
Definition normalize_columns (ds : list (list (string * Num))) : list string :=
  fold_left (fun acc d => fold_left add_key (map fst d) acc) ds [].

Definition json_normalize (ds : list (list (string * Num)))
  : list string * list (list Num) :=
  let cols := normalize_columns ds in
  (cols, map (fun d => map (dict_get d) cols) ds).

(** ** preprocess_data *)

Definition floor_timestamp (r : RawRow) : RawRow :=
  mkRawRow (floor_s (timestamp r)) (amount r) (currency r) (country r)
    (city r) (city_size r) (vendor r) (vendor_category r) (vendor_type r)
    (channel r) (device r) (card_type r) (is_card_present r)
    (is_outside_home_country r) (is_high_risk_vendor r) (is_weekend r)
    (customer_id r) (is_fraud r) (last_hour_activity r).

(** [pd.read_parquet('historical_currency_exchange.parquet')]. *)
Definition rate_table_of (rf : RateFile) : RateTable :=
  mkRateTable (file_columns rf)
    (map (fun r => mkRateRow (PyDate (fst r)) (snd r)) (file_rows rf)).

Definition read_rates (fs : Files) : M RateTable :=
  let* _ := log ReadRates in
  match rates_file fs with
  | None => raise FileNotFoundError
  | Some rf => ret (rate_table_of rf)
  end.

(** The rows of [df2.reset_index()] whose date is [d], with their index. *)
Definition matches (d : DateCell) (df2 : RateTable) : list (nat * list Num) :=
  omap (fun ir => if bool_decide (rate_date (snd ir) = d)
                  then Some (fst ir, rates (snd ir)) else None)
       (imap (fun i rr => (i, rr)) (rt_rows df2)).

(** [left.merge(right, how='left', on='date')]: every left row once per
    matching right row, in order, and once with no match. *)
Definition merge_left (left : list (RawRow * list Num * DateCell)) (df2 : RateTable)
  : list MergedRow :=
  flat_map (fun l =>
    let '(r, a, d) := l in
    match matches d df2 with
    | [] => [mkMergedRow r a d None]
    | ms => map (fun m => mkMergedRow r a d (Some m)) ms
    end) left.

(** The inner function of [preprocess_data]. With [curr = 'date'] the
    looked-up "rate" is the row's date: neither missing nor zero, and
    dividing a float by it is a [TypeError]. *)
Definition convert_to_usd (df2 : RateTable) (row : MergedRow) : result Num :=
  let curr := currency (base row) in
  if bool_decide (curr ∈ "date" :: rt_columns df2) then
    if String.eqb curr "date" then Raise TypeError
    else
      match joined_cell (rt_columns df2) row curr with
      | None => Return NaN
      | Some rate =>
          if Qeq_bool rate 0 then Return NaN
          else Return (Some (amount (base row) / rate)%Q)
      end
  else Return NaN.

Definition enrich (df2 : RateTable) (row : MergedRow) : result EnrRow :=
  match convert_to_usd df2 row with
  | Return usd =>
      Return (mkEnrRow row usd (dt_hour (timestamp (base row)))
                (dt_day_name (timestamp (base row))))
  | Raise e => Raise e
  | Unmodelled => Unmodelled
  end.

(** Lines 33 to 64 on the rows whose timestamps are normalised. Column
    names that clash (a dict key or a rate column named like another
    column) make pandas rename or overwrite columns, which the typed rows do
    not follow. *)
Definition enrich_frame (fs : Files) (rows1 : list RawRow) : M (loc * loc) :=
  let '(act_cols, act_cells) :=
    json_normalize (map (fun r => safe_extract (last_hour_activity r)) rows1) in
  if negb (bool_decide (NoDup (raw_columns ++ act_cols ++ ["date"]))) then unmodelled
  else
    let left :=
      zip_with (fun r a => (r, a, dt_date (timestamp r))) rows1 act_cells in
    let* df2 := read_rates fs in
    let* l2 := alloc (RatesFrame df2) in
    if negb (bool_decide (NoDup (enr_columns (mkEnrTable act_cols (rt_columns df2) []))))
    then unmodelled
    else
      let* rows2 := lift (apply_rows (enrich df2) (merge_left left df2)) in
      let* l := alloc (EnrichedFrame (mkEnrTable act_cols (rt_columns df2) rows2)) in
      ret (l, l2).

(** [preprocess_data(df)]; returns the locations of the two frames of the
    returned pair. The assignment to [df['timestamp']] is to the caller's
    object; every later one is to a frame the function has built itself. *)
Definition preprocess_data (fs : Files) (df : loc) : M (loc * loc) :=
  let* f := deref df in
  if frame_empty f then
    let* e := alloc NoColumns in
    ret (df, e)
  else
    match f with
    | RawFrame rows =>
        let rows1 := map floor_timestamp rows in
        let* _ := store df (RawFrame rows1) in
        enrich_frame fs rows1
    | _ => unmodelled
    end.

(** ** The module-level sampling block *)

Definition read_row_group (groups : list (list RawRow)) (rg : nat) : M (list RawRow) :=
  let* _ := log (ReadRowGroup rg) in
  match groups !! rg with
  | Some g => ret g
  | None => raise IndexError
  end.

(** [[pq_file.read_row_group(rg).to_pandas() for rg in selected_groups]]. *)
Fixpoint read_groups (groups : list (list RawRow)) (selected : list nat)
  : M (list (list RawRow)) :=
  match selected with
  | [] => ret []
  | rg :: rest =>
      let* g := read_row_group groups rg in
      let* gs := read_groups groups rest in
      ret (g :: gs)
  end.

(** [pd.concat(dfs, ignore_index=True)]; no frames to concatenate is a
    [ValueError]. *)
Definition pd_concat (dfs : list (list RawRow)) : M loc :=
  match dfs with
  | [] => raise ValueError
  | _ => alloc (RawFrame (concat dfs))
  end.

Definition row_group_reads (tr : list event) : list nat :=
  omap (fun e => match e with ReadRowGroup rg => Some rg | _ => None end) tr.

Section Sampling.

(** [random_sample G k] is what [random.sample(range(G), k)] returns in the
    run at hand. *)
Variable random_sample : nat -> nat -> list nat.

(** Lines 68 to 74 up to the concatenation, for a sample size [k]. *)
Definition read_sample (k : nat) (fs : Files) : M loc :=
  let* _ := log OpenTransactions in
  match transactions_file fs with
  | None => raise FileNotFoundError
  | Some groups =>
      let num_row_groups := length groups in
      let k' := Nat.min k num_row_groups in
      let selected_groups := random_sample num_row_groups k' in
      let* dfs_sample := read_groups groups selected_groups in
      pd_concat dfs_sample
  end.

(** The whole [try] block with its [except Exception] handler; the result
    is [(df_sampled, df2_global)]. *)
Definition load_sample (k : nat) (fs : Files) : M (loc * loc) :=
  try_except
    (let* l := read_sample k fs in preprocess_data fs l)
    (let* a := alloc NoColumns in
     let* b := alloc NoColumns in
     ret (a, b)).

(** The block as the module has it: [k = min(3, num_row_groups)]. *)
Definition sampling_block (fs : Files) : M (loc * loc) := load_sample 3 fs.

End Sampling.

(** ** filter_data *)

(** The values of the six filter controls: [None], or the selected values. *)
Record Filters : Type := mkFilters {
  vendor_cats : option (list string);
  channels : option (list string);
  countries : option (list string);
  cities : option (list string);
  is_weekend_val : option (list bool);
  is_fraud_val : option (list bool)
}.

(** [if sel and len(sel) > 0: dff = dff[dff[col].isin(sel)]]. *)
Definition isin_filter {A} `{EqDecision A} (sel : option (list A))
    (col : EnrRow -> A) (dff : list EnrRow) : list EnrRow :=
  match sel with
  | Some (v :: vs) => List.filter (fun r => bool_decide (col r ∈ v :: vs)) dff
  | _ => dff
  end.

Definition raw (r : EnrRow) : RawRow := base (merged r).

Definition apply_filters (fl : Filters) (dff : list EnrRow) : list EnrRow :=
  let dff := isin_filter (vendor_cats fl) (fun r => vendor_category (raw r)) dff in
  let dff := isin_filter (channels fl) (fun r => channel (raw r)) dff in
  let dff := isin_filter (countries fl) (fun r => country (raw r)) dff in
  let dff := isin_filter (cities fl) (fun r => city (raw r)) dff in
  let dff := isin_filter (is_weekend_val fl) (fun r => is_weekend (raw r)) dff in
  isin_filter (is_fraud_val fl) (fun r => is_fraud (raw r)) dff.

Definition selected {A} (sel : option (list A)) : bool :=
  match sel with
  | Some (_ :: _) => true
  | _ => false
  end.

(** Every filter control is empty or absent. *)
Definition no_restriction (fl : Filters) : bool :=
  negb (selected (vendor_cats fl)) && negb (selected (channels fl))
  && negb (selected (countries fl)) && negb (selected (cities fl))
  && negb (selected (is_weekend_val fl)) && negb (selected (is_fraud_val fl)).

(** The column of the first filter that is applied, if any. *)
Definition first_filter_column (fl : Filters) : option string :=
  if selected (vendor_cats fl) then Some "vendor_category"
  else if selected (channels fl) then Some "channel"
  else if selected (countries fl) then Some "country"
  else if selected (cities fl) then Some "city"
  else if selected (is_weekend_val fl) then Some "is_weekend"
  else if selected (is_fraud_val fl) then Some "is_fraud"
  else None.

(** [target_currency and target_currency != 'USD']. *)
Definition wants_conversion (target_currency : option string) : bool :=
  match target_currency with
  | Some t => negb (String.eqb t "") && negb (String.eqb t "USD")
  | None => false
  end.

Definition set_date (d : DateCell) (r : EnrRow) : EnrRow :=
  mkEnrRow (mkMergedRow (base (merged r)) (activity (merged r)) d (joined (merged r)))
    (amount_usd r) (hour r) (weekday r).

(** [df2['date'] = pd.to_datetime(df2['date'])]. *)
Definition rates_to_datetime (df2 : RateTable) : RateTable :=
  mkRateTable (rt_columns df2)
    (map (fun rr => mkRateRow (to_datetime (rate_date rr)) (rates rr)) (rt_rows df2)).

(** The cells of column [c] of [df2] in the rows dated [d]. *)
Definition target_matches (df2 : RateTable) (c : string) (d : DateCell) : list Num :=
  map (fun rr => cell (rt_columns df2) (rates rr) c)
      (List.filter (fun rr => bool_decide (rate_date rr = d)) (rt_rows df2)).

(** The lambda of the conversion branch. *)
Definition convert_row (r : EnrRow) (rate : Num) : FiltRow :=
  mkFiltRow r (Some rate)
    (if notna rate then num_mul (amount_usd r) rate else NaN).

(** [dff.merge(df2[['date', c]], on='date', how='left')] followed by the
    [apply] that fills [amount_converted]. *)
Definition merge_target (dff : list EnrRow) (df2 : RateTable) (c : string) : list FiltRow :=
  flat_map (fun r =>
    match target_matches df2 c (date (merged r)) with
    | [] => [convert_row r NaN]
    | ms => map (convert_row r) ms
    end) dff.

Definition target_rate_name (c : string) : string := c ++ "_target_rate".

(** [dff['date'] = pd.to_datetime(dff['date'])]. *)
Definition dates_to_datetime (dff : list EnrRow) : list EnrRow :=
  map (fun r => set_date (to_datetime (date (merged r))) r) dff.

(** [dff['amount_converted'] = dff['amount_usd']]. *)
Definition copy_amount_usd (dff : list EnrRow) : list FiltRow :=
  map (fun r => mkFiltRow r None (amount_usd r)) dff.

(** [filter_data(df, df2, vendor_cats, ..., target_currency)]; returns the
    location of the returned frame. [dff] starts as a copy of [df] and every
    filter builds a new frame, so the assignments to [dff] never reach the
    caller's [df]; the assignment to [df2['date']] is to the caller's
    object. Without columns, or without the columns [preprocess_data] adds,
    the first missing column is a [KeyError]. *)
Definition filter_data (df df2 : loc) (fl : Filters) (target_currency : option string)
  : M loc :=
  let* f := deref df in
  let* f2 := deref df2 in
  let convert := wants_conversion target_currency && negb (frame_empty f2) in
  match f with
  | NoColumns =>
      match first_filter_column fl with
      | Some c => raise (KeyError c)
      | None => raise (KeyError (if convert then "date" else "amount_usd"))
      end
  | RawFrame _ => raise (KeyError (if convert then "date" else "amount_usd"))
  | EnrichedFrame t =>
      if negb (bool_decide (NoDup (enr_columns t ++ ["amount_converted"]))) then unmodelled
      else
        let dff := apply_filters fl (enr_rows t) in
        if convert then
          match f2, target_currency with
          | RatesFrame rt, Some c =>
              let dff := dates_to_datetime dff in
              let rt := rates_to_datetime rt in
              let* _ := store df2 (RatesFrame rt) in
              if bool_decide (c = "date") || bool_decide (target_rate_name c ∈ enr_columns t)
              then unmodelled
              else if negb (bool_decide (c ∈ rt_columns rt)) then raise (KeyError c)
              else if bool_decide (c ∈ enr_columns t) then
                alloc (FilteredFrame
                         (mkFiltTable (activity_columns t) (rate_columns t)
                            (Some (target_rate_name c)) (merge_target dff rt c)))
              else
                match dff with
                | [] => unmodelled
                | _ => raise (KeyError (target_rate_name c))
                end
          | _, _ => unmodelled
          end
        else
          alloc (FilteredFrame
                   (mkFiltTable (activity_columns t) (rate_columns t) None
                      (copy_amount_usd dff)))
  | _ => unmodelled
  end.

(** ** The aggregations of update_graphs *)

(** [Series.sum()] and [Series.mean()] skip not-a-number cells. *)
Definition defined (xs : list Num) : list Q := omap id xs.

Definition Qsum (xs : list Q) : Q := fold_right Qplus 0%Q xs.

Definition sum_skipna (xs : list Num) : Q := Qsum (defined xs).

Definition mean_skipna (xs : list Num) : Num :=
  match defined xs with
  | [] => NaN
  | ys => Some (Qsum ys / inject_Z (Z.of_nat (length ys)))%Q
  end.

(** [Series.mean()] of a boolean column. *)
Definition mean_bool (bs : list bool) : Q :=
  (inject_Z (Z.of_nat (length (List.filter id bs))) / inject_Z (Z.of_nat (length bs)))%Q.

Record Widgets : Type := mkWidgets {
  total_transactions : nat;
  total_fraud_amount : Q;
  fraud_percentage : Q;
  avg_transaction_amount : Num
}.

Definition fraud (r : FiltRow) : bool := is_fraud (raw (enr r)).

(** Lines 725 to 728. A frame without columns has no [is_fraud], which the
    code tests for; a frame with [is_fraud] but no [amount_converted] is a
    [KeyError]. *)
Definition widgets (dff : Frame) : result Widgets :=
  match dff with
  | NoColumns => Return (mkWidgets 0 0%Q 0%Q (Some 0%Q))
  | FilteredFrame t =>
      let rows := filt_rows t in
      Return
        (mkWidgets (length rows)
           (sum_skipna (map amount_converted (List.filter fraud rows)))
           (if Nat.ltb 0 (length rows) then (mean_bool (map fraud rows) * 100)%Q else 0%Q)
           (if Nat.ltb 0 (length rows) then mean_skipna (map amount_converted rows)
            else Some 0%Q))
  | RawFrame _ | EnrichedFrame _ => Raise (KeyError "amount_converted")
  | RatesFrame _ => Unmodelled
  end.

(** [update_graphs] from the call of [filter_data] to the widget values. *)
Definition update_graphs_widgets (current_df df2 : loc) (fl : Filters)
    (target_currency : option string) : M Widgets :=
  let* dff := filter_data current_df df2 fl target_currency in
  let* f := deref dff in
  lift (widgets f).

(** *** The device ranking (lines 816 to 820) *)

(** A row of [device_stats]: the group key with the [sum] and [count] of
    [is_fraud] in the group; [fraud_ratio] is the column [sum / count]. *)
Record DeviceStat : Type := mkDeviceStat {
  ds_device : string;
  ds_sum : nat;
  ds_count : nat
}.

Definition fraud_ratio (s : DeviceStat) : Q :=
  (inject_Z (Z.of_nat (ds_sum s)) / inject_Z (Z.of_nat (ds_count s)))%Q.

Definition string_le (s1 s2 : string) : Prop := String.leb s1 s2 = true.

#[global] Instance string_le_dec : RelDecision string_le.
Proof. intros s1 s2. unfold string_le. apply _. Defined.

Definition device_of (r : FiltRow) : string := device (raw (enr r)).

(** [groupby('device')] yields one group per distinct key, keys sorted. *)
Definition group_keys (rows : list FiltRow) : list string :=
  merge_sort string_le (remove_dups (map device_of rows)).

Definition device_group (rows : list FiltRow) (d : string) : list FiltRow :=
  List.filter (fun r => String.eqb (device_of r) d) rows.

Definition device_stats (rows : list FiltRow) : list DeviceStat :=
  map (fun d =>
         let g := device_group rows d in
         mkDeviceStat d (length (List.filter fraud g)) (length g))
      (group_keys rows).

Definition min_transactions_for_device_display : nat := 5.

Definition enough_transactions (s : DeviceStat) : bool :=
  Nat.leb min_transactions_for_device_display (ds_count s).

(** [a] is ranked no lower than [b]. *)
Definition ratio_ge (a b : DeviceStat) : Prop :=
  Qle_bool (fraud_ratio b) (fraud_ratio a) = true.

#[global] Instance ratio_ge_dec : RelDecision ratio_ge.
Proof. intros a b. unfold ratio_ge. apply _. Defined.

Section DeviceRanking.

(** [sort_values(by='fraud_ratio', ascending=False)]. pandas sorts with an
    unstable quicksort, so the order of ties is not fixed: the ranking is
    stated for any function that sorts. *)
Variable sort_values : list DeviceStat -> list DeviceStat.

Definition fraud_device (rows : list FiltRow) : list DeviceStat :=
  take 20 (sort_values (List.filter enough_transactions (device_stats rows))).

End DeviceRanking.

(** ** Notions used to state the properties *)

(** The rate of currency [c] on date [d] in the rate table [df2], as the
    specification words it: not-a-number when the table has no column [c]
    or no row dated [d], and otherwise the cell of a row dated [d]. *)
Definition rate_on (df2 : RateTable) (c : string) (d : DateCell) (rate : Num) : Prop :=
  ((c ∉ rt_columns df2) ∧ rate = NaN)
  ∨ (c ∈ rt_columns df2 ∧ (∀ rr, rr ∈ rt_rows df2 → rate_date rr ≠ d) ∧ rate = NaN)
  ∨ (c ∈ rt_columns df2
     ∧ ∃ rr, rr ∈ rt_rows df2 ∧ rate_date rr = d ∧ rate = cell (rt_columns df2) (rates rr) c).

(** A rate that is exactly zero. *)
Definition is_zero (rate : Num) : Prop :=
  ∃ q, rate = Some q ∧ (q == 0)%Q.

(** What a caller can see of a call that returns two frames. *)
Definition observe (x : result (loc * loc) * State)
  : result (option Frame * option Frame) :=
  match x with
  | (Return (l, l2), st) => Return (heap st !! l, heap st !! l2)
  | (Raise e, _) => Raise e
  | (Unmodelled, _) => Unmodelled
  end.

(** The table that [df['timestamp'] = ...dt.floor('s')] leaves in the
    caller's object. *)
Definition floored (f : Frame) : Frame :=
  match f with
  | RawFrame rows => RawFrame (map floor_timestamp rows)
  | _ => f
  end.

(** "No side effects": a call leaves every object that existed before it
    as it was. *)
Definition leaves_store_unchanged (st st' : State) : Prop :=
  ∀ l, l ∈ dom (heap st) → heap st' !! l = heap st !! l.

(** The rows [preprocess_data] hands to the join: each record with its
    flattened activity cells and its date. *)
Definition left_rows (rows1 : list RawRow) : list (RawRow * list Num * DateCell) :=
  let cols := normalize_columns (map (fun r => safe_extract (last_hour_activity r)) rows1) in
  map (fun r => (r, map (dict_get (safe_extract (last_hour_activity r))) cols,
                 dt_date (timestamp r))) rows1.

(** The cell [convert_to_usd] reads as the rate. *)
Definition rate_read (df2 : RateTable) (row : MergedRow) : Num :=
  if bool_decide (currency (base row) ∈ rt_columns df2)
  then joined_cell (rt_columns df2) row (currency (base row))
  else NaN.

(** ** Sample data *)

Definition sample_row (ts : Z) (amt : Q) (cur dev : string) (fr : bool) (act : PyObj)
  : RawRow :=
  mkRawRow ts amt cur "DE" "Berlin" "large" "shop" "retail" "online" "web" dev
    "credit" true false false false "c1" fr act.

(** 100 EUR one and a half seconds into 1970-01-01, no activity summary. *)
Definition eur_row : RawRow := sample_row 1500000000 100 "EUR" "Chrome" true PyNone.

(** 50 GBP at 05:00 on 1970-01-02, with a partial activity summary. *)
Definition gbp_row : RawRow :=
  sample_row (ns_per_day + 5 * ns_per_hour) 50 "GBP" "Safari" false
    (PyDict [("num_transactions", Some 3%Q)]).

(** Rates for 1970-01-01 only: 0.9 EUR and 0.8 GBP per USD. *)
Definition sample_rates : RateFile :=
  mkRateFile ["EUR"; "GBP"] [(0%Z, [Some (9 # 10)%Q; Some (8 # 10)%Q])].

Definition sample_files : Files :=
  mkFiles (Some [[eur_row]; [gbp_row]]) (Some sample_rates).

Definition sample_state : State :=
  mkState {[1%positive := RawFrame [eur_row; gbp_row]]} [].

(** The two rows of the enriched table that [preprocess_data] builds from
    [sample_state]. *)
Definition eur_enriched : EnrRow :=
  mkEnrRow
    (mkMergedRow (floor_timestamp eur_row) [NaN; NaN; NaN; NaN; NaN] (PyDate 0)
       (Some (0, [Some (9 # 10)%Q; Some (8 # 10)%Q])))
    (Some (1000 # 9)%Q) 0 "Thursday".

Definition gbp_enriched : EnrRow :=
  mkEnrRow
    (mkMergedRow gbp_row [Some 3%Q; NaN; NaN; NaN; NaN] (PyDate 1) None)
    NaN 5 "Friday".

Definition sample_enriched : EnrTable :=
  mkEnrTable
    ["num_transactions"; "total_amount"; "unique_merchants"; "unique_countries";
     "max_single_amount"]
    ["EUR"; "GBP"] [eur_enriched; gbp_enriched].

(** A store whose only table has columns but no rows, and a disk without
    either file. *)
Definition empty_input_state : State :=
  mkState {[1%positive := RawFrame []]} [ReadRowGroup 0].

Definition no_files : Files := mkFiles None None.

(** The store after the sample has been preprocessed: the enriched table is
    at location 3 and the rate table at location 2. *)
Definition enriched_state : State :=
  snd (preprocess_data sample_files 1%positive sample_state).

(** The enriched sample next to [pd.DataFrame()] as the rate table, which
    is what [update_graphs] passes while no rates are stored. *)
Definition no_rates_state : State :=
  mkState (<[1%positive := EnrichedFrame sample_enriched]> {[2%positive := NoColumns]}) [].

Definition no_filters : Filters := mkFilters None None None None None None.

Definition only_fraud : Filters := mkFilters None None None None None (Some [true]).

(** A store whose enriched table has no rows. *)
Definition empty_enriched_state : State :=
  mkState (<[1%positive := EnrichedFrame (mkEnrTable [] ["EUR"; "GBP"] [])]>
             {[2%positive := NoColumns]}) [].

(** The conversion rule as the specification words it: with a non-USD
    target, [amount_converted] is [amount_usd] times the target's rate for
    the row's date where such a rate exists, and not-a-number otherwise,
    the rate table having no column for the target or being no rate table
    at all included; with USD it is [amount_usd]. *)
Definition claimed_amount_converted (f2 : Frame) (target_currency : option string)
    (r : FiltRow) : Prop :=
  if wants_conversion target_currency then
    match f2, target_currency with
    | RatesFrame rt, Some c =>
        ∃ rate,
          rate_on (rates_to_datetime rt) c (to_datetime (date (merged (enr r)))) rate
          ∧ amount_converted r = num_mul (amount_usd (enr r)) rate
    | _, _ => amount_converted r = NaN
    end
  else amount_converted r = amount_usd (enr r).

(** The row groups with the selected indices, in the order selected. *)
Definition selected_tables (groups : list (list RawRow)) (selected : list nat)
  : list (list RawRow) :=
  map (fun rg => default [] (groups !! rg)) selected.

(** A choice function that meets the contract of [random.sample]: the last
    [k] indices first. *)
Definition descending_sample (G k : nat) : list nat := rev (seq (G - k) k).

(** A filtered row of the given device and fraud flag. *)
Definition device_row (dev : string) (fr : bool) : FiltRow :=
  mkFiltRow
    (mkEnrRow
       (mkMergedRow (sample_row 0 10 "USD" dev fr PyNone) [] (PyDate 0) None)
       NaN 0 "Thursday")
    None NaN.

(** Five rows on one device with one fraud, four rows on another with
    nothing but fraud. *)
Definition device_sample : list FiltRow :=
  [device_row "Chrome" true; device_row "Safari" true; device_row "Chrome" false;
   device_row "Safari" true; device_row "Chrome" false; device_row "Safari" true;
   device_row "Chrome" false; device_row "Safari" true; device_row "Chrome" false].

(** ** The options of the filter controls (lines 82 to 93) *)

(** [sorted(df_sampled[col].dropna().unique()) if not df_sampled.empty else []]
    for one of the text columns of the record table. *)
Definition column_options (name : string) (col : RawRow -> string) (df_sampled : Frame)
  : result (list string) :=
  if frame_empty df_sampled then Return []
  else
    match df_sampled with
    | RawFrame rows => Return (merge_sort string_le (remove_dups (map col rows)))
    | EnrichedFrame t =>
        Return (merge_sort string_le (remove_dups (map (fun r => col (raw r)) (enr_rows t))))
    | RatesFrame _ => Raise (KeyError name)
    | _ => Unmodelled
    end.

Definition vendor_categories : Frame -> result (list string) :=
  column_options "vendor_category" vendor_category.

Definition channel_options : Frame -> result (list string) :=
  column_options "channel" channel.

Definition country_options : Frame -> result (list string) :=
  column_options "country" country.

Definition city_options : Frame -> result (list string) :=
  column_options "city" city.

(** [currency_options]: the values offered by the target-currency control;
    label and value of an option are the same string. *)
Definition currency_options (df2_global : Frame) : result (list string) :=
  match df2_global with
  | NoColumns | RatesFrame _ =>
      let options :=
        if frame_empty df2_global then []
        else
          match df2_global with
          | RatesFrame rt =>
              List.filter (fun col => negb (String.eqb col "date")) ("date" :: rt_columns rt)
          | _ => []
          end in
      Return (if bool_decide ("USD" ∈ options) then options else "USD" :: options)
  | _ => Unmodelled
  end.

(** ** toggle_info (lines 580 to 589) *)

(** A [style] property: a dict from CSS property names to values. *)
Definition Style : Type := gmap string string.

(** [toggle_info(n_clicks, current_style)]. [n_clicks] and [current_style]
    may be [None]; unpacking or assigning into [None] is a [TypeError]. *)
Definition toggle_info (n_clicks : option Z) (current_style : option Style) : result Style :=
  let clicked :=
    match n_clicks with
    | Some n => negb (Z.eqb n 0)
    | None => false
    end in
  match current_style with
  | None => Raise TypeError
  | Some cs =>
      if negb clicked then Return (cs ∪ {["display" := "none"]})
      else if bool_decide (cs !! "display" = Some "block")
      then Return (<["display" := "none"]> cs)
      else Return (<["display" := "block"]> cs)
  end.

(** ** The stores and load_full_data_to_store (lines 621 to 634) *)

(** The module's global variables once the sampling block has run. *)
Record Globals : Type := mkGlobals {
  pq_file_global : option (list (list RawRow));
  df_sampled : loc;
  df2_global : loc
}.

(** [pq_file_global.read().to_pandas()]: every row group, in file order, as
    one new frame. *)
Definition read_whole_file (groups : list (list RawRow)) : M loc :=
  let* gs := read_groups groups (seq 0 (length groups)) in
  alloc (RawFrame (concat gs)).

Section Stores.

(** [df.to_json(date_format='iso', orient='split')] and
    [pd.read_json(text, orient='split')]; either may raise. *)
Variable to_json : Frame -> result string.
Variable read_json : string -> result Frame.

(** Lines 10 to 12 and 67 to 79: the module's start. *)
Definition startup (random_sample : nat -> nat -> list nat) (fs : Files) : M Globals :=
  let* p := sampling_block random_sample fs in
  ret (mkGlobals (transactions_file fs) (fst p) (snd p)).

(** [load_full_data_to_store(n_clicks)]; the result is the pair of new
    values of the two stores. With [pq_file_global] still [None] the call of
    [read] raises inside the [try], and the handler returns. *)
Definition load_full_data_to_store (fs : Files) (g : Globals) (n_clicks : Z)
  : M (option string * option string) :=
  if Z.ltb 0 n_clicks then
    match pq_file_global g with
    | None => ret (None, None)
    | Some groups =>
        try_except
          (let* l := read_whole_file groups in
           let* p := preprocess_data fs l in
           let* df_full := deref (fst p) in
           let* full_data := lift (to_json df_full) in
           let* df2_full := deref (snd p) in
           let* exchange_rates := lift (to_json df2_full) in
           ret (Some full_data, Some exchange_rates))
          (ret (None, None))
    end
  else
    let* f2 := deref (df2_global g) in
    let* exchange_rates := lift (to_json f2) in
    ret (None, Some exchange_rates).

(** Lines 709 to 722 of [update_graphs]: the two tables are chosen from the
    stores and filtered. *)
Definition update_graphs_filtered (g : Globals)
    (fl : Filters) (target_currency : option string)
    (full_data_json exchange_rates_json : option string) : M loc :=
  let* current_df :=
    match full_data_json with
    | Some text => let* f := lift (read_json text) in alloc f
    | None => ret (df_sampled g)
    end in
  let* df2 :=
    match exchange_rates_json with
    | Some text => let* f := lift (read_json text) in alloc f
    | None => alloc NoColumns
    end in
  filter_data current_df df2 fl target_currency.

End Stores.

(** ** What update_graphs returns (lines 672 to 696, 730 to 757, 1029 to 1035) *)

(** The callback's outputs, in order: component id and property. *)
Definition update_graphs_outputs : list (string * string) :=
  [("fraud_overview", "figure"); ("fraud_ratio_by_category", "figure");
   ("fraud_vs_weekend", "figure"); ("fraud_by_hour", "figure");
   ("fraud_by_device", "figure"); ("transaction_amounts", "figure");
   ("transactions_counts", "figure"); ("last_hour_activity_correlation", "figure");
   ("amount_usd_by_country", "figure"); ("currency_usage", "figure");
   ("widget-total-transactions", "children"); ("widget-total-fraud-amount", "children");
   ("widget-fraud-percentage", "children"); ("widget-avg-transaction-amount", "children");
   ("fraud_by_vendor_type", "figure"); ("fraud_by_card_type", "figure");
   ("fraud_by_card_present", "figure"); ("fraud_outside_home_country", "figure");
   ("fraud_high_risk_vendor", "figure"); ("fraud_by_city_size", "figure");
   ("top_fraudulent_vendors", "figure"); ("top_fraudulent_cities", "figure");
   ("top_fraudulent_customers", "figure")].

(** A returned value: a figure, named by the variable that holds it, or a
    widget's text. *)
Inductive OutputValue : Type :=
  | Figure (name : string)
  | Children (text : string).

(** The tuple returned when [dff.empty]. *)
Definition empty_return (widget_vals : list string) : list OutputValue :=
  repeat (Figure "empty_fig") 19 ++ map Children widget_vals.

(** The tuple returned at the end of the function. *)
Definition full_return (widget_vals : list string) : list OutputValue :=
  map Figure
    ["fig_overview"; "fig_fraud_cat"; "fig_fraud_weekend"; "fig_fraud_hour";
     "fig_fraud_device"; "fig_amounts"; "fig_tx_counts"; "fig_corr";
     "fig_amount_usd_by_country"; "fig_currency_usage"]
  ++ map Children widget_vals
  ++ map Figure
       ["fig_vendor_type_fraud"; "fig_card_type_fraud"; "fig_card_present_fraud";
        "fig_outside_home_fraud"; "fig_high_risk_vendor_fraud"; "fig_fraud_city_size";
        "fig_top_fraud_vendors"; "fig_top_fraud_cities"; "fig_top_fraud_customers"].

(** A value fits an output when figures go to [figure] properties and text
    to [children]. *)
Definition fits (output : string * string) (v : OutputValue) : bool :=
  match v with
  | Figure _ => String.eqb (snd output) "figure"
  | Children _ => String.eqb (snd output) "children"
  end.

(** The positions at which the returned values do not fit the outputs. *)
Definition misplaced (vals : list OutputValue) : list nat :=
  omap (fun iv => if fits (nth (fst iv) update_graphs_outputs ("", "")) (snd iv)
                  then None else Some (fst iv))
       (imap (fun i v => (i, v)) vals).

Section WidgetText.

(** Python's number formatting in the four f-strings of lines 730 to 733. *)
Variable format_count : nat -> string.
Variable format_amount : Num -> option string -> string.
Variable format_percentage : Q -> string.

Definition widget_vals (w : Widgets) (target_currency : option string) : list string :=
  [format_count (total_transactions w);
   format_amount (Some (total_fraud_amount w)) target_currency;
   format_percentage (fraud_percentage w);
   format_amount (avg_transaction_amount w) target_currency].

(** Lines 725 to 757: the widget values, and the early return when the
    filtered table is empty ([None] when the function goes on to build the
    figures). *)
Definition update_graphs_early_return (dff : Frame) (target_currency : option string)
  : result (option (list OutputValue)) :=
  match widgets dff with
  | Return w =>
      if frame_empty dff then Return (Some (empty_return (widget_vals w target_currency)))
      else Return None
  | Raise e => Raise e
  | Unmodelled => Unmodelled
  end.

End WidgetText.

(** ** Further notions used to state properties *)

(** A value passes a filter control that is empty or absent, or that lists
    it. *)
Definition allowed {A} `{EqDecision A} (sel : option (list A)) (x : A) : bool :=
  match sel with
  | Some (v :: vs) => bool_decide (x ∈ v :: vs)
  | _ => true
  end.

(** A row passes all six controls. *)
Definition passes (fl : Filters) (r : EnrRow) : bool :=
  allowed (vendor_cats fl) (vendor_category (raw r))
  && allowed (channels fl) (channel (raw r))
  && allowed (countries fl) (country (raw r))
  && allowed (cities fl) (city (raw r))
  && allowed (is_weekend_val fl) (is_weekend (raw r))
  && allowed (is_fraud_val fl) (is_fraud (raw r)).

(** The number of rows a record contributes to a left join with a table
    that has [n] rows for its key. *)
Definition join_multiplicity (n : nat) : nat := Nat.max 1 n.

(** The rows of the rate table dated [d]. *)
Definition rate_rows_on (d : DateCell) (df2 : RateTable) : list RateRow :=
  List.filter (fun rr => bool_decide (rate_date rr = d)) (rt_rows df2).

Definition sum_nat (ns : list nat) : nat := fold_right Nat.add 0 ns.

(** What the handler of the sampling block leaves: two new column-less
    frames. *)
Definition no_data (st : State) : result (loc * loc) * State :=
  (Return (fresh (dom (heap st)),
           fresh (dom (<[fresh (dom (heap st)) := NoColumns]> (heap st)))),
   mkState (<[fresh (dom (<[fresh (dom (heap st)) := NoColumns]> (heap st))) := NoColumns]>
              (<[fresh (dom (heap st)) := NoColumns]> (heap st)))
           (trace st)).

(** The activity dicts of the records use no key but the five of the
    defaults. *)
Definition plain_activity (rows : list RawRow) : Prop :=
  ∀ r k, r ∈ rows →
    k ∈ map fst (safe_extract (last_hour_activity r)) → k ∈ activity_keys.

(** The globals once the module has started on the sample files, and a
    serialiser for examples. *)
Definition sample_globals : Globals :=
  mkGlobals (transactions_file sample_files) 3%positive 2%positive.

Definition frame_kind_json (f : Frame) : result string :=
  Return match f with
         | NoColumns => "{}"
         | RawFrame _ => "raw"
         | EnrichedFrame _ => "enriched"
         | FilteredFrame _ => "filtered"
         | RatesFrame _ => "rates"
         end.

(** ** The fraud rate of a device, counted on the rows *)

(** The records of device [d] in a table and the fraud records among them. *)
Definition records_of (rows : list FiltRow) (d : string) : nat :=
  length (List.filter (fun r => String.eqb (device (raw (enr r))) d) rows).

Definition fraud_records_of (rows : list FiltRow) (d : string) : nat :=
  length (List.filter
            (fun r => String.eqb (device (raw (enr r))) d && is_fraud (raw (enr r))) rows).

(** The fraud rate of [d1] is not higher than that of [d2]: the fractions
    of fraud records among the records, compared by cross-multiplication. *)
Definition rate_no_higher (rows : list FiltRow) (d1 d2 : string) : Prop :=
  (fraud_records_of rows d1 * records_of rows d2
   ≤ fraud_records_of rows d2 * records_of rows d1)%nat.

(** ** The tables of a start without data *)

(** The store the sampling block leaves when neither file can be read:
    [df_sampled] at location 1 and [df2_global] at location 2, both
    [pd.DataFrame()]. *)
Definition failed_start_state : State :=
  snd (sampling_block descending_sample no_files (mkState ∅ [])).

(** The store after [preprocess_data] was given a table without rows: the
    table itself at location 1 and [pd.DataFrame()] at location 2. *)
Definition empty_start_state : State :=
  snd (preprocess_data no_files 1%positive empty_input_state).

(** ** Limits of the embedding *)

(** Float cells are exact rationals here: a theorem says which operation
    the code applies to which values, and says nothing of the rounding or
    the overflow of binary64 arithmetic. Timestamps and dates are unbounded
    integers, where pandas keeps them in 64 bits. *)

(** *** The range of datetime64[ns] *)

(** [pd.to_datetime] raises [OutOfBoundsDatetime] for a date whose midnight
    is not a timestamp between [Timestamp.min] and [Timestamp.max]; the
    embedding of [to_datetime] does not follow it there, so a statement that
    the conversion succeeds carries the range as a hypothesis. *)
Definition datetime_min : Z := - (2 ^ 63 - 1).
Definition datetime_max : Z := 2 ^ 63 - 1.

Definition date_in_range (c : DateCell) : bool :=
  match to_datetime c with
  | Stamp ns => Z.leb datetime_min ns && Z.leb ns datetime_max
  | PyDate _ => false
  end.

(** * Properties *)

(** ** The store *)

Lemma fresh_lookup (h : gmap loc Frame) : h !! fresh (dom h) = None.
Proof. apply (not_elem_of_dom (D := gset loc)), is_fresh. Qed.

Lemma fresh_ne (h : gmap loc Frame) (l : loc) :
  is_Some (h !! l) → fresh (dom h) ≠ l.
Proof.
  intros [f Hf] Heq. rewrite <- Heq in Hf.
  rewrite fresh_lookup in Hf. discriminate.
Qed.

Lemma lookup_alloc_other (h : gmap loc Frame) (f : Frame) (l : loc) :
  is_Some (h !! l) → <[fresh (dom h) := f]> h !! l = h !! l.
Proof. intros Hl. apply lookup_insert_ne, fresh_ne, Hl. Qed.

Lemma lookup_second_alloc (h : gmap loc Frame) (f1 f2 : Frame) :
  <[fresh (dom (<[fresh (dom h) := f1]> h)) := f2]> (<[fresh (dom h) := f1]> h)
    !! fresh (dom h) = Some f1.
Proof.
  rewrite lookup_alloc_other by (rewrite lookup_insert_eq; eauto).
  apply lookup_insert_eq.
Qed.

Lemma apply_rows_Return {A B} (f : A → result B) rows out :
  apply_rows f rows = Return out → Forall2 (fun a b => f a = Return b) rows out.
Proof.
  revert out. induction rows as [|r rows IH]; simpl; intros out H.
  - injection H as <-. constructor.
  - destruct (f r) as [b| |] eqn:Hr; try discriminate.
    destruct (apply_rows f rows) as [bs| |]; try discriminate.
    injection H as <-. constructor; auto.
Qed.

Lemma floor_s_idempotent ns : floor_s (floor_s ns) = floor_s ns.
Proof.
  unfold floor_s, ns_per_second. rewrite Z.div_mul by lia. reflexivity.
Qed.

Lemma floor_timestamp_idempotent r :
  floor_timestamp (floor_timestamp r) = floor_timestamp r.
Proof. unfold floor_timestamp. simpl. rewrite floor_s_idempotent. reflexivity. Qed.

Lemma floored_idempotent f : floored (floored f) = floored f.
Proof.
  destruct f; simpl; try reflexivity.
  f_equal. rewrite map_map. apply map_ext. intros. apply floor_timestamp_idempotent.
Qed.

Lemma frame_empty_floored f : frame_empty (floored f) = frame_empty f.
Proof. destruct f; simpl; try reflexivity. unfold frame_empty. simpl. rewrite length_map. reflexivity. Qed.

(** ** preprocess_data, case by case *)

Lemma json_normalize_eq ds :
  json_normalize ds
  = (normalize_columns ds, map (fun d => map (dict_get d) (normalize_columns ds)) ds).
Proof. reflexivity. Qed.

Lemma zip_with_left_rows rows1 :
  zip_with (fun r a => (r, a, dt_date (timestamp r))) rows1
    (map (fun d => map (dict_get d)
                     (normalize_columns (map (fun r => safe_extract (last_hour_activity r)) rows1)))
         (map (fun r => safe_extract (last_hour_activity r)) rows1))
  = left_rows rows1.
Proof.
  unfold left_rows.
  generalize (normalize_columns (map (fun r => safe_extract (last_hour_activity r)) rows1)).
  intros cols. induction rows1 as [|r rows1 IH]; simpl; [reflexivity|].
  rewrite IH. reflexivity.
Qed.

Lemma enrich_frame_Return fs rows1 st l l2 st' :
  enrich_frame fs rows1 st = (Return (l, l2), st') →
  ∃ rf rows2,
    let cols := normalize_columns (map (fun r => safe_extract (last_hour_activity r)) rows1) in
    let df2 := rate_table_of rf in
    rates_file fs = Some rf
    ∧ apply_rows (enrich df2) (merge_left (left_rows rows1) df2) = Return rows2
    ∧ l2 = fresh (dom (heap st))
    ∧ l = fresh (dom (<[l2 := RatesFrame df2]> (heap st)))
    ∧ st' = mkState (<[l := EnrichedFrame (mkEnrTable cols (rt_columns df2) rows2)]>
                       (<[l2 := RatesFrame df2]> (heap st)))
                    (trace st ++ [ReadRates]).
Proof.
  unfold enrich_frame. rewrite json_normalize_eq, zip_with_left_rows.
  destruct (negb (bool_decide (NoDup _))); [discriminate|].
  unfold bind at 1. unfold read_rates, bind at 1, log. simpl.
  destruct (rates_file fs) as [rf|]; [|discriminate].
  unfold bind, ret, alloc, lift. simpl.
  destruct (negb (bool_decide (NoDup _))); [discriminate|]. simpl.
  destruct (apply_rows _ _) as [rows2| |] eqn:Happ; try discriminate.
  simpl. intros [= <- <- <-].
  exists rf, rows2. simpl. auto.
Qed.

Lemma preprocess_data_Return fs df st l l2 st' :
  preprocess_data fs df st = (Return (l, l2), st') →
  ∃ f, heap st !! df = Some f
  ∧ ((frame_empty f = true ∧ l = df ∧ l2 = fresh (dom (heap st))
      ∧ st' = mkState (<[l2 := NoColumns]> (heap st)) (trace st))
     ∨ (∃ rows, f = RawFrame rows ∧ rows ≠ []
        ∧ enrich_frame fs (map floor_timestamp rows)
            (mkState (<[df := RawFrame (map floor_timestamp rows)]> (heap st)) (trace st))
          = (Return (l, l2), st'))).
Proof.
  unfold preprocess_data, bind at 1, deref.
  destruct (heap st !! df) as [f|] eqn:Hf; [|discriminate].
  intros H. exists f. split; [reflexivity|].
  destruct (frame_empty f) eqn:He.
  - left. unfold bind, alloc, ret in H. simpl in H.
    injection H as <- <- <-. auto.
  - right. destruct f as [|rows| | |]; try discriminate.
    exists rows. split; [reflexivity|]. split.
    + intros ->. discriminate.
    + unfold bind at 1, store in H. simpl in H. exact H.
Qed.

Lemma Forall2_elem_r {A B} (P : A → B → Prop) l k y :
  Forall2 P l k → y ∈ k → ∃ x, x ∈ l ∧ P x y.
Proof.
  induction 1 as [|x y' l k Hxy _ IH]; intros Hy.
  - inversion Hy.
  - apply elem_of_cons in Hy as [->|Hy].
    + exists x. split; [left|assumption].
    + destruct (IH Hy) as (x' & Hx' & HP). exists x'. split; [right|]; assumption.
Qed.

Lemma Forall2_elem_l {A B} (P : A → B → Prop) l k x :
  Forall2 P l k → x ∈ l → ∃ y, y ∈ k ∧ P x y.
Proof.
  induction 1 as [|x' y l k Hxy _ IH]; intros Hx.
  - inversion Hx.
  - apply elem_of_cons in Hx as [->|Hx].
    + exists y. split; [left|assumption].
    + destruct (IH Hx) as (y' & Hy' & HP). exists y'. split; [right|]; assumption.
Qed.

(** *** The join *)

Lemma matches_elem d df2 i cells :
  (i, cells) ∈ matches d df2 →
  ∃ rr, rr ∈ rt_rows df2 ∧ rate_date rr = d ∧ cells = rates rr.
Proof.
  unfold matches. intros H.
  apply list_elem_of_omap in H as ([j rr] & Hin & Hsome).
  simpl in Hsome. case_bool_decide as Hd; [|discriminate].
  injection Hsome as <- <-.
  apply elem_of_lookup_imap in Hin as (j' & rr' & Heq & Hlk).
  injection Heq as <- <-.
  exists rr. split; [|auto]. eapply list_elem_of_lookup_2, Hlk.
Qed.

Lemma matches_nil d df2 :
  matches d df2 = [] → ∀ rr, rr ∈ rt_rows df2 → rate_date rr ≠ d.
Proof.
  unfold matches. intros Hnil rr Hin Hd.
  apply list_elem_of_lookup in Hin as [i Hi].
  assert (Hm : (i, rates rr) ∈
    omap (fun ir : nat * RateRow =>
            if bool_decide (rate_date (snd ir) = d)
            then Some (fst ir, rates (snd ir)) else None)
         (imap (fun i rr => (i, rr)) (rt_rows df2))).
  { apply list_elem_of_omap. exists (i, rr). split.
    - apply elem_of_lookup_imap. exists i, rr. auto.
    - simpl. rewrite bool_decide_eq_true_2 by assumption. reflexivity. }
  rewrite Hnil in Hm. inversion Hm.
Qed.

Lemma merge_left_elem left df2 m :
  m ∈ merge_left left df2 →
  (base m, activity m, date m) ∈ left
  ∧ ((joined m = None ∧ matches (date m) df2 = [])
     ∨ (∃ p, joined m = Some p ∧ p ∈ matches (date m) df2)).
Proof.
  unfold merge_left. rewrite list_elem_of_In, in_flat_map.
  intros ([[r a] d] & Hin & Hm). apply list_elem_of_In in Hin.
  destruct (matches d df2) as [|p ps] eqn:Hms.
  - destruct Hm as [<-|[]]. simpl. split; [assumption|]. left. auto.
  - apply list_elem_of_In, list_elem_of_fmap in Hm as (q & -> & Hq).
    simpl. split; [assumption|]. right. exists q. rewrite Hms. auto.
Qed.

Lemma merge_left_keeps left df2 r a d :
  (r, a, d) ∈ left →
  ∃ m, m ∈ merge_left left df2 ∧ base m = r ∧ activity m = a ∧ date m = d.
Proof.
  intros Hin. unfold merge_left.
  destruct (matches d df2) as [|p ps] eqn:Hms.
  - exists (mkMergedRow r a d None). split; [|auto].
    rewrite list_elem_of_In, in_flat_map. exists (r, a, d).
    split; [apply list_elem_of_In, Hin|]. rewrite Hms. left. reflexivity.
  - exists (mkMergedRow r a d (Some p)). split; [|auto].
    rewrite list_elem_of_In, in_flat_map. exists (r, a, d).
    split; [apply list_elem_of_In, Hin|]. rewrite Hms. left. reflexivity.
Qed.

Lemma merge_left_length left df2 :
  (length left ≤ length (merge_left left df2))%nat.
Proof.
  unfold merge_left. induction left as [|[[r a] d] left IH]; [reflexivity|].
  cbn [flat_map]. rewrite length_app.
  set (rest := flat_map _ left) in *.
  destruct (matches d df2); cbn [length map]; lia.
Qed.

Lemma left_rows_elem rows1 r a d :
  (r, a, d) ∈ left_rows rows1 ↔
  r ∈ rows1
  ∧ a = map (dict_get (safe_extract (last_hour_activity r)))
          (normalize_columns (map (fun r => safe_extract (last_hour_activity r)) rows1))
  ∧ d = dt_date (timestamp r).
Proof.
  unfold left_rows. rewrite list_elem_of_fmap. split.
  - intros (r' & Heq & Hin). injection Heq as -> -> ->. auto.
  - intros (Hin & -> & ->). exists r. auto.
Qed.

(** *** convert_to_usd *)

Lemma enrich_Return df2 m o :
  enrich df2 m = Return o →
  merged o = m ∧ convert_to_usd df2 m = Return (amount_usd o).
Proof.
  unfold enrich. destruct (convert_to_usd df2 m) as [usd| |]; try discriminate.
  intros [= <-]. auto.
Qed.

Lemma convert_to_usd_Return df2 row usd :
  convert_to_usd df2 row = Return usd →
  usd = match rate_read df2 row with
        | None => NaN
        | Some q => if Qeq_bool q 0 then NaN else Some (amount (base row) / q)%Q
        end.
Proof.
  unfold convert_to_usd, rate_read.
  destruct (String.eqb (currency (base row)) "date") eqn:Hd.
  - apply String.eqb_eq in Hd. rewrite Hd.
    rewrite bool_decide_eq_true_2 by left. discriminate.
  - apply String.eqb_neq in Hd.
    case_bool_decide as Hin.
    + apply elem_of_cons in Hin as [?|Hin]; [contradiction|].
      rewrite bool_decide_eq_true_2 by assumption.
      destruct (joined_cell _ _ _) as [q|]; [|intros [= <-]; reflexivity].
      destruct (Qeq_bool q 0); intros [= <-]; reflexivity.
    + rewrite bool_decide_eq_false_2; [intros [= <-]; reflexivity|].
      intros Hc. apply Hin. right. assumption.
Qed.

Lemma rate_read_rate_on df2 left m :
  m ∈ merge_left left df2 →
  rate_on df2 (currency (base m)) (date m) (rate_read df2 m).
Proof.
  intros Hm. apply merge_left_elem in Hm as [_ Hj].
  unfold rate_read, rate_on. case_bool_decide as Hin.
  - right. unfold joined_cell. destruct Hj as [[-> Hnil]|([i cells] & -> & Hp)].
    + left. split; [assumption|]. split; [|reflexivity]. apply matches_nil, Hnil.
    + right. split; [assumption|].
      apply matches_elem in Hp as (rr & Hrr & Hd & ->). exists rr. auto.
  - left. auto.
Qed.

(** ** Empty input *)

(** C10. On an empty input table [preprocess_data] returns that very table,
    untouched, together with a new column-less frame; nothing else in the
    store changes and no file is read, whatever the rate file holds. *)
Theorem preprocess_data_empty fs df st f :
  heap st !! df = Some f →
  frame_empty f = true →
  ∃ e st',
    preprocess_data fs df st = (Return (df, e), st')
    ∧ (e ∉ dom (heap st))
    ∧ heap st' = <[e := NoColumns]> (heap st)
    ∧ heap st' !! df = Some f
    ∧ heap st' !! e = Some NoColumns
    ∧ trace st' = trace st.
Proof.
  intros Hf He.
  exists (fresh (dom (heap st))),
         (mkState (<[fresh (dom (heap st)) := NoColumns]> (heap st)) (trace st)).
  split; [|split; [|split; [|split; [|split]]]]; simpl.
  - unfold preprocess_data, bind, deref. rewrite Hf, He. reflexivity.
  - apply is_fresh.
  - reflexivity.
  - rewrite lookup_alloc_other by eauto. exact Hf.
  - apply lookup_insert_eq.
  - reflexivity.
Qed.

Lemma preprocess_data_empty_witness :
  ∃ e st',
    preprocess_data no_files 1%positive empty_input_state = (Return (1%positive, e), st')
    ∧ (e ∉ dom (heap empty_input_state))
    ∧ heap st' = <[e := NoColumns]> (heap empty_input_state)
    ∧ heap st' !! 1%positive = Some (RawFrame [])
    ∧ heap st' !! e = Some NoColumns
    ∧ trace st' = trace empty_input_state.
Proof.
  apply (preprocess_data_empty no_files 1%positive empty_input_state (RawFrame []));
    reflexivity.
Defined.

(** ** The conversion to USD *)

(** C1. In every row of the table [preprocess_data] returns, [date] is the
    calendar date of the timestamp, and with [rate] the rate of the row's
    currency on that date in the rate table, [amount_usd] is
    [amount / rate] when the rate is defined and not zero, and it is
    not-a-number exactly when the rate is missing (no such column, no row
    for the date, or an empty cell) or is zero. *)
Theorem amount_usd_rule fs df st l l2 st' t r :
  preprocess_data fs df st = (Return (l, l2), st') →
  heap st' !! l = Some (EnrichedFrame t) →
  r ∈ enr_rows t →
  ∃ df2 rate,
    heap st' !! l2 = Some (RatesFrame df2)
    ∧ date (merged r) = dt_date (timestamp (raw r))
    ∧ rate_on df2 (currency (raw r)) (date (merged r)) rate
    ∧ (∀ q, rate = Some q → ¬ (q == 0)%Q →
         amount_usd r = Some (amount (raw r) / q)%Q)
    ∧ (amount_usd r = NaN ↔ rate = NaN ∨ is_zero rate).
Proof.
  intros Hrun Hl Hr.
  apply preprocess_data_Return in Hrun as (f & Hf & [(He & -> & -> & ->)|(rows & -> & Hne & Hrun)]).
  - simpl in Hl. rewrite lookup_alloc_other in Hl by eauto.
    rewrite Hf in Hl. injection Hl as ->.
    unfold frame_empty in He. simpl in He. apply Nat.eqb_eq in He.
    destruct (enr_rows t); [inversion Hr|discriminate].
  - apply enrich_frame_Return in Hrun as (rf & rows2 & Hrf & Happ & -> & -> & ->).
    simpl in *. rewrite lookup_insert_eq in Hl. injection Hl as <-. simpl in Hr.
    apply apply_rows_Return in Happ.
    destruct (Forall2_elem_r _ _ _ _ Happ Hr) as (m & Hm & Hen).
    apply enrich_Return in Hen as [Hmerged Husd].
    apply convert_to_usd_Return in Husd.
    exists (rate_table_of rf), (rate_read (rate_table_of rf) m).
    unfold raw. rewrite Hmerged.
    split; [|split; [|split; [|split]]].
    + rewrite lookup_insert_ne.
      * apply lookup_insert_eq.
      * apply fresh_ne. rewrite lookup_insert_eq. eauto.
    + apply merge_left_elem in Hm as [Hleft _].
      apply left_rows_elem in Hleft as (_ & _ & ->). reflexivity.
    + eapply rate_read_rate_on, Hm.
    + intros q Hq Hnz. rewrite Husd, Hq.
      destruct (Qeq_bool q 0) eqn:Hz; [|reflexivity].
      apply Qeq_bool_iff in Hz. contradiction.
    + rewrite Husd. unfold is_zero, NaN.
      destruct (rate_read (rate_table_of rf) m) as [q|]; [|intuition].
      destruct (Qeq_bool q 0) eqn:Hz.
      * apply Qeq_bool_iff in Hz. split; [|reflexivity]. intros _. right. eauto.
      * split; [discriminate|]. intros [?|(q' & [= <-] & Hq')]; [discriminate|].
        apply Qeq_bool_iff in Hq'. congruence.
Qed.

Lemma amount_usd_rule_witness :
  ∃ df2 rate,
    heap (snd (preprocess_data sample_files 1%positive sample_state)) !! 2%positive
    = Some (RatesFrame df2)
    ∧ date (merged eur_enriched) = dt_date (timestamp (raw eur_enriched))
    ∧ rate_on df2 (currency (raw eur_enriched)) (date (merged eur_enriched)) rate
    ∧ (∀ q, rate = Some q → ¬ (q == 0)%Q →
         amount_usd eur_enriched = Some (amount (raw eur_enriched) / q)%Q)
    ∧ (amount_usd eur_enriched = NaN ↔ rate = NaN ∨ is_zero rate).
Proof.
  apply (amount_usd_rule sample_files 1%positive sample_state 3%positive 2%positive
           (snd (preprocess_data sample_files 1%positive sample_state))
           sample_enriched eur_enriched).
  - vm_compute. reflexivity.
  - vm_compute. reflexivity.
  - left.
Defined.

(** ** The flattened activity columns *)

Lemma add_key_keeps acc k x : x ∈ acc → x ∈ add_key acc k.
Proof.
  unfold add_key. case_bool_decide; [auto|]. intros. apply elem_of_app. auto.
Qed.

Lemma add_key_adds acc k : k ∈ add_key acc k.
Proof.
  unfold add_key. case_bool_decide; [assumption|].
  apply elem_of_app. right. left.
Qed.

Lemma fold_add_key_keeps ks acc x : x ∈ acc → x ∈ fold_left add_key ks acc.
Proof.
  revert acc. induction ks as [|k ks IH]; simpl; intros acc Hx; [assumption|].
  apply IH, add_key_keeps, Hx.
Qed.

Lemma fold_add_key_adds ks acc k : k ∈ ks → k ∈ fold_left add_key ks acc.
Proof.
  revert acc. induction ks as [|k' ks IH]; simpl; intros acc Hk; [inversion Hk|].
  apply elem_of_cons in Hk as [->|Hk].
  - apply fold_add_key_keeps, add_key_adds.
  - apply IH, Hk.
Qed.

Lemma normalize_columns_keys ds d k :
  d ∈ ds → k ∈ map fst d → k ∈ normalize_columns ds.
Proof.
  unfold normalize_columns. generalize (@nil string) as acc.
  induction ds as [|d' ds IH]; simpl; intros acc Hd Hk; [inversion Hd|].
  apply elem_of_cons in Hd as [->|Hd].
  - clear IH. generalize (fold_add_key_adds (map fst d') acc k Hk).
    generalize (fold_left add_key (map fst d') acc) as acc'. clear.
    induction ds as [|d ds IH]; simpl; intros acc' Hin; [assumption|].
    apply IH, fold_add_key_keeps, Hin.
  - apply IH; assumption.
Qed.

Lemma cell_map (f : string → Num) cols k :
  k ∈ cols → cell cols (map f cols) k = f k.
Proof.
  induction cols as [|c cols IH]; simpl; intros Hk; [inversion Hk|].
  destruct (String.eqb c k) eqn:Hc.
  - apply String.eqb_eq in Hc. congruence.
  - apply String.eqb_neq in Hc. apply elem_of_cons in Hk as [?|Hk]; [congruence|].
    apply IH, Hk.
Qed.

Lemma dict_get_all_nan d k :
  Forall (fun kv => snd kv = NaN) d → dict_get d k = NaN.
Proof.
  induction 1 as [|[k' v] d Hv _ IH]; [reflexivity|].
  cbn [dict_get]. simpl in Hv. destruct (String.eqb k' k); assumption.
Qed.

Lemma dict_get_defaults k : dict_get activity_defaults k = NaN.
Proof. apply dict_get_all_nan. repeat constructor. Qed.

Lemma safe_extract_malformed x :
  is_dict x = false → safe_extract x = activity_defaults.
Proof. destruct x; simpl; intros; congruence. Qed.

(** C8. Every record of a table that [preprocess_data] enriches is kept: the
    output has a row for it. In every output row of a record whose
    [last_hour_activity] is not a dict, each of the five activity columns
    exists and is not-a-number; the columns of a record that has a dict hold
    that dict's own entries, whatever the other records are. *)
Theorem malformed_activity_defaults fs df st rows l l2 st' r :
  heap st !! df = Some (RawFrame rows) →
  preprocess_data fs df st = (Return (l, l2), st') →
  r ∈ rows →
  ∃ t,
    heap st' !! l = Some (EnrichedFrame t)
    ∧ (length rows ≤ length (enr_rows t))%nat
    ∧ (∃ o, o ∈ enr_rows t ∧ raw o = floor_timestamp r)
    ∧ (∀ o, o ∈ enr_rows t → raw o = floor_timestamp r →
         match last_hour_activity r with
         | PyDict d =>
             ∀ k, k ∈ activity_columns t →
               cell (activity_columns t) (activity (merged o)) k = dict_get d k
         | _ =>
             ∀ k, k ∈ activity_keys →
               k ∈ activity_columns t
               ∧ cell (activity_columns t) (activity (merged o)) k = NaN
         end).
Proof.
  intros Hdf Hrun Hr.
  apply preprocess_data_Return in Hrun as (f & Hf & [(He & _)|(rows' & Heq & Hne & Hrun)]).
  { rewrite Hdf in Hf. injection Hf as <-.
    unfold frame_empty in He. simpl in He. apply Nat.eqb_eq in He.
    destruct rows; [inversion Hr|discriminate]. }
  rewrite Hdf in Hf. injection Hf as <-. injection Heq as <-.
  apply enrich_frame_Return in Hrun as (rf & rows2 & Hrf & Happ & -> & -> & ->).
  simpl in *. eexists. split; [apply lookup_insert_eq|]. simpl.
  apply apply_rows_Return in Happ.
  set (rows1 := map floor_timestamp rows) in *.
  set (cols := normalize_columns (map (fun r => safe_extract (last_hour_activity r)) rows1)) in *.
  assert (Hr1 : floor_timestamp r ∈ rows1) by (apply list_elem_of_fmap; eauto).
  split; [|split].
  - rewrite <- (Forall2_length _ _ _ Happ).
    replace (length rows) with (length (left_rows rows1))
      by (unfold left_rows, rows1; rewrite !length_map; reflexivity).
    apply merge_left_length.
  - assert (Hleft : (floor_timestamp r,
                     map (dict_get (safe_extract (last_hour_activity (floor_timestamp r)))) cols,
                     dt_date (timestamp (floor_timestamp r))) ∈ left_rows rows1)
      by (apply left_rows_elem; auto).
    apply (merge_left_keeps _ (rate_table_of rf)) in Hleft as (m & Hm & Hb & _).
    destruct (Forall2_elem_l _ _ _ _ Happ Hm) as (o & Ho & Hen).
    apply enrich_Return in Hen as [Hmerged _].
    exists o. split; [assumption|]. unfold raw. rewrite Hmerged. exact Hb.
  - intros o Ho Hraw.
    destruct (Forall2_elem_r _ _ _ _ Happ Ho) as (m & Hm & Hen).
    apply enrich_Return in Hen as [Hmerged _].
    apply merge_left_elem in Hm as [Hleft _].
    apply left_rows_elem in Hleft as (_ & Hact & _).
    unfold raw in Hraw. rewrite Hmerged in *. rewrite Hact, Hraw. simpl.
    destruct (last_hour_activity r) as [| | |d] eqn:Hlha.
    4: { intros k Hk. apply cell_map, Hk. }
    all: intros k Hk; assert (Hcol : k ∈ cols)
      by (apply (normalize_columns_keys _ activity_defaults);
          [apply list_elem_of_fmap; exists (floor_timestamp r); simpl; rewrite Hlha; auto
          |exact Hk]);
      split; [exact Hcol|]; rewrite cell_map by exact Hcol; apply dict_get_defaults.
Qed.

Lemma malformed_activity_defaults_witness :
  ∃ t,
    heap (snd (preprocess_data sample_files 1%positive sample_state)) !! 3%positive
    = Some (EnrichedFrame t)
    ∧ (length [eur_row; gbp_row] ≤ length (enr_rows t))%nat
    ∧ (∃ o, o ∈ enr_rows t ∧ raw o = floor_timestamp eur_row)
    ∧ (∀ o, o ∈ enr_rows t → raw o = floor_timestamp eur_row →
         match last_hour_activity eur_row with
         | PyDict d =>
             ∀ k, k ∈ activity_columns t →
               cell (activity_columns t) (activity (merged o)) k = dict_get d k
         | _ =>
             ∀ k, k ∈ activity_keys →
               k ∈ activity_columns t
               ∧ cell (activity_columns t) (activity (merged o)) k = NaN
         end).
Proof.
  apply (malformed_activity_defaults sample_files 1%positive sample_state
           [eur_row; gbp_row] 3%positive 2%positive
           (snd (preprocess_data sample_files 1%positive sample_state)) eur_row).
  - reflexivity.
  - vm_compute. reflexivity.
  - left.
Defined.

(** ** Determinism and effects of preprocess_data *)

(** [enrich_frame] step by step: what it returns and the store it leaves. *)
Lemma enrich_frame_eq fs rows1 st :
  enrich_frame fs rows1 st =
  let cols := normalize_columns (map (fun r => safe_extract (last_hour_activity r)) rows1) in
  if negb (bool_decide (NoDup (raw_columns ++ cols ++ ["date"]))) then (Unmodelled, st)
  else
    match rates_file fs with
    | None => (Raise FileNotFoundError, mkState (heap st) (trace st ++ [ReadRates]))
    | Some rf =>
        let df2 := rate_table_of rf in
        let l2 := fresh (dom (heap st)) in
        let h1 := <[l2 := RatesFrame df2]> (heap st) in
        let st1 := mkState h1 (trace st ++ [ReadRates]) in
        if negb (bool_decide (NoDup (enr_columns (mkEnrTable cols (rt_columns df2) []))))
        then (Unmodelled, st1)
        else
          match apply_rows (enrich df2) (merge_left (left_rows rows1) df2) with
          | Return rows2 =>
              let l := fresh (dom h1) in
              (Return (l, l2),
               mkState (<[l := EnrichedFrame (mkEnrTable cols (rt_columns df2) rows2)]> h1)
                       (trace st ++ [ReadRates]))
          | Raise e => (Raise e, st1)
          | Unmodelled => (Unmodelled, st1)
          end
    end.
Proof.
  unfold enrich_frame. rewrite json_normalize_eq, zip_with_left_rows. cbv zeta.
  destruct (negb (bool_decide (NoDup _))); [reflexivity|].
  unfold bind at 1. unfold read_rates, bind at 1, log. simpl.
  destruct (rates_file fs) as [rf|]; [|reflexivity].
  unfold bind, ret, alloc, lift. simpl.
  destruct (negb (bool_decide (NoDup _))); [reflexivity|].
  destruct (apply_rows _ _) as [rows2| |]; reflexivity.
Qed.

Lemma enrich_frame_frame fs rows1 st r st' :
  enrich_frame fs rows1 st = (r, st') →
  (∀ l, is_Some (heap st !! l) → heap st' !! l = heap st !! l)
  ∧ (trace st' = trace st ∨ trace st' = trace st ++ [ReadRates]).
Proof.
  rewrite enrich_frame_eq. cbv zeta.
  destruct (negb (bool_decide (NoDup _))); [intros [= <- <-]; auto|].
  destruct (rates_file fs) as [rf|]; [|intros [= <- <-]; simpl; auto].
  assert (Hkeep : ∀ l, is_Some (heap st !! l) →
            <[fresh (dom (heap st)) := RatesFrame (rate_table_of rf)]> (heap st) !! l
            = heap st !! l) by (intros; apply lookup_alloc_other; assumption).
  destruct (negb (bool_decide (NoDup _))); [intros [= <- <-]; simpl; auto|].
  destruct (apply_rows _ _) as [rows2| |]; intros [= <- <-]; simpl; auto.
  split; [|auto]. intros l Hl.
  rewrite lookup_alloc_other; [auto|]. rewrite Hkeep; assumption.
Qed.

(** What [enrich_frame] returns does not depend on the store it runs in. *)
Lemma enrich_frame_observe fs rows1 st1 st2 :
  observe (enrich_frame fs rows1 st1) = observe (enrich_frame fs rows1 st2).
Proof.
  rewrite !enrich_frame_eq. cbv zeta.
  destruct (negb (bool_decide (NoDup _))); [reflexivity|].
  destruct (rates_file fs) as [rf|]; [|reflexivity].
  destruct (negb (bool_decide (NoDup _))); [reflexivity|].
  destruct (apply_rows _ _) as [rows2| |]; try reflexivity.
  simpl. rewrite !lookup_insert_eq, !lookup_second_alloc. reflexivity.
Qed.

Lemma preprocess_data_eq fs df st f :
  heap st !! df = Some f →
  preprocess_data fs df st =
  if frame_empty f then
    (Return (df, fresh (dom (heap st))),
     mkState (<[fresh (dom (heap st)) := NoColumns]> (heap st)) (trace st))
  else
    match f with
    | RawFrame rows =>
        enrich_frame fs (map floor_timestamp rows)
          (mkState (<[df := RawFrame (map floor_timestamp rows)]> (heap st)) (trace st))
    | _ => (Unmodelled, st)
    end.
Proof.
  intros Hf. unfold preprocess_data, bind at 1, deref. rewrite Hf.
  destruct (frame_empty f); [reflexivity|].
  destruct f; reflexivity.
Qed.

Lemma floored_empty_eq f1 f2 :
  floored f1 = floored f2 → frame_empty f1 = true → f1 = f2.
Proof.
  unfold frame_empty.
  destruct f1 as [|rows1| | |], f2 as [|rows2| | |]; simpl; try congruence.
  intros [= Hfl] He. apply Nat.eqb_eq in He.
  destruct rows1; [|discriminate]. destruct rows2; [reflexivity|discriminate].
Qed.

(** What [preprocess_data] returns depends on nothing but the rate file and
    the input table with its timestamps floored. *)
Lemma preprocess_data_observe fs df1 st1 f1 df2 st2 f2 :
  heap st1 !! df1 = Some f1 →
  heap st2 !! df2 = Some f2 →
  floored f1 = floored f2 →
  observe (preprocess_data fs df1 st1) = observe (preprocess_data fs df2 st2).
Proof.
  intros H1 H2 Hfl.
  assert (He : frame_empty f1 = frame_empty f2)
    by (rewrite <- (frame_empty_floored f1), Hfl; apply frame_empty_floored).
  rewrite (preprocess_data_eq _ _ _ _ H1), (preprocess_data_eq _ _ _ _ H2), <- He.
  destruct (frame_empty f1) eqn:He1.
  - apply floored_empty_eq in Hfl as <-; [|assumption].
    simpl. rewrite (lookup_alloc_other (heap st1)), (lookup_alloc_other (heap st2)) by eauto.
    rewrite !lookup_insert_eq. congruence.
  - destruct f1 as [|rows1| | |], f2 as [|rows2| | |]; try discriminate Hfl; try reflexivity.
    simpl in Hfl. injection Hfl as Hfl.
    rewrite Hfl. apply enrich_frame_observe.
Qed.

Lemma preprocess_data_frame fs df st f r st' :
  heap st !! df = Some f →
  preprocess_data fs df st = (r, st') →
  heap st' !! df = Some (floored f)
  ∧ (∀ l, l ≠ df → is_Some (heap st !! l) → heap st' !! l = heap st !! l)
  ∧ (trace st' = trace st ∨ trace st' = trace st ++ [ReadRates]).
Proof.
  intros Hf. rewrite (preprocess_data_eq _ _ _ _ Hf).
  destruct (frame_empty f) eqn:He.
  - intros [= <- <-]. simpl.
    split; [|split; [|auto]].
    + rewrite lookup_alloc_other by eauto. rewrite Hf. f_equal.
      apply floored_empty_eq; [|assumption].
      symmetry. apply floored_idempotent.
    + intros l _ Hl. apply lookup_alloc_other, Hl.
  - destruct f as [|rows| | |]; try (intros [= <- <-]; simpl; auto).
    intros Hrun.
    apply enrich_frame_frame in Hrun as [Hkeep Htr]. simpl in *.
    split; [|split; [|assumption]].
    + rewrite Hkeep by (rewrite lookup_insert_eq; eauto). apply lookup_insert_eq.
    + intros l Hne Hl. rewrite Hkeep by (rewrite lookup_insert_ne; auto).
      apply lookup_insert_ne. auto.
Qed.

(** C9, as amended. [preprocess_data] is deterministic: what it returns (the
    two tables, or the exception) is the same in every store that holds the
    same input table, and random choices play no part. It is not free of
    side effects: the caller's table is left with its timestamps floored to
    the second, and the rate file is read at most once. Nothing else that
    exists changes, and a second run on the table the first run has touched
    returns the same. *)
Theorem preprocess_data_deterministic fs df st f r st' :
  heap st !! df = Some f →
  preprocess_data fs df st = (r, st') →
  r ≠ Unmodelled →
  (∀ df' st2, heap st2 !! df' = Some f →
     observe (preprocess_data fs df' st2) = observe (r, st'))
  ∧ heap st' !! df = Some (floored f)
  ∧ (∀ l, l ≠ df → l ∈ dom (heap st) → heap st' !! l = heap st !! l)
  ∧ (trace st' = trace st ∨ trace st' = trace st ++ [ReadRates])
  ∧ observe (preprocess_data fs df st') = observe (r, st').
Proof.
  intros Hf Hrun _.
  destruct (preprocess_data_frame _ _ _ _ _ _ Hf Hrun) as (Hdf & Hkeep & Htr).
  split; [|split; [|split; [|split]]]; try assumption.
  - intros df' st2 H2. rewrite <- Hrun.
    eapply preprocess_data_observe; eauto.
  - intros l Hne Hl. apply Hkeep; [assumption|]. apply elem_of_dom, Hl.
  - rewrite <- Hrun. eapply preprocess_data_observe; eauto.
    apply floored_idempotent.
Qed.

Lemma preprocess_data_deterministic_witness :
  (∀ df' st2, heap st2 !! df' = Some (RawFrame [eur_row; gbp_row]) →
     observe (preprocess_data sample_files df' st2)
     = observe (preprocess_data sample_files 1%positive sample_state))
  ∧ heap (snd (preprocess_data sample_files 1%positive sample_state)) !! 1%positive
    = Some (floored (RawFrame [eur_row; gbp_row]))
  ∧ (∀ l, l ≠ 1%positive → l ∈ dom (heap sample_state) →
       heap (snd (preprocess_data sample_files 1%positive sample_state)) !! l
       = heap sample_state !! l)
  ∧ (trace (snd (preprocess_data sample_files 1%positive sample_state))
     = trace sample_state
     ∨ trace (snd (preprocess_data sample_files 1%positive sample_state))
       = trace sample_state ++ [ReadRates])
  ∧ observe (preprocess_data sample_files 1%positive
               (snd (preprocess_data sample_files 1%positive sample_state)))
    = observe (preprocess_data sample_files 1%positive sample_state).
Proof.
  apply (preprocess_data_deterministic sample_files 1%positive sample_state
           (RawFrame [eur_row; gbp_row])
           (fst (preprocess_data sample_files 1%positive sample_state))
           (snd (preprocess_data sample_files 1%positive sample_state))).
  - reflexivity.
  - apply surjective_pairing.
  - vm_compute. discriminate.
Defined.

(** C9, as stated, fails: the run on [sample_state] changes the table it is
    given, which existed before the call. *)
Lemma preprocess_data_mutates_input :
  ¬ leaves_store_unchanged sample_state
      (snd (preprocess_data sample_files 1%positive sample_state)).
Proof.
  intros H. specialize (H 1%positive).
  assert (Hin : 1%positive ∈ dom (heap sample_state))
    by (apply elem_of_dom; eexists; reflexivity).
  specialize (H Hin). vm_compute in H. discriminate H.
Qed.

(** ** filter_data, case by case *)

Lemma isin_filter_unselected {A} `{EqDecision A} (sel : option (list A)) col dff :
  selected sel = false → isin_filter sel col dff = dff.
Proof. destruct sel as [[|v vs]|]; simpl; intros; congruence. Qed.

Lemma apply_filters_no_restriction fl dff :
  no_restriction fl = true → apply_filters fl dff = dff.
Proof.
  unfold no_restriction, apply_filters. intros H.
  repeat (apply andb_prop in H as [H ?]).
  rewrite !isin_filter_unselected by (apply negb_true_iff; assumption).
  reflexivity.
Qed.

Lemma isin_filter_subset {A} `{EqDecision A} (sel : option (list A)) col dff r :
  r ∈ isin_filter sel col dff → r ∈ dff.
Proof.
  destruct sel as [[|v vs]|]; simpl; auto.
  rewrite !list_elem_of_In, filter_In. tauto.
Qed.

Lemma apply_filters_subset fl dff r : r ∈ apply_filters fl dff → r ∈ dff.
Proof.
  unfold apply_filters. intros H.
  repeat apply isin_filter_subset in H. exact H.
Qed.

(** [filter_data] on an enriched table, step by step. *)
Lemma filter_data_eq df df2 fl target_currency st t f2 :
  heap st !! df = Some (EnrichedFrame t) →
  heap st !! df2 = Some f2 →
  filter_data df df2 fl target_currency st =
  if negb (bool_decide (NoDup (enr_columns t ++ ["amount_converted"]))) then (Unmodelled, st)
  else
    let dff := apply_filters fl (enr_rows t) in
    if wants_conversion target_currency && negb (frame_empty f2) then
      match f2, target_currency with
      | RatesFrame rt, Some c =>
          let rt' := rates_to_datetime rt in
          let h1 := <[df2 := RatesFrame rt']> (heap st) in
          let st1 := mkState h1 (trace st) in
          if bool_decide (c = "date") || bool_decide (target_rate_name c ∈ enr_columns t)
          then (Unmodelled, st1)
          else if negb (bool_decide (c ∈ rt_columns rt')) then (Raise (KeyError c), st1)
          else if bool_decide (c ∈ enr_columns t) then
            (Return (fresh (dom h1)),
             mkState (<[fresh (dom h1) :=
                          FilteredFrame
                            (mkFiltTable (activity_columns t) (rate_columns t)
                               (Some (target_rate_name c))
                               (merge_target (dates_to_datetime dff) rt' c))]> h1)
                     (trace st))
          else
            match dates_to_datetime dff with
            | [] => (Unmodelled, st1)
            | _ => (Raise (KeyError (target_rate_name c)), st1)
            end
      | _, _ => (Unmodelled, st)
      end
    else
      (Return (fresh (dom (heap st))),
       mkState (<[fresh (dom (heap st)) :=
                    FilteredFrame
                      (mkFiltTable (activity_columns t) (rate_columns t) None
                         (copy_amount_usd dff))]> (heap st))
               (trace st)).
Proof.
  intros Hf Hf2. unfold filter_data, bind at 1, deref. rewrite Hf.
  unfold bind at 1. rewrite Hf2. cbv zeta.
  destruct (negb (bool_decide (NoDup _))); [reflexivity|].
  destruct (wants_conversion target_currency && negb (frame_empty f2)); [|reflexivity].
  destruct f2 as [| | | |rt]; try reflexivity.
  destruct target_currency as [c|]; [|reflexivity].
  unfold bind, store. simpl.
  destruct (bool_decide (c = "date") || bool_decide (target_rate_name c ∈ enr_columns t));
    [reflexivity|].
  destruct (negb (bool_decide (c ∈ rt_columns rt))); [reflexivity|].
  destruct (bool_decide (c ∈ enr_columns t)); [reflexivity|].
  destruct (dates_to_datetime _); reflexivity.
Qed.

Lemma filter_data_needs_enriched df df2 fl target_currency st l st' :
  filter_data df df2 fl target_currency st = (Return l, st') →
  ∃ t f2, heap st !! df = Some (EnrichedFrame t) ∧ heap st !! df2 = Some f2.
Proof.
  unfold filter_data, bind at 1, deref.
  destruct (heap st !! df) as [f|]; [|discriminate].
  unfold bind at 1. destruct (heap st !! df2) as [f2|]; [|discriminate].
  destruct f as [| |t| |]; try discriminate; [|eauto].
  destruct (first_filter_column fl); discriminate.
Qed.

(** The two ways [filter_data] returns. *)
Lemma filter_data_Return df df2 fl target_currency st l st' :
  filter_data df df2 fl target_currency st = (Return l, st') →
  ∃ t f2,
    heap st !! df = Some (EnrichedFrame t)
    ∧ heap st !! df2 = Some f2
    ∧ ((wants_conversion target_currency && negb (frame_empty f2) = false
        ∧ l = fresh (dom (heap st))
        ∧ st' = mkState (<[l := FilteredFrame
                                  (mkFiltTable (activity_columns t) (rate_columns t) None
                                     (copy_amount_usd (apply_filters fl (enr_rows t))))]>
                           (heap st)) (trace st))
       ∨ (wants_conversion target_currency && negb (frame_empty f2) = true
          ∧ ∃ rt c,
              f2 = RatesFrame rt ∧ target_currency = Some c ∧ c ∈ rt_columns rt
              ∧ l = fresh (dom (<[df2 := RatesFrame (rates_to_datetime rt)]> (heap st)))
              ∧ st' = mkState
                        (<[l := FilteredFrame
                                  (mkFiltTable (activity_columns t) (rate_columns t)
                                     (Some (target_rate_name c))
                                     (merge_target
                                        (dates_to_datetime (apply_filters fl (enr_rows t)))
                                        (rates_to_datetime rt) c))]>
                           (<[df2 := RatesFrame (rates_to_datetime rt)]> (heap st)))
                        (trace st))).
Proof.
  intros Hrun.
  destruct (filter_data_needs_enriched _ _ _ _ _ _ _ Hrun) as (t & f2 & Hf & Hf2).
  exists t, f2. split; [assumption|]. split; [assumption|].
  rewrite (filter_data_eq _ _ _ _ _ _ _ Hf Hf2) in Hrun. cbv zeta in Hrun.
  destruct (negb (bool_decide (NoDup _))); [discriminate|].
  destruct (wants_conversion target_currency && negb (frame_empty f2)).
  - right. split; [reflexivity|].
    destruct f2 as [| | | |rt]; try discriminate.
    destruct target_currency as [c|]; [|discriminate].
    destruct (bool_decide (c = "date") || bool_decide (target_rate_name c ∈ enr_columns t));
      [discriminate|].
    destruct (negb (bool_decide (c ∈ rt_columns (rates_to_datetime rt)))) eqn:Hc;
      [discriminate|].
    apply negb_false_iff, bool_decide_eq_true in Hc.
    destruct (bool_decide (c ∈ enr_columns t)).
    + injection Hrun as <- <-. exists rt, c. auto.
    + destruct (dates_to_datetime _); discriminate.
  - left. injection Hrun as <- <-. auto.
Qed.

(** ** The filter engine without restrictions *)

(** X24. On an enriched table whose column names are distinct, with every
    filter control empty or absent and target currency USD, [filter_data]
    returns a new table with exactly the rows of its input, in order, each
    with [amount_converted] equal to its [amount_usd]; so the mean of
    [amount_converted] is the mean of [amount_usd]. *)
Theorem filter_data_no_restriction df df2 fl st t f2 :
  heap st !! df = Some (EnrichedFrame t) →
  heap st !! df2 = Some f2 →
  NoDup (enr_columns t ++ ["amount_converted"]) →
  no_restriction fl = true →
  ∃ l st' t',
    filter_data df df2 fl (Some "USD") st = (Return l, st')
    ∧ (l ∉ dom (heap st))
    ∧ heap st' !! l = Some (FilteredFrame t')
    ∧ map enr (filt_rows t') = enr_rows t
    ∧ Forall (fun r => amount_converted r = amount_usd (enr r)) (filt_rows t')
    ∧ mean_skipna (map amount_converted (filt_rows t'))
      = mean_skipna (map amount_usd (enr_rows t)).
Proof.
  intros Hf Hf2 Hnd Hfl.
  eexists _, _, _. split; [|split; [|split; [|split; [|split]]]].
  - rewrite (filter_data_eq _ _ _ _ _ _ _ Hf Hf2). cbv zeta.
    rewrite bool_decide_eq_true_2 by assumption. simpl. reflexivity.
  - apply is_fresh.
  - simpl. apply lookup_insert_eq.
  - simpl. rewrite apply_filters_no_restriction by assumption.
    unfold copy_amount_usd. rewrite map_map. simpl. apply map_id.
  - simpl. unfold copy_amount_usd. apply Forall_forall. intros r Hr.
    apply list_elem_of_fmap in Hr as (e & -> & _). reflexivity.
  - simpl. rewrite apply_filters_no_restriction by assumption.
    unfold copy_amount_usd. rewrite map_map. reflexivity.
Qed.

Lemma filter_data_no_restriction_witness :
  ∃ l st' t',
    filter_data 3%positive 2%positive no_filters (Some "USD") enriched_state
    = (Return l, st')
    ∧ (l ∉ dom (heap enriched_state))
    ∧ heap st' !! l = Some (FilteredFrame t')
    ∧ map enr (filt_rows t') = enr_rows sample_enriched
    ∧ Forall (fun r => amount_converted r = amount_usd (enr r)) (filt_rows t')
    ∧ mean_skipna (map amount_converted (filt_rows t'))
      = mean_skipna (map amount_usd (enr_rows sample_enriched)).
Proof.
  apply (filter_data_no_restriction 3%positive 2%positive no_filters enriched_state
           sample_enriched (RatesFrame (rate_table_of sample_rates))).
  - vm_compute. reflexivity.
  - vm_compute. reflexivity.
  - apply (bool_decide_eq_true_1 _). vm_compute. reflexivity.
  - reflexivity.
Defined.

(** C7 at its failing inputs: the two tables without data that the program
    itself hands to [filter_data]. After a start without files [df_sampled]
    is [pd.DataFrame()]; after a start on a file without rows it is that
    empty table, returned by [preprocess_data] as it came. With every
    filter control absent and target USD, [filter_data] returns no table
    for either: it raises [KeyError] for [amount_usd] and leaves the store
    as it was, although the widget code that follows is written to take a
    table without columns and would show zeros for it. *)
Theorem filter_data_rejects_tables_without_data :
  sampling_block descending_sample no_files (mkState ∅ [])
  = (Return (1%positive, 2%positive), failed_start_state)
  ∧ heap failed_start_state !! 1%positive = Some NoColumns
  ∧ heap failed_start_state !! 2%positive = Some NoColumns
  ∧ preprocess_data no_files 1%positive empty_input_state
    = (Return (1%positive, 2%positive), empty_start_state)
  ∧ heap empty_start_state !! 1%positive = Some (RawFrame [])
  ∧ heap empty_start_state !! 2%positive = Some NoColumns
  ∧ no_restriction no_filters = true
  ∧ filter_data 1%positive 2%positive no_filters (Some "USD") failed_start_state
    = (Raise (KeyError "amount_usd"), failed_start_state)
  ∧ filter_data 1%positive 2%positive no_filters (Some "USD") empty_start_state
    = (Raise (KeyError "amount_usd"), empty_start_state)
  ∧ widgets NoColumns = Return (mkWidgets 0 0%Q 0%Q (Some 0%Q)).
Proof.
  repeat split; vm_compute; reflexivity.
Qed.

(** ** The widgets on an empty result *)

Lemma widgets_empty t :
  filt_rows t = [] →
  widgets (FilteredFrame t) = Return (mkWidgets 0 0%Q 0%Q (Some 0%Q)).
Proof. intros H. unfold widgets. rewrite H. reflexivity. Qed.

(** C5. Whenever [filter_data] returns a table without rows, the widget
    values that [update_graphs] computes from it are a count of 0, a fraud
    amount of 0, a fraud percentage of 0 and an average amount of 0, and the
    computation raises nothing. *)
Theorem empty_filtered_widgets current_df df2 fl target_currency st l st' f :
  filter_data current_df df2 fl target_currency st = (Return l, st') →
  heap st' !! l = Some f →
  frame_len f = 0 →
  update_graphs_widgets current_df df2 fl target_currency st
  = (Return (mkWidgets 0 0%Q 0%Q (Some 0%Q)), st').
Proof.
  intros Hrun Hl Hlen.
  unfold update_graphs_widgets, bind at 1. rewrite Hrun.
  unfold bind, deref, lift. rewrite Hl. f_equal.
  apply filter_data_Return in Hrun
    as (t & f2 & _ & _ & [(_ & -> & ->)|(_ & rt & c & _ & _ & _ & -> & ->)]);
    simpl in Hl; rewrite lookup_insert_eq in Hl; injection Hl as <-;
    apply widgets_empty; simpl in *; apply length_zero_iff_nil, Hlen.
Qed.

Lemma empty_filtered_widgets_witness :
  update_graphs_widgets 1%positive 2%positive only_fraud (Some "USD") empty_enriched_state
  = (Return (mkWidgets 0 0%Q 0%Q (Some 0%Q)),
     snd (filter_data 1%positive 2%positive only_fraud (Some "USD") empty_enriched_state)).
Proof.
  apply (empty_filtered_widgets 1%positive 2%positive only_fraud (Some "USD")
           empty_enriched_state 3%positive
           (snd (filter_data 1%positive 2%positive only_fraud (Some "USD")
                   empty_enriched_state))
           (FilteredFrame (mkFiltTable [] ["EUR"; "GBP"] None []))).
  - vm_compute. reflexivity.
  - vm_compute. reflexivity.
  - reflexivity.
Defined.

(** ** The target-currency conversion *)

Lemma target_matches_elem df2 c d rate :
  rate ∈ target_matches df2 c d →
  ∃ rr, rr ∈ rt_rows df2 ∧ rate_date rr = d ∧ rate = cell (rt_columns df2) (rates rr) c.
Proof.
  unfold target_matches. intros H.
  apply list_elem_of_fmap in H as (rr & -> & Hrr).
  apply list_elem_of_In, filter_In in Hrr as [Hin Hd].
  apply bool_decide_eq_true in Hd.
  exists rr. split; [apply list_elem_of_In, Hin|auto].
Qed.

Lemma target_matches_nil df2 c d :
  target_matches df2 c d = [] → ∀ rr, rr ∈ rt_rows df2 → rate_date rr ≠ d.
Proof.
  unfold target_matches. intros Hnil rr Hin Hd.
  apply fmap_nil_inv in Hnil.
  assert (Hf : In rr (List.filter (fun rr => bool_decide (rate_date rr = d)) (rt_rows df2))).
  { apply filter_In. split; [apply list_elem_of_In, Hin|].
    apply bool_decide_eq_true. assumption. }
  rewrite Hnil in Hf. destruct Hf.
Qed.

Lemma merge_target_elem dff df2 c r :
  c ∈ rt_columns df2 →
  r ∈ merge_target dff df2 c →
  ∃ e rate,
    e ∈ dff ∧ r = convert_row e rate ∧ rate_on df2 c (date (merged e)) rate.
Proof.
  intros Hc. unfold merge_target. rewrite list_elem_of_In, in_flat_map.
  intros (e & He & Hr). apply list_elem_of_In in He.
  destruct (target_matches df2 c (date (merged e))) as [|m ms] eqn:Hms.
  - destruct Hr as [<-|[]]. exists e, NaN. split; [assumption|]. split; [reflexivity|].
    right. left. split; [assumption|]. split; [|reflexivity].
    eapply target_matches_nil, Hms.
  - apply list_elem_of_In, list_elem_of_fmap in Hr as (rate & -> & Hrate).
    exists e, rate. split; [assumption|]. split; [reflexivity|].
    right. right. split; [assumption|].
    rewrite <- Hms in Hrate. apply target_matches_elem, Hrate.
Qed.

Lemma convert_row_amount e rate :
  amount_converted (convert_row e rate) = num_mul (amount_usd e) rate.
Proof. unfold convert_row. simpl. destruct rate, (amount_usd e); reflexivity. Qed.

(** C3, as amended. In every row of a table [filter_data] returns,
    [amount_converted] is [amount_usd] when the target currency is USD,
    empty or absent, and also when the rate table is empty, whatever the
    target; with any other target and a rate table that has rows and a
    column for the target, it is [amount_usd] times the target's rate for
    the row's date, which is not-a-number where the table has no row for
    the date or the cell is empty. *)
Theorem amount_converted_rule df df2 fl target_currency st l st' t r :
  filter_data df df2 fl target_currency st = (Return l, st') →
  heap st' !! l = Some (FilteredFrame t) →
  r ∈ filt_rows t →
  ∃ t0 f2 r0,
    heap st !! df = Some (EnrichedFrame t0)
    ∧ heap st !! df2 = Some f2
    ∧ r0 ∈ enr_rows t0
    ∧ if wants_conversion target_currency && negb (frame_empty f2) then
        ∃ rt c rate,
          f2 = RatesFrame rt ∧ target_currency = Some c ∧ c ∈ rt_columns rt
          ∧ enr r = set_date (to_datetime (date (merged r0))) r0
          ∧ target_rate r = Some rate
          ∧ rate_on (rates_to_datetime rt) c (to_datetime (date (merged r0))) rate
          ∧ amount_converted r = num_mul (amount_usd r0) rate
      else enr r = r0 ∧ amount_converted r = amount_usd r0.
Proof.
  intros Hrun Hl Hr.
  apply filter_data_Return in Hrun
    as (t0 & f2 & Hf & Hf2 & [(Hc & -> & ->)|(Hc & rt & c & -> & -> & Hcol & -> & ->)]);
    simpl in Hl; rewrite lookup_insert_eq in Hl; injection Hl as <-; simpl in Hr.
  - unfold copy_amount_usd in Hr. apply list_elem_of_fmap in Hr as (r0 & -> & Hr0).
    exists t0, f2, r0. rewrite Hc. simpl.
    split; [assumption|]. split; [assumption|].
    split; [eapply apply_filters_subset, Hr0|]. auto.
  - apply (merge_target_elem _ (rates_to_datetime rt) c r Hcol) in Hr
      as (e & rate & He & -> & Hrate).
    unfold dates_to_datetime in He. apply list_elem_of_fmap in He as (r0 & -> & Hr0).
    exists t0, (RatesFrame rt), r0. rewrite Hc.
    split; [assumption|]. split; [assumption|].
    split; [eapply apply_filters_subset, Hr0|].
    exists rt, c, rate. simpl in Hrate.
    split; [reflexivity|]. split; [reflexivity|]. split; [assumption|].
    split; [reflexivity|]. split; [reflexivity|]. split; [assumption|].
    rewrite convert_row_amount. reflexivity.
Qed.

Lemma amount_converted_rule_witness :
  ∃ t0 f2 r0,
    heap enriched_state !! 3%positive = Some (EnrichedFrame t0)
    ∧ heap enriched_state !! 2%positive = Some f2
    ∧ r0 ∈ enr_rows t0
    ∧ if wants_conversion (Some "GBP") && negb (frame_empty f2) then
        ∃ rt c rate,
          f2 = RatesFrame rt ∧ Some "GBP" = Some c ∧ c ∈ rt_columns rt
          ∧ enr (convert_row (set_date (Stamp 0) eur_enriched) (Some (8 # 10)%Q))
            = set_date (to_datetime (date (merged r0))) r0
          ∧ target_rate (convert_row (set_date (Stamp 0) eur_enriched) (Some (8 # 10)%Q))
            = Some rate
          ∧ rate_on (rates_to_datetime rt) c (to_datetime (date (merged r0))) rate
          ∧ amount_converted
              (convert_row (set_date (Stamp 0) eur_enriched) (Some (8 # 10)%Q))
            = num_mul (amount_usd r0) rate
      else enr (convert_row (set_date (Stamp 0) eur_enriched) (Some (8 # 10)%Q)) = r0
           ∧ amount_converted
               (convert_row (set_date (Stamp 0) eur_enriched) (Some (8 # 10)%Q))
             = amount_usd r0.
Proof.
  apply (amount_converted_rule 3%positive 2%positive no_filters (Some "GBP")
           enriched_state 4%positive
           (snd (filter_data 3%positive 2%positive no_filters (Some "GBP") enriched_state))
           (mkFiltTable (activity_columns sample_enriched) (rate_columns sample_enriched)
              (Some "GBP_target_rate")
              [convert_row (set_date (Stamp 0) eur_enriched) (Some (8 # 10)%Q);
               convert_row (set_date (Stamp ns_per_day) gbp_enriched) NaN])).
  - vm_compute. reflexivity.
  - vm_compute. reflexivity.
  - left.
Defined.

(** C3, as stated, fails: with target EUR and no rate table there is no
    rate for any date, yet the returned row carries its [amount_usd] as
    [amount_converted] instead of not-a-number. *)
Lemma amount_converted_without_rates :
  ∃ l st' t r,
    heap no_rates_state !! 2%positive = Some NoColumns
    ∧ filter_data 1%positive 2%positive no_filters (Some "EUR") no_rates_state
      = (Return l, st')
    ∧ heap st' !! l = Some (FilteredFrame t)
    ∧ r ∈ filt_rows t
    ∧ amount_converted r = Some (1000 # 9)%Q
    ∧ ¬ claimed_amount_converted NoColumns (Some "EUR") r.
Proof.
  exists 3%positive,
    (snd (filter_data 1%positive 2%positive no_filters (Some "EUR") no_rates_state)),
    (mkFiltTable (activity_columns sample_enriched) (rate_columns sample_enriched) None
       (copy_amount_usd [eur_enriched; gbp_enriched])),
    (mkFiltRow eur_enriched None (Some (1000 # 9)%Q)).
  split; [reflexivity|]. split; [vm_compute; reflexivity|].
  split; [vm_compute; reflexivity|]. split; [left|]. split; [reflexivity|].
  unfold claimed_amount_converted. simpl. discriminate.
Qed.

(** ** What filter_data does to its arguments *)

(** Every object other than the rate table is left as it was. *)
Lemma filter_data_keeps_others df df2 fl target_currency st r st' l :
  filter_data df df2 fl target_currency st = (r, st') →
  l ≠ df2 → is_Some (heap st !! l) → heap st' !! l = heap st !! l.
Proof.
  intros Hrun Hne Hl.
  destruct (heap st !! df) as [f|] eqn:Hf.
  2: { unfold filter_data, bind at 1, deref in Hrun. rewrite Hf in Hrun.
       injection Hrun as <- <-. reflexivity. }
  destruct (heap st !! df2) as [f2|] eqn:Hf2.
  2: { unfold filter_data, bind at 1, deref in Hrun. rewrite Hf in Hrun.
       unfold bind at 1 in Hrun. rewrite Hf2 in Hrun.
       injection Hrun as <- <-. reflexivity. }
  destruct f as [| |t| |].
  3: { rewrite (filter_data_eq _ _ _ _ _ _ _ Hf Hf2) in Hrun. cbv zeta in Hrun.
       assert (Hk : <[df2 := RatesFrame (rates_to_datetime
                        match f2 with RatesFrame rt => rt | _ => mkRateTable [] [] end)]>
                      (heap st) !! l = heap st !! l)
         by (apply lookup_insert_ne; auto).
       destruct (negb (bool_decide (NoDup _))); [injection Hrun as <- <-; reflexivity|].
       destruct (wants_conversion target_currency && negb (frame_empty f2)).
       - destruct f2 as [| | | |rt]; try (injection Hrun as <- <-; reflexivity).
         destruct target_currency as [c|]; [|injection Hrun as <- <-; reflexivity].
         destruct (bool_decide (c = "date") || bool_decide (target_rate_name c ∈ enr_columns t));
           [injection Hrun as <- <-; exact Hk|].
         destruct (negb (bool_decide (c ∈ rt_columns (rates_to_datetime rt))));
           [injection Hrun as <- <-; exact Hk|].
         destruct (bool_decide (c ∈ enr_columns t)).
         + injection Hrun as <- <-. simpl.
           rewrite lookup_alloc_other; [exact Hk|]. rewrite Hk. assumption.
         + destruct (dates_to_datetime _); injection Hrun as <- <-; exact Hk.
       - injection Hrun as <- <-. simpl. apply lookup_alloc_other, Hl. }
  all: unfold filter_data, bind at 1, deref in Hrun; rewrite Hf in Hrun;
    unfold bind at 1 in Hrun; rewrite Hf2 in Hrun;
    try destruct (first_filter_column fl); injection Hrun as <- <-; reflexivity.
Qed.

(** C2 at its failing input: called on the two tables that
    [preprocess_data] returned, with target GBP, [filter_data] returns a new
    table and leaves the record table alone, but the rate table it was
    given no longer holds what it held: its dates have become timestamps. *)
Theorem filter_data_mutates_rate_table :
  ∃ l st',
    filter_data 3%positive 2%positive no_filters (Some "GBP") enriched_state
    = (Return l, st')
    ∧ (l ∉ dom (heap enriched_state))
    ∧ heap st' !! 3%positive = heap enriched_state !! 3%positive
    ∧ heap enriched_state !! 2%positive
      = Some (RatesFrame (mkRateTable ["EUR"; "GBP"]
                [mkRateRow (PyDate 0) [Some (9 # 10)%Q; Some (8 # 10)%Q]]))
    ∧ heap st' !! 2%positive
      = Some (RatesFrame (mkRateTable ["EUR"; "GBP"]
                [mkRateRow (Stamp 0) [Some (9 # 10)%Q; Some (8 # 10)%Q]]))
    ∧ heap st' !! 2%positive ≠ heap enriched_state !! 2%positive.
Proof.
  exists 4%positive,
    (snd (filter_data 3%positive 2%positive no_filters (Some "GBP") enriched_state)).
  split; [vm_compute; reflexivity|].
  split; [apply (not_elem_of_dom (D := gset loc)); vm_compute; reflexivity|].
  split; [vm_compute; reflexivity|].
  split; [vm_compute; reflexivity|].
  split; [vm_compute; reflexivity|].
  vm_compute. discriminate.
Qed.

(** ** The device ranking *)

Lemma ratio_ge_total : Total ratio_ge.
Proof.
  intros a b. unfold ratio_ge. rewrite !Qle_bool_iff.
  destruct (Qlt_le_dec (fraud_ratio a) (fraud_ratio b)) as [H|H]; [right|left].
  - apply Qlt_le_weak, H.
  - exact H.
Qed.

Lemma ratio_ge_trans : Transitive ratio_ge.
Proof.
  intros a b c. unfold ratio_ge. rewrite !Qle_bool_iff.
  intros Hab Hbc. eapply Qle_trans; eassumption.
Qed.

Lemma device_stats_groups rows s :
  s ∈ device_stats rows →
  ds_count s = length (device_group rows (ds_device s))
  ∧ ds_sum s = length (List.filter fraud (device_group rows (ds_device s)))
  ∧ ∃ r, r ∈ rows ∧ device_of r = ds_device s.
Proof.
  unfold device_stats. intros H.
  apply list_elem_of_fmap in H as (d & -> & Hd). simpl.
  split; [reflexivity|]. split; [reflexivity|].
  unfold group_keys in Hd. rewrite merge_sort_Permutation in Hd.
  apply elem_of_remove_dups, list_elem_of_fmap in Hd as (r & -> & Hr). eauto.
Qed.

Lemma device_stats_covers rows r :
  r ∈ rows → ∃ s, s ∈ device_stats rows ∧ ds_device s = device_of r.
Proof.
  intros Hr. eexists. split.
  - unfold device_stats. apply list_elem_of_fmap. exists (device_of r).
    split; [reflexivity|].
    unfold group_keys. rewrite merge_sort_Permutation.
    apply elem_of_remove_dups, list_elem_of_fmap. eauto.
  - reflexivity.
Qed.

Lemma group_keys_NoDup rows : NoDup (group_keys rows).
Proof.
  unfold group_keys. rewrite merge_sort_Permutation.
  apply NoDup_remove_dups.
Qed.

Lemma group_keys_elem rows d :
  d ∈ group_keys rows ↔ ∃ r, r ∈ rows ∧ device_of r = d.
Proof.
  unfold group_keys. rewrite merge_sort_Permutation, elem_of_remove_dups.
  rewrite list_elem_of_fmap. split; intros (r & H1 & H2); eauto.
Qed.

Lemma device_stats_devices rows : map ds_device (device_stats rows) = group_keys rows.
Proof.
  unfold device_stats. rewrite map_map. simpl. apply map_id.
Qed.

Lemma filter_and {A} (p q : A → bool) l :
  List.filter q (List.filter p l) = List.filter (fun x => p x && q x) l.
Proof.
  induction l as [|x l IH]; [reflexivity|]. simpl.
  destruct (p x); simpl; [destruct (q x)|]; rewrite IH; reflexivity.
Qed.

(** The two aggregates of a group are the counts taken on the rows. *)
Lemma device_stats_counts rows s :
  s ∈ device_stats rows →
  ds_count s = records_of rows (ds_device s)
  ∧ ds_sum s = fraud_records_of rows (ds_device s).
Proof.
  intros Hs. apply device_stats_groups in Hs as (Hc & Hf & _).
  split; [exact Hc|]. rewrite Hf. unfold device_group. rewrite filter_and. reflexivity.
Qed.

Lemma records_of_device rows d :
  (0 < records_of rows d)%nat → ∃ r, r ∈ rows ∧ device_of r = d.
Proof.
  unfold records_of. intros Hlen.
  destruct (List.filter _ rows) as [|r rest] eqn:Hf; [simpl in Hlen; lia|].
  assert (Hin : In r (List.filter (fun r => String.eqb (device (raw (enr r))) d) rows))
    by (rewrite Hf; left; reflexivity).
  apply filter_In in Hin as [Hin Hd]. apply String.eqb_eq in Hd.
  exists r. split; [apply list_elem_of_In, Hin|exact Hd].
Qed.

(** The candidates that pass the count filter are the devices with at least
    5 records. *)
Lemma eligible_devices rows d :
  d ∈ map ds_device (List.filter enough_transactions (device_stats rows))
  ↔ (5 ≤ records_of rows d)%nat.
Proof.
  rewrite list_elem_of_fmap. split.
  - intros (s & -> & Hs). apply list_elem_of_In, filter_In in Hs as [Hs Hen].
    apply list_elem_of_In, device_stats_counts in Hs as [<- _].
    apply Nat.leb_le, Hen.
  - intros Hd.
    assert (Hkey : d ∈ group_keys rows)
      by (apply group_keys_elem, records_of_device; lia).
    rewrite <- device_stats_devices in Hkey.
    apply list_elem_of_fmap in Hkey as (s & -> & Hs).
    exists s. split; [reflexivity|].
    apply list_elem_of_In, filter_In. split; [apply list_elem_of_In, Hs|].
    apply Nat.leb_le. apply device_stats_counts in Hs as [-> _]. exact Hd.
Qed.

Lemma NoDup_map_filter {A B} (f : A → B) (p : A → bool) l :
  NoDup (map f l) → NoDup (map f (List.filter p l)).
Proof.
  induction l as [|x l IH]; simpl; intros Hnd; [constructor|].
  apply NoDup_cons in Hnd as [Hx Hnd]. destruct (p x); [|auto].
  simpl. apply NoDup_cons. split; [|auto].
  intros Hin. apply Hx. apply list_elem_of_fmap in Hin as (y & -> & Hy).
  apply list_elem_of_fmap. exists y. split; [reflexivity|].
  apply list_elem_of_In, filter_In in Hy as [Hy _]. apply list_elem_of_In, Hy.
Qed.

(** The order of the computed ratios is the order of the fractions. *)
Lemma ratio_ge_cross a b :
  (0 < ds_count a)%nat → (0 < ds_count b)%nat →
  ratio_ge a b →
  (ds_sum b * ds_count a ≤ ds_sum a * ds_count b)%nat.
Proof.
  intros Ha Hb. unfold ratio_ge, fraud_ratio. rewrite Qle_bool_iff.
  set (sa := inject_Z (Z.of_nat (ds_sum a))). set (ca := inject_Z (Z.of_nat (ds_count a))).
  set (sb := inject_Z (Z.of_nat (ds_sum b))). set (cb := inject_Z (Z.of_nat (ds_count b))).
  intros Hle.
  assert (Hpa : (0 < ca)%Q) by (unfold ca, Qlt; simpl; lia).
  assert (Hpb : (0 < cb)%Q) by (unfold cb, Qlt; simpl; lia).
  assert (Hna : ¬ (ca == 0)%Q) by (intros H0; rewrite H0 in Hpa; discriminate).
  assert (Hnb : ¬ (cb == 0)%Q) by (intros H0; rewrite H0 in Hpb; discriminate).
  assert (H1 : (sb / cb * (ca * cb) == sb * ca)%Q) by (field; exact Hnb).
  assert (H2 : (sa / ca * (ca * cb) == sa * cb)%Q) by (field; exact Hna).
  assert (Hq : (sb * ca <= sa * cb)%Q).
  { rewrite <- H1, <- H2. apply Qmult_le_compat_r; [exact Hle|].
    apply Qlt_le_weak, Qmult_lt_0_compat; assumption. }
  unfold sa, ca, sb, cb in Hq. rewrite <- !inject_Z_mult, <- Zle_Qle in Hq. lia.
Qed.

Lemma StronglySorted_impl {A} (R R' : A → A → Prop) l :
  (∀ x y, x ∈ l → y ∈ l → R x y → R' x y) →
  StronglySorted R l → StronglySorted R' l.
Proof.
  intros Himpl Hs. induction Hs as [|x l Hs IH Hall]; [constructor|].
  constructor.
  - apply IH. intros a b Ha Hb. apply Himpl; right; assumption.
  - rewrite List.Forall_forall in Hall |- *. intros y Hy.
    apply Himpl; [left|right; apply list_elem_of_In, Hy|apply Hall, Hy].
Qed.

Section DeviceRankingFacts.

Variable sort_values : list DeviceStat → list DeviceStat.
Hypothesis sort_values_permutation : ∀ l, sort_values l ≡ₚ l.
Hypothesis sort_values_sorted : ∀ l, StronglySorted ratio_ge (sort_values l).

(** C6. The device ranking has one candidate per device of the table, with
    the number of its records as [count] and the number of its fraud
    records as [sum]. A device with fewer than 5 records is never reported,
    whatever its fraud rate; every reported device has at least 5. The
    report names no device twice, is sorted by fraud rate, highest first,
    and holds 20 devices, or all that have at least 5 records if those are
    fewer; a device with at least 5 records that is left out has no higher
    a fraud rate than any reported one. The fraud rate is the fraction of
    fraud records among the device's records, counted on the rows. *)
Theorem device_ranking rows :
  (∀ r, r ∈ rows → ∃ s, s ∈ device_stats rows ∧ ds_device s = device_of r)
  ∧ (∀ s, s ∈ device_stats rows →
       ds_count s = length (device_group rows (ds_device s)))
  ∧ (∀ s, s ∈ device_stats rows → (ds_count s < 5)%nat →
       s ∉ fraud_device sort_values rows)
  ∧ (∀ s, s ∈ fraud_device sort_values rows →
       s ∈ device_stats rows ∧ (5 ≤ ds_count s)%nat)
  ∧ StronglySorted ratio_ge (fraud_device sort_values rows)
  ∧ length (fraud_device sort_values rows)
    = Nat.min 20 (length (List.filter enough_transactions (device_stats rows)))
  ∧ (∃ rest,
      List.filter enough_transactions (device_stats rows)
        ≡ₚ fraud_device sort_values rows ++ rest
      ∧ ∀ x y, x ∈ fraud_device sort_values rows → y ∈ rest →
          (fraud_ratio y <= fraud_ratio x)%Q)
  ∧ (∀ s, s ∈ device_stats rows →
       ds_count s = records_of rows (ds_device s)
       ∧ ds_sum s = fraud_records_of rows (ds_device s))
  ∧ NoDup (map ds_device (List.filter enough_transactions (device_stats rows)))
  ∧ (∀ d, d ∈ map ds_device (List.filter enough_transactions (device_stats rows))
          ↔ (5 ≤ records_of rows d)%nat)
  ∧ NoDup (map ds_device (fraud_device sort_values rows))
  ∧ (∀ d, d ∈ map ds_device (fraud_device sort_values rows) →
          (5 ≤ records_of rows d)%nat)
  ∧ StronglySorted (fun x y => rate_no_higher rows (ds_device y) (ds_device x))
      (fraud_device sort_values rows)
  ∧ (∀ d x, (5 ≤ records_of rows d)%nat →
       (d ∉ map ds_device (fraud_device sort_values rows)) →
       x ∈ fraud_device sort_values rows →
       length (fraud_device sort_values rows) = 20%nat
       ∧ rate_no_higher rows d (ds_device x)).
Proof.
  set (eligible := List.filter enough_transactions (device_stats rows)).
  assert (Hsplit : fraud_device sort_values rows ++ drop 20 (sort_values eligible)
                   = sort_values eligible) by apply take_drop.
  assert (Helig : ∀ s, s ∈ sort_values eligible →
                    s ∈ device_stats rows ∧ (5 ≤ ds_count s)%nat).
  { intros s Hs. rewrite sort_values_permutation in Hs.
    apply list_elem_of_In, filter_In in Hs as [Hs Hen].
    split; [apply list_elem_of_In, Hs|]. apply Nat.leb_le in Hen. exact Hen. }
  assert (Hin : ∀ s, s ∈ fraud_device sort_values rows →
                  s ∈ device_stats rows ∧ (5 ≤ ds_count s)%nat).
  { intros s Hs. apply Helig. rewrite <- Hsplit. apply elem_of_app. auto. }
  assert (Hcross : ∀ x y, x ∈ sort_values eligible → y ∈ sort_values eligible →
                     ratio_ge x y → rate_no_higher rows (ds_device y) (ds_device x)).
  { intros x y Hx Hy Hge.
    destruct (Helig _ Hx) as [Hxs Hx5]. destruct (Helig _ Hy) as [Hys Hy5].
    unfold rate_no_higher.
    destruct (device_stats_counts _ _ Hxs) as [<- <-].
    destruct (device_stats_counts _ _ Hys) as [<- <-].
    apply ratio_ge_cross; [lia|lia|exact Hge]. }
  assert (Hnd : NoDup (map ds_device eligible)).
  { apply NoDup_map_filter. rewrite device_stats_devices. apply group_keys_NoDup. }
  assert (Hnd' : NoDup (map ds_device (sort_values eligible)))
    by (rewrite sort_values_permutation; exact Hnd).
  assert (Hsorted : StronglySorted ratio_ge (fraud_device sort_values rows))
    by (eapply StronglySorted_app_1_l; rewrite Hsplit; apply sort_values_sorted).
  split; [apply device_stats_covers|].
  split; [intros s Hs; apply device_stats_groups, Hs|].
  split; [intros s _ Hlt Hs; apply Hin in Hs as [_ Hge]; lia|].
  split; [exact Hin|].
  split; [exact Hsorted|].
  split; [unfold fraud_device; rewrite length_take;
          rewrite (Permutation_length (sort_values_permutation _)); reflexivity|].
  split.
  { exists (drop 20 (sort_values eligible)). split.
    - rewrite Hsplit. symmetry. apply sort_values_permutation.
    - intros x y Hx Hy. apply Qle_bool_iff.
      apply (StronglySorted_app_1_elem_of ratio_ge
               (fraud_device sort_values rows) (drop 20 (sort_values eligible)));
        [rewrite Hsplit; apply sort_values_sorted|assumption|assumption]. }
  split; [apply device_stats_counts|].
  split; [exact Hnd|].
  split; [apply eligible_devices|].
  split.
  { rewrite <- Hsplit, fmap_app in Hnd'. apply NoDup_app in Hnd' as [Hnd' _]. exact Hnd'. }
  split.
  { intros d Hd. apply eligible_devices. fold eligible.
    rewrite <- (sort_values_permutation eligible), <- Hsplit, fmap_app.
    apply elem_of_app. left. exact Hd. }
  split.
  { eapply StronglySorted_impl; [|exact Hsorted].
    intros x y Hx Hy. apply Hcross; rewrite <- Hsplit; apply elem_of_app; auto. }
  intros d x Hd Hout Hx.
  apply eligible_devices in Hd. fold eligible in Hd.
  rewrite <- (sort_values_permutation eligible), <- Hsplit, fmap_app in Hd.
  apply elem_of_app in Hd as [Hd|Hd]; [contradiction|].
  apply list_elem_of_fmap in Hd as (y & -> & Hy). split.
  - unfold fraud_device. rewrite length_take.
    destruct (le_lt_dec (length (sort_values eligible)) 20) as [Hle|Hlt];
      [|unfold eligible in Hlt; lia].
    rewrite drop_ge in Hy by exact Hle. inversion Hy.
  - apply Hcross.
    + rewrite <- Hsplit. apply elem_of_app. auto.
    + rewrite <- Hsplit. apply elem_of_app. auto.
    + apply (StronglySorted_app_1_elem_of ratio_ge
               (fraud_device sort_values rows) (drop 20 (sort_values eligible)));
        [rewrite Hsplit; apply sort_values_sorted|assumption|assumption].
Qed.

End DeviceRankingFacts.

Lemma device_ranking_witness :
  fraud_device (merge_sort ratio_ge) device_sample = [mkDeviceStat "Chrome" 1 5]
  ∧ (∀ s, s ∈ device_stats device_sample → (ds_count s < 5)%nat →
       s ∉ fraud_device (merge_sort ratio_ge) device_sample)
  ∧ mkDeviceStat "Safari" 4 4 ∈ device_stats device_sample.
Proof.
  split; [vm_compute; reflexivity|]. split.
  - apply (device_ranking (merge_sort ratio_ge)
             (merge_sort_Permutation ratio_ge)
             (@StronglySorted_merge_sort _ ratio_ge _ ratio_ge_trans ratio_ge_total)
             device_sample).
  - vm_compute. right. left.
Defined.

(** ** The sampler *)

Lemma row_group_reads_map selected :
  row_group_reads (map ReadRowGroup selected) = selected.
Proof.
  unfold row_group_reads. induction selected as [|rg sel IH]; [reflexivity|].
  cbn. f_equal. exact IH.
Qed.

Lemma read_groups_run groups selected st :
  Forall (fun rg => (rg < length groups)%nat) selected →
  read_groups groups selected st
  = (Return (selected_tables groups selected),
     mkState (heap st) (trace st ++ map ReadRowGroup selected)).
Proof.
  intros Hsel. revert st. induction Hsel as [|rg sel Hrg _ IH]; intros st.
  - simpl. unfold ret. rewrite app_nil_r. destruct st; reflexivity.
  - cbn [read_groups]. unfold bind at 1. unfold read_row_group, bind at 1, log.
    destruct (lookup_lt_is_Some_2 groups rg Hrg) as [g Hg]. rewrite Hg.
    unfold ret at 1. unfold bind at 1. rewrite IH. unfold ret. cbn.
    rewrite Hg. rewrite <- app_assoc. reflexivity.
Qed.

(** [preprocess_data] reads no row group. *)
Lemma preprocess_data_row_groups fs df st r st' :
  preprocess_data fs df st = (r, st') →
  row_group_reads (trace st') = row_group_reads (trace st).
Proof.
  intros Hrun. destruct (heap st !! df) as [f|] eqn:Hf.
  - destruct (preprocess_data_frame _ _ _ _ _ _ Hf Hrun) as (_ & _ & [Htr|Htr]);
      rewrite Htr; [reflexivity|].
    unfold row_group_reads. rewrite omap_app. apply app_nil_r.
  - unfold preprocess_data, bind, deref in Hrun. rewrite Hf in Hrun.
    injection Hrun as <- <-. reflexivity.
Qed.

Section SamplingFacts.

Variable random_sample : nat → nat → list nat.

(** The contract of [random.sample(range(G), k)] for [k <= G]: [k] distinct
    elements of the population. *)
Hypothesis random_sample_distinct :
  ∀ G k, (k ≤ G)%nat →
    length (random_sample G k) = k
    ∧ NoDup (random_sample G k)
    ∧ Forall (fun rg => (rg < G)%nat) (random_sample G k).

(** C4. With [G] row groups in the file and sample size [k], the block
    reads the row groups that [random.sample] selected and no others, each
    once: [min k G] distinct groups, which are all the groups, each exactly
    once, when [G <= k]. The table handed to [preprocess_data] is the
    concatenation of those groups and nothing else; with no group at all
    there is nothing to concatenate. *)
Theorem sampler_reads k fs groups st :
  transactions_file fs = Some groups →
  let G := length groups in
  let selected := random_sample G (Nat.min k G) in
  row_group_reads (trace (snd (load_sample random_sample k fs st)))
    = row_group_reads (trace st) ++ selected
  ∧ length selected = Nat.min k G
  ∧ NoDup selected
  ∧ Forall (fun rg => (rg < G)%nat) selected
  ∧ ((G ≤ k)%nat → selected ≡ₚ seq 0 G)
  ∧ read_sample random_sample k fs st
    = match selected with
      | [] =>
          (Raise ValueError, mkState (heap st) (trace st ++ [OpenTransactions]))
      | _ =>
          (Return (fresh (dom (heap st))),
           mkState (<[fresh (dom (heap st)) :=
                        RawFrame (concat (selected_tables groups selected))]> (heap st))
                   (trace st ++ OpenTransactions :: map ReadRowGroup selected))
      end.
Proof.
  intros Hfile G selected.
  destruct (random_sample_distinct G (Nat.min k G) (Nat.le_min_r k G))
    as (Hlen & Hnd & Hlt).
  fold selected in Hlen, Hnd, Hlt.
  assert (Hread : read_sample random_sample k fs st
    = match selected with
      | [] =>
          (Raise ValueError, mkState (heap st) (trace st ++ [OpenTransactions]))
      | _ =>
          (Return (fresh (dom (heap st))),
           mkState (<[fresh (dom (heap st)) :=
                        RawFrame (concat (selected_tables groups selected))]> (heap st))
                   (trace st ++ OpenTransactions :: map ReadRowGroup selected))
      end).
  { unfold read_sample, bind at 1, log. rewrite Hfile. cbv zeta.
    unfold bind. fold G. fold selected. rewrite read_groups_run by exact Hlt.
    cbn [heap trace]. rewrite <- app_assoc. cbn [app].
    destruct selected as [|rg sel]; reflexivity. }
  split; [|split; [|split; [|split; [|split]]]]; try assumption.
  - unfold load_sample, try_except, bind at 1. rewrite Hread.
    destruct selected as [|rg sel] eqn:Hsel.
    + unfold bind, alloc, ret. cbn.
      unfold row_group_reads. rewrite omap_app. reflexivity.
    + rewrite <- Hsel.
      destruct (preprocess_data fs _ _) as [r st'] eqn:Hrun.
      apply preprocess_data_row_groups in Hrun. cbn [trace] in Hrun.
      assert (Htr : row_group_reads (trace st')
                    = row_group_reads (trace st) ++ selected).
      { rewrite Hrun. unfold row_group_reads. rewrite omap_app. f_equal.
        cbn. apply row_group_reads_map. }
      destruct r as [p|e|]; [exact Htr| |exact Htr].
      unfold bind, alloc, ret. cbn. exact Htr.
  - intros HG. apply NoDup_ListNoDup in Hnd.
    apply NoDup_Permutation_bis; [exact Hnd| |].
    + rewrite length_seq, Hlen. lia.
    + intros rg Hrg. apply in_seq.
      apply list_elem_of_In in Hrg.
      rewrite Forall_forall in Hlt. specialize (Hlt rg Hrg). lia.
Qed.

End SamplingFacts.

Lemma descending_sample_distinct G k :
  (k ≤ G)%nat →
  length (descending_sample G k) = k
  ∧ NoDup (descending_sample G k)
  ∧ Forall (fun rg => (rg < G)%nat) (descending_sample G k).
Proof.
  intros Hk. unfold descending_sample. split; [|split].
  - rewrite length_rev, length_seq. reflexivity.
  - apply NoDup_ListNoDup, NoDup_rev, seq_NoDup.
  - apply Forall_forall. intros rg Hrg.
    apply list_elem_of_In, in_rev, in_seq in Hrg. lia.
Qed.

Lemma sampler_reads_witness :
  row_group_reads
    (trace (snd (sampling_block descending_sample sample_files (mkState ∅ []))))
  = [1; 0]
  ∧ descending_sample 2 (Nat.min 3 2) ≡ₚ seq 0 2.
Proof.
  pose proof (sampler_reads descending_sample descending_sample_distinct 3 sample_files
                [[eur_row]; [gbp_row]] (mkState ∅ []) eq_refl) as H.
  cbv zeta in H. destruct H as (Hreads & _ & _ & _ & Hall & _).
  split.
  - exact Hreads.
  - apply Hall. cbn. lia.
Defined.

(** * Further properties of the module *)

(** ** The six filters as one test *)

Lemma filter_filter_andb {A} (p q : A → bool) l :
  List.filter q (List.filter p l) = List.filter (fun x => p x && q x) l.
Proof.
  induction l as [|x l IH]; [reflexivity|].
  cbn [List.filter]. destruct (p x); cbn [List.filter andb]; [|exact IH].
  destruct (q x); rewrite IH; reflexivity.
Qed.

Lemma isin_filter_allowed {A} `{EqDecision A} (sel : option (list A)) col dff :
  isin_filter sel col dff = List.filter (fun r => allowed sel (col r)) dff.
Proof.
  destruct sel as [[|v vs]|]; simpl; try reflexivity.
  all: symmetry; apply forallb_filter_id, forallb_forall; reflexivity.
Qed.

Lemma apply_filters_passes fl dff :
  apply_filters fl dff = List.filter (passes fl) dff.
Proof.
  unfold apply_filters, passes.
  rewrite !isin_filter_allowed, !filter_filter_andb.
  apply filter_ext. intros r. rewrite !andb_assoc. reflexivity.
Qed.

Lemma filter_passes_elem fl dff r :
  r ∈ List.filter (passes fl) dff ↔ r ∈ dff ∧ passes fl r = true.
Proof. rewrite !list_elem_of_In. apply filter_In. Qed.

Lemma merge_target_keeps dff df2 c e :
  e ∈ dff → ∃ r, r ∈ merge_target dff df2 c ∧ enr r = e.
Proof.
  intros He. unfold merge_target.
  destruct (target_matches df2 c (date (merged e))) as [|m ms] eqn:Hms.
  - exists (convert_row e NaN). split; [|reflexivity].
    rewrite list_elem_of_In, in_flat_map. exists e.
    split; [apply list_elem_of_In, He|]. rewrite Hms. left. reflexivity.
  - exists (convert_row e m). split; [|reflexivity].
    rewrite list_elem_of_In, in_flat_map. exists e.
    split; [apply list_elem_of_In, He|]. rewrite Hms. left. reflexivity.
Qed.

Lemma merge_target_enr dff df2 c r :
  r ∈ merge_target dff df2 c → enr r ∈ dff.
Proof.
  unfold merge_target. rewrite list_elem_of_In, in_flat_map.
  intros (e & He & Hr). apply list_elem_of_In in He.
  destruct (target_matches df2 c (date (merged e))) as [|m ms].
  - destruct Hr as [<-|[]]. exact He.
  - apply in_map_iff in Hr as (rate & <- & _). exact He.
Qed.

(** X1. The table [filter_data] returns holds the rows of its input that
    pass every filter control that is neither empty nor absent, and no
    others: each returned row is such an input row (with its columns intact,
    up to the form of [date]), and each such input row is returned. Without
    conversion the returned rows are those rows in the input's order. *)
Theorem filter_data_selects df df2 fl target_currency st l st' t t' :
  filter_data df df2 fl target_currency st = (Return l, st') →
  heap st !! df = Some (EnrichedFrame t) →
  heap st' !! l = Some (FilteredFrame t') →
  (∀ r, r ∈ filt_rows t' →
     ∃ r0, r0 ∈ enr_rows t ∧ passes fl r0 = true
           ∧ (enr r = r0 ∨ enr r = set_date (to_datetime (date (merged r0))) r0))
  ∧ (∀ r0, r0 ∈ enr_rows t → passes fl r0 = true →
       ∃ r, r ∈ filt_rows t'
            ∧ (enr r = r0 ∨ enr r = set_date (to_datetime (date (merged r0))) r0))
  ∧ (target_rate_column t' = None →
     map enr (filt_rows t') = List.filter (passes fl) (enr_rows t)).
Proof.
  intros Hrun Hdf Hl.
  apply filter_data_Return in Hrun
    as (t0 & f2 & Hf & Hf2 & [(Hc & -> & ->)|(Hc & rt & c & -> & -> & Hcol & -> & ->)]);
    rewrite Hdf in Hf; injection Hf as <-;
    simpl in Hl; rewrite lookup_insert_eq in Hl; injection Hl as <-; simpl;
    rewrite apply_filters_passes.
  - split; [|split].
    + intros r Hr. unfold copy_amount_usd in Hr.
      apply list_elem_of_fmap in Hr as (r0 & -> & Hr0).
      apply filter_passes_elem in Hr0 as [Hin Hp]. exists r0. auto.
    + intros r0 Hin Hp. exists (mkFiltRow r0 None (amount_usd r0)).
      split; [|auto]. unfold copy_amount_usd. apply list_elem_of_fmap.
      exists r0. split; [reflexivity|]. apply filter_passes_elem. auto.
    + intros _. unfold copy_amount_usd. rewrite map_map. apply map_id.
  - split; [|split].
    + intros r Hr. apply merge_target_enr in Hr.
      unfold dates_to_datetime in Hr. apply list_elem_of_fmap in Hr as (r0 & -> & Hr0).
      apply filter_passes_elem in Hr0 as [Hin Hp]. exists r0. auto.
    + intros r0 Hin Hp.
      destruct (merge_target_keeps
                  (dates_to_datetime (List.filter (passes fl) (enr_rows t)))
                  (rates_to_datetime rt) c
                  (set_date (to_datetime (date (merged r0))) r0)) as (r & Hr & He).
      { unfold dates_to_datetime. apply list_elem_of_fmap. exists r0.
        split; [reflexivity|]. apply filter_passes_elem. auto. }
      exists r. auto.
    + discriminate.
Qed.

Lemma filter_data_selects_witness :
  map enr (filt_rows
    (mkFiltTable (activity_columns sample_enriched) (rate_columns sample_enriched) None
       [mkFiltRow eur_enriched None (Some (1000 # 9)%Q)]))
  = List.filter (passes only_fraud) (enr_rows sample_enriched).
Proof.
  apply (filter_data_selects 3%positive 2%positive only_fraud (Some "USD") enriched_state
           4%positive
           (snd (filter_data 3%positive 2%positive only_fraud (Some "USD") enriched_state))
           sample_enriched).
  - vm_compute. reflexivity.
  - vm_compute. reflexivity.
  - vm_compute. reflexivity.
  - reflexivity.
Defined.

(** ** Filtering on the fraud flag, seen in the widgets *)

Lemma filter_data_rows_pass df df2 fl target_currency st l st' t t' r :
  filter_data df df2 fl target_currency st = (Return l, st') →
  heap st !! df = Some (EnrichedFrame t) →
  heap st' !! l = Some (FilteredFrame t') →
  r ∈ filt_rows t' →
  ∃ r0, r0 ∈ enr_rows t ∧ passes fl r0 = true ∧ raw (enr r) = raw r0.
Proof.
  intros Hrun Hdf Hl Hr.
  apply filter_data_Return in Hrun
    as (t0 & f2 & Hf & Hf2 & [(Hc & -> & ->)|(Hc & rt & c & -> & -> & Hcol & -> & ->)]);
    rewrite Hdf in Hf; injection Hf as <-;
    simpl in Hl; rewrite lookup_insert_eq in Hl; injection Hl as <-; simpl in Hr;
    rewrite apply_filters_passes in Hr.
  - unfold copy_amount_usd in Hr. apply list_elem_of_fmap in Hr as (r0 & -> & Hr0).
    apply filter_passes_elem in Hr0 as [Hin Hp]. exists r0. auto.
  - apply merge_target_enr in Hr.
    unfold dates_to_datetime in Hr. apply list_elem_of_fmap in Hr as (r0 & -> & Hr0).
    apply filter_passes_elem in Hr0 as [Hin Hp]. exists r0. auto.
Qed.

Lemma filter_data_returns_filtered df df2 fl target_currency st l st' :
  filter_data df df2 fl target_currency st = (Return l, st') →
  ∃ t', heap st' !! l = Some (FilteredFrame t').
Proof.
  intros Hrun.
  apply filter_data_Return in Hrun
    as (t0 & f2 & Hf & Hf2 & [(Hc & -> & ->)|(Hc & rt & c & -> & -> & Hcol & -> & ->)]);
    simpl; rewrite lookup_insert_eq; eauto.
Qed.

Lemma update_graphs_widgets_Return current_df df2 fl target_currency st w st' :
  update_graphs_widgets current_df df2 fl target_currency st = (Return w, st') →
  ∃ l t',
    filter_data current_df df2 fl target_currency st = (Return l, st')
    ∧ heap st' !! l = Some (FilteredFrame t')
    ∧ widgets (FilteredFrame t') = Return w.
Proof.
  unfold update_graphs_widgets, bind at 1.
  destruct (filter_data _ _ _ _ _) as [[l|e|] st1] eqn:Hrun; try discriminate.
  destruct (filter_data_returns_filtered _ _ _ _ _ _ _ Hrun) as [t' Hl].
  unfold bind, deref, lift. rewrite Hl.
  destruct (widgets (FilteredFrame t')) as [w'|e|] eqn:Hw; try discriminate.
  intros [= <- <-]. eauto.
Qed.

Lemma inject_nat_nonzero n : n ≠ 0%nat → ¬ (inject_Z (Z.of_nat n) == 0)%Q.
Proof.
  intros Hn Hq. unfold Qeq in Hq. simpl in Hq. lia.
Qed.

Lemma mean_bool_all_true bs :
  bs ≠ [] → Forall (fun b => b = true) bs → (mean_bool bs * 100 == 100)%Q.
Proof.
  intros Hne Hall. unfold mean_bool.
  replace (List.filter id bs) with bs.
  - unfold Qdiv. rewrite Qmult_inv_r; [reflexivity|].
    apply inject_nat_nonzero. destruct bs; [congruence|discriminate].
  - symmetry. apply forallb_filter_id, forallb_forall.
    intros b Hb. apply list_elem_of_In in Hb.
    rewrite Forall_forall in Hall. apply Hall, Hb.
Qed.

Lemma filter_none {A} (p : A → bool) l :
  Forall (fun x => p x = false) l → List.filter p l = [].
Proof.
  induction 1 as [|x l Hx _ IH]; [reflexivity|].
  cbn [List.filter]. rewrite Hx. exact IH.
Qed.

(** X2. With the fraud control set to fraudulent only, the fraud percentage
    shown is 100 unless no row is left, in which case it is 0; set to
    legitimate only, it is 0 and so is the fraud amount. *)
Theorem fraud_filter_widgets current_df df2 fl target_currency st w st' :
  update_graphs_widgets current_df df2 fl target_currency st = (Return w, st') →
  (is_fraud_val fl = Some [true] →
     (total_transactions w = 0%nat ∧ fraud_percentage w = 0%Q)
     ∨ ((0 < total_transactions w)%nat ∧ (fraud_percentage w == 100)%Q))
  ∧ (is_fraud_val fl = Some [false] →
     (fraud_percentage w == 0)%Q ∧ total_fraud_amount w = 0%Q).
Proof.
  intros Hrun.
  apply update_graphs_widgets_Return in Hrun as (l & t' & Hrun & Hl & Hw).
  destruct (filter_data_Return _ _ _ _ _ _ _ Hrun) as (t & _ & Hdf & _).
  assert (Hflag : ∀ b, is_fraud_val fl = Some [b] →
            Forall (fun r => fraud r = b) (filt_rows t')).
  { intros b Hsel. apply Forall_forall. intros r Hr.
    destruct (filter_data_rows_pass _ _ _ _ _ _ _ _ _ _ Hrun Hdf Hl Hr)
      as (r0 & _ & Hp & Hraw).
    unfold passes in Hp. apply andb_prop in Hp as [_ Hp].
    rewrite Hsel in Hp. simpl in Hp. apply bool_decide_eq_true in Hp.
    apply list_elem_of_singleton in Hp. unfold fraud. rewrite Hraw. exact Hp. }
  unfold widgets in Hw. injection Hw as <-. simpl.
  split; intros Hsel; specialize (Hflag _ Hsel).
  - destruct (filt_rows t') as [|r rows] eqn:Hrows; [left; auto|right].
    split; [simpl; lia|]. cbn [length Nat.ltb Nat.leb].
    apply mean_bool_all_true; [discriminate|].
    apply Forall_fmap. exact Hflag.
  - split.
    + destruct (filt_rows t') as [|r rows] eqn:Hrows; [reflexivity|].
      cbn [length Nat.ltb Nat.leb]. unfold mean_bool.
      rewrite filter_none; [reflexivity|].
      apply Forall_fmap. eapply Forall_impl; [exact Hflag|].
      intros x Hx. simpl. exact Hx.
    + rewrite filter_none; [reflexivity|exact Hflag].
Qed.

Lemma fraud_filter_widgets_witness :
  (is_fraud_val only_fraud = Some [true] →
     (total_transactions (mkWidgets 1 (1000 # 9) (100 # 1) (Some (1000 # 9)%Q)) = 0%nat
      ∧ fraud_percentage (mkWidgets 1 (1000 # 9) (100 # 1) (Some (1000 # 9)%Q)) = 0%Q)
     ∨ ((0 < total_transactions (mkWidgets 1 (1000 # 9) (100 # 1) (Some (1000 # 9)%Q)))%nat
        ∧ (fraud_percentage (mkWidgets 1 (1000 # 9) (100 # 1) (Some (1000 # 9)%Q)) == 100)%Q))
  ∧ (is_fraud_val only_fraud = Some [false] →
     (fraud_percentage (mkWidgets 1 (1000 # 9) (100 # 1) (Some (1000 # 9)%Q)) == 0)%Q
     ∧ total_fraud_amount (mkWidgets 1 (1000 # 9) (100 # 1) (Some (1000 # 9)%Q)) = 0%Q).
Proof.
  apply (fraud_filter_widgets 3%positive 2%positive only_fraud (Some "USD") enriched_state
           (mkWidgets 1 (1000 # 9) (100 # 1) (Some (1000 # 9)%Q))
           (snd (update_graphs_widgets 3%positive 2%positive only_fraud (Some "USD")
                   enriched_state))).
  vm_compute. reflexivity.
Defined.

(** ** Errors of filter_data *)



(** X4. While [df_sampled] is a table without the columns that
    [preprocess_data] adds (the column-less frame of a failed start, or an
    empty table returned as it came) and no full data are stored,
    [update_graphs] cannot filter: whatever the controls hold, and whatever
    readable text the rate store holds, [filter_data] raises [KeyError], and
    [df_sampled] stays as it is. *)
Theorem update_graphs_without_data read_json g fl target_currency exchange_rates_json st f :
  heap st !! df_sampled g = Some f →
  (f = NoColumns ∨ ∃ rows, f = RawFrame rows) →
  (∀ text, exchange_rates_json = Some text → ∃ f2, read_json text = Return f2) →
  ∃ key st',
    update_graphs_filtered read_json g fl target_currency None exchange_rates_json st
    = (Raise (KeyError key), st')
    ∧ heap st' !! df_sampled g = Some f
    ∧ (f = NoColumns → first_filter_column fl = None →
       wants_conversion target_currency = false → key = "amount_usd").
Proof.
  intros Hf Hkind Hread.
  assert (∃ f2, ∀ text, exchange_rates_json = Some text → read_json text = Return f2)
    as [f2' Hf2'].
  { destruct exchange_rates_json as [text|].
    - destruct (Hread text eq_refl) as [f2 Hf2]. exists f2. intros ? [= <-]. exact Hf2.
    - exists NoColumns. discriminate. }
  set (f2 := match exchange_rates_json with
             | Some text => f2'
             | None => NoColumns
             end).
  set (l2 := fresh (dom (heap st))).
  set (st1 := mkState (<[l2 := f2]> (heap st)) (trace st)).
  assert (Hdf : heap st1 !! df_sampled g = Some f).
  { simpl. unfold l2. rewrite lookup_alloc_other by eauto. exact Hf. }
  assert (Hdf2 : heap st1 !! l2 = Some f2) by (simpl; apply lookup_insert_eq).
  assert (Hstep : update_graphs_filtered read_json g fl target_currency None
                    exchange_rates_json st
                  = filter_data (df_sampled g) l2 fl target_currency st1).
  { unfold update_graphs_filtered, bind at 1, ret. unfold bind at 1.
    destruct exchange_rates_json as [text|]; [|reflexivity].
    unfold bind at 1, lift. rewrite (Hf2' text eq_refl). reflexivity. }
  rewrite Hstep. unfold filter_data, bind at 1, deref. rewrite Hdf.
  unfold bind at 1. rewrite Hdf2.
  destruct Hkind as [->|[rows ->]].
  - destruct (first_filter_column fl) as [c|] eqn:Hc.
    + exists c, st1. split; [reflexivity|]. split; [exact Hdf|]. discriminate.
    + eexists _, st1. split; [reflexivity|]. split; [exact Hdf|].
      intros _ _ Hw. rewrite Hw. reflexivity.
  - eexists _, st1. split; [reflexivity|]. split; [exact Hdf|]. discriminate.
Qed.

Lemma update_graphs_without_data_witness :
  ∃ key st',
    update_graphs_filtered (fun _ => Return NoColumns) (mkGlobals None 1%positive 2%positive)
      only_fraud (Some "USD") None None
      (mkState (<[1%positive := NoColumns]> {[2%positive := NoColumns]}) [])
    = (Raise (KeyError key), st')
    ∧ heap st' !! df_sampled (mkGlobals None 1%positive 2%positive) = Some NoColumns
    ∧ (NoColumns = NoColumns → first_filter_column only_fraud = None →
       wants_conversion (Some "USD") = false → key = "amount_usd").
Proof.
  apply (update_graphs_without_data (fun _ => Return NoColumns)
           (mkGlobals None 1%positive 2%positive) only_fraud (Some "USD") None
           (mkState (<[1%positive := NoColumns]> {[2%positive := NoColumns]}) [])
           NoColumns).
  - reflexivity.
  - left. reflexivity.
  - discriminate.
Defined.

(** ** The sampling block when things go wrong *)

Lemma bind_run {A B} (m : M A) (k : A → M B) st :
  bind m k st
  = match m st with
    | (Return a, st') => k a st'
    | (Raise e, st') => (Raise e, st')
    | (Unmodelled, st') => (Unmodelled, st')
    end.
Proof. reflexivity. Qed.

Lemma read_groups_heap groups selected st :
  heap (snd (read_groups groups selected st)) = heap st.
Proof.
  revert st. induction selected as [|rg sel IH]; intros st; [reflexivity|].
  cbn [read_groups]. unfold bind at 1. unfold read_row_group, bind at 1, log.
  destruct (groups !! rg) as [g|]; [|reflexivity].
  unfold ret at 1. unfold bind at 1.
  specialize (IH (mkState (heap st) (trace st ++ [ReadRowGroup rg]))).
  destruct (read_groups groups sel _) as [[gs|e|] st1]; exact IH.
Qed.

(** [read_sample] either returns a new raw frame or leaves the store as it
    was. *)
Lemma read_sample_heap random_sample k fs st r st1 :
  read_sample random_sample k fs st = (r, st1) →
  (∃ rows, r = Return (fresh (dom (heap st)))
           ∧ heap st1 = <[fresh (dom (heap st)) := RawFrame rows]> (heap st))
  ∨ ((∀ l, r ≠ Return l) ∧ heap st1 = heap st).
Proof.
  unfold read_sample, bind at 1, log.
  destruct (transactions_file fs) as [groups|].
  2: { intros [= <- <-]. right. split; [discriminate|reflexivity]. }
  cbv zeta. unfold bind.
  pose proof (read_groups_heap groups
                (random_sample (length groups) (Nat.min k (length groups)))
                (mkState (heap st) (trace st ++ [OpenTransactions]))) as Hh.
  destruct (read_groups groups _ _) as [[gs|e|] st2]; simpl in Hh.
  - destruct gs as [|g gs]; unfold pd_concat, raise, alloc.
    + intros [= <- <-]. right. split; [discriminate|exact Hh].
    + intros [= <- <-]. left. exists (concat (g :: gs)). rewrite Hh. auto.
  - intros [= <- <-]. right. split; [discriminate|exact Hh].
  - intros [= <- <-]. right. split; [discriminate|exact Hh].
Qed.

Lemma load_sample_cases random_sample k fs st :
  (∃ l st1 e,
     read_sample random_sample k fs st = (Return l, st1)
     ∧ fst (preprocess_data fs l st1) = Raise e
     ∧ load_sample random_sample k fs st = no_data (snd (preprocess_data fs l st1)))
  ∨ (∃ l st1,
       read_sample random_sample k fs st = (Return l, st1)
       ∧ (∀ e, fst (preprocess_data fs l st1) ≠ Raise e)
       ∧ load_sample random_sample k fs st = preprocess_data fs l st1)
  ∨ (∃ e st1,
       read_sample random_sample k fs st = (Raise e, st1)
       ∧ load_sample random_sample k fs st = no_data st1)
  ∨ (∃ st1,
       read_sample random_sample k fs st = (Unmodelled, st1)
       ∧ load_sample random_sample k fs st = (Unmodelled, st1)).
Proof.
  unfold load_sample, try_except. rewrite bind_run.
  destruct (read_sample random_sample k fs st) as [[l|e|] st1] eqn:Hread.
  - destruct (preprocess_data fs l st1) as [[p|e|] st2] eqn:Hrun.
    + right. left. exists l, st1. rewrite Hrun. split; [reflexivity|].
      split; [simpl; intros e0 H0; discriminate H0|reflexivity].
    + left. exists l, st1, e. rewrite Hrun. auto.
    + right. left. exists l, st1. rewrite Hrun. split; [reflexivity|].
      split; [simpl; intros e0 H0; discriminate H0|reflexivity].
  - right. right. left. exists e, st1. auto.
  - right. right. right. exists st1. auto.
Qed.

Lemma no_data_keeps st l :
  is_Some (heap st !! l) → heap (snd (no_data st)) !! l = heap st !! l.
Proof.
  intros Hl. unfold no_data. simpl.
  rewrite lookup_alloc_other; rewrite lookup_alloc_other; auto.
Qed.

Lemma no_data_frames st :
  heap (snd (no_data st)) !! fresh (dom (heap st)) = Some NoColumns
  ∧ heap (snd (no_data st))
      !! fresh (dom (<[fresh (dom (heap st)) := NoColumns]> (heap st)))
    = Some NoColumns.
Proof.
  unfold no_data. simpl. split.
  - apply lookup_second_alloc.
  - apply lookup_insert_eq.
Qed.

Lemma sample_then_preprocess_keeps random_sample k fs st l st1 l' :
  read_sample random_sample k fs st = (Return l, st1) →
  l' ∈ dom (heap st) →
  heap (snd (preprocess_data fs l st1)) !! l' = heap st !! l'.
Proof.
  intros Hread Hl'. apply elem_of_dom in Hl'.
  destruct (read_sample_heap _ _ _ _ _ _ Hread) as [(rows & [= ->] & Hh)|[Hno _]];
    [|exfalso; eapply Hno; reflexivity].
  assert (Hl : heap st1 !! fresh (dom (heap st)) = Some (RawFrame rows))
    by (rewrite Hh; apply lookup_insert_eq).
  assert (Hsame : heap st1 !! l' = heap st !! l')
    by (rewrite Hh; apply lookup_alloc_other, Hl').
  destruct (preprocess_data fs (fresh (dom (heap st))) st1) as [r st2] eqn:Hrun.
  destruct (preprocess_data_frame _ _ _ _ _ _ Hl Hrun) as (_ & Hkeep & _).
  simpl. rewrite Hkeep; [exact Hsame| |rewrite Hsame; exact Hl'].
  intros ->. rewrite fresh_lookup in Hl'. destruct Hl' as [? Hl']. discriminate.
Qed.

(** X5. The sampling block never lets an exception out, whatever the files
    hold and whatever [random.sample] selects, and it never touches a table
    that existed before it ran: the flooring that [preprocess_data] does in
    place only reaches the frame the block has just concatenated. *)
Theorem load_sample_keeps_store random_sample k fs st :
  (∀ e, fst (load_sample random_sample k fs st) ≠ Raise e)
  ∧ (∀ l, l ∈ dom (heap st) →
       heap (snd (load_sample random_sample k fs st)) !! l = heap st !! l).
Proof.
  destruct (load_sample_cases random_sample k fs st)
    as [(l & st1 & e & Hread & Hraise & ->)
       |[(l & st1 & Hread & Hno & ->)
        |[(e & st1 & Hread & ->)|(st1 & Hread & ->)]]].
  - split; [discriminate|]. intros l' Hl'.
    rewrite no_data_keeps;
      rewrite (sample_then_preprocess_keeps _ _ _ _ _ _ _ Hread Hl');
      [reflexivity|apply elem_of_dom, Hl'].
  - split; [exact Hno|]. intros l' Hl'.
    eapply sample_then_preprocess_keeps; eassumption.
  - split; [discriminate|]. intros l' Hl'.
    destruct (read_sample_heap _ _ _ _ _ _ Hread) as [(rows & [=] & _)|[_ Hh]].
    rewrite no_data_keeps; rewrite Hh; [reflexivity|apply elem_of_dom, Hl'].
  - split; [discriminate|]. intros l' Hl'.
    destruct (read_sample_heap _ _ _ _ _ _ Hread) as [(rows & [=] & _)|[_ Hh]].
    simpl. rewrite Hh. reflexivity.
Qed.

Lemma load_sample_keeps_store_witness :
  heap (snd (sampling_block descending_sample sample_files sample_state)) !! 1%positive
  = heap sample_state !! 1%positive.
Proof.
  apply (load_sample_keeps_store descending_sample 3 sample_files sample_state).
  apply elem_of_dom. eexists. reflexivity.
Defined.

(** X6. If the transaction file or the rate file cannot be read, the block
    ends with no data: the first table it returns is empty and the second is
    a frame without columns. Without the transaction file both are new
    column-less frames and nothing was read beyond the attempt to open the
    file. *)
Theorem load_sample_without_files random_sample k fs st a b st' :
  load_sample random_sample k fs st = (Return (a, b), st') →
  transactions_file fs = None ∨ rates_file fs = None →
  (∃ fa, heap st' !! a = Some fa ∧ frame_empty fa = true)
  ∧ heap st' !! b = Some NoColumns
  ∧ (transactions_file fs = None →
     heap st' !! a = Some NoColumns
     ∧ a ≠ b ∧ (a ∉ dom (heap st)) ∧ (b ∉ dom (heap st))
     ∧ trace st' = trace st ++ [OpenTransactions]).
Proof.
  intros Hrun Hfiles.
  assert (Hopen : transactions_file fs = None →
            read_sample random_sample k fs st
            = (Raise FileNotFoundError, mkState (heap st) (trace st ++ [OpenTransactions]))).
  { intros Hnone. unfold read_sample. rewrite bind_run. unfold log. rewrite Hnone.
    reflexivity. }
  destruct (load_sample_cases random_sample k fs st)
    as [(l & st1 & e & Hread & Hraise & Heq)
       |[(l & st1 & Hread & Hno & Heq)
        |[(e & st1 & Hread & Heq)|(st1 & Hread & Heq)]]];
    rewrite Heq in Hrun.
  - injection Hrun as <- <- <-.
    destruct (no_data_frames (snd (preprocess_data fs l st1))) as [Ha Hb].
    split; [eexists; split; [exact Ha|reflexivity]|]. split; [exact Hb|].
    intros Hnone. rewrite (Hopen Hnone) in Hread. discriminate.
  - apply preprocess_data_Return in Hrun
      as (f & Hf & [(He & -> & -> & ->)|(rows & -> & Hne & Hrun)]).
    + simpl. split; [|split].
      * exists f. split; [|exact He]. rewrite lookup_alloc_other by eauto. exact Hf.
      * apply lookup_insert_eq.
      * intros Hnone. rewrite (Hopen Hnone) in Hread. discriminate.
    + apply enrich_frame_Return in Hrun as (rf & rows2 & Hrf & _).
      destruct Hfiles as [Hnone|Hnone]; [|congruence].
      rewrite (Hopen Hnone) in Hread. discriminate.
  - injection Hrun as <- <- <-.
    destruct (no_data_frames st1) as [Ha Hb].
    split; [eexists; split; [exact Ha|reflexivity]|]. split; [exact Hb|].
    intros Hnone. rewrite (Hopen Hnone) in Hread. injection Hread as <- <-.
    simpl. split; [exact Ha|]. split; [|split; [|split]].
    + apply not_eq_sym, fresh_ne. rewrite lookup_insert_eq. eauto.
    + apply is_fresh.
    + intros Hin. apply elem_of_dom in Hin.
      eapply fresh_ne; [|reflexivity].
      rewrite lookup_insert_ne; [exact Hin|].
      intros Heq'. rewrite <- Heq' in Hin. rewrite fresh_lookup in Hin.
      destruct Hin as [? Hin]. discriminate.
    + reflexivity.
  - discriminate.
Qed.

Lemma load_sample_without_files_witness :
  (∃ fa, heap (snd (sampling_block descending_sample no_files sample_state)) !! 2%positive
         = Some fa ∧ frame_empty fa = true)
  ∧ heap (snd (sampling_block descending_sample no_files sample_state)) !! 3%positive
    = Some NoColumns
  ∧ (transactions_file no_files = None →
     heap (snd (sampling_block descending_sample no_files sample_state)) !! 2%positive
     = Some NoColumns
     ∧ 2%positive ≠ 3%positive
     ∧ (2%positive ∉ dom (heap sample_state)) ∧ (3%positive ∉ dom (heap sample_state))
     ∧ trace (snd (sampling_block descending_sample no_files sample_state))
       = trace sample_state ++ [OpenTransactions]).
Proof.
  apply (load_sample_without_files descending_sample 3 no_files sample_state
           2%positive 3%positive
           (snd (sampling_block descending_sample no_files sample_state))).
  - vm_compute. reflexivity.
  - left. reflexivity.
Defined.

(** ** More on preprocess_data *)

Lemma add_key_NoDup acc k : NoDup acc → NoDup (add_key acc k).
Proof.
  intros Hnd. unfold add_key. case_bool_decide as Hk; [exact Hnd|].
  apply NoDup_app. split; [exact Hnd|]. split.
  - intros x Hx Hx'. apply list_elem_of_singleton in Hx' as ->. contradiction.
  - apply NoDup_singleton.
Qed.

Lemma add_key_elem acc k x : x ∈ add_key acc k → x ∈ acc ∨ x = k.
Proof.
  unfold add_key. case_bool_decide; [auto|].
  intros Hx. apply elem_of_app in Hx as [Hx|Hx]; [auto|].
  apply list_elem_of_singleton in Hx. auto.
Qed.

Lemma fold_add_key_NoDup ks acc : NoDup acc → NoDup (fold_left add_key ks acc).
Proof.
  revert acc. induction ks as [|k ks IH]; simpl; intros acc Hnd; [exact Hnd|].
  apply IH, add_key_NoDup, Hnd.
Qed.

Lemma fold_add_key_elem ks acc x :
  x ∈ fold_left add_key ks acc → x ∈ acc ∨ x ∈ ks.
Proof.
  revert acc. induction ks as [|k ks IH]; simpl; intros acc Hx; [auto|].
  apply IH in Hx as [Hx|Hx]; [|right; right; exact Hx].
  apply add_key_elem in Hx as [Hx| ->]; [auto|right; left].
Qed.

Lemma normalize_columns_NoDup ds : NoDup (normalize_columns ds).
Proof.
  unfold normalize_columns. generalize (NoDup_nil_2 (A := string)).
  generalize (@nil string) as acc.
  induction ds as [|d ds IH]; simpl; intros acc Hnd; [exact Hnd|].
  apply IH, fold_add_key_NoDup, Hnd.
Qed.

Lemma normalize_columns_elem ds x :
  x ∈ normalize_columns ds → ∃ d, d ∈ ds ∧ x ∈ map fst d.
Proof.
  unfold normalize_columns.
  assert (H : ∀ acc, x ∈ fold_left (fun acc d => fold_left add_key (map fst d) acc) ds acc →
                x ∈ acc ∨ ∃ d, d ∈ ds ∧ x ∈ map fst d).
  { induction ds as [|d ds IH]; simpl; intros acc Hx; [auto|].
    apply IH in Hx as [Hx|(d' & Hd' & Hx)].
    - apply fold_add_key_elem in Hx as [Hx|Hx]; [auto|].
      right. exists d. split; [left|exact Hx].
    - right. exists d'. split; [right; exact Hd'|exact Hx]. }
  intros Hx. apply H in Hx as [Hx|Hx]; [inversion Hx|exact Hx].
Qed.

Lemma floored_activity rows :
  map (fun r => safe_extract (last_hour_activity r)) (map floor_timestamp rows)
  = map (fun r => safe_extract (last_hour_activity r)) rows.
Proof. rewrite map_map. reflexivity. Qed.

(** With plain activity dicts the flattened columns clash with no other
    column. *)
Lemma plain_activity_columns rows :
  plain_activity rows →
  NoDup (raw_columns
           ++ normalize_columns
                (map (fun r => safe_extract (last_hour_activity r)) (map floor_timestamp rows))
           ++ ["date"]).
Proof.
  intros Hplain. rewrite floored_activity.
  set (cols := normalize_columns _).
  assert (Hsub : ∀ x, x ∈ cols → x ∈ activity_keys).
  { intros x Hx. apply normalize_columns_elem in Hx as (d & Hd & Hx).
    apply list_elem_of_fmap in Hd as (r & -> & Hr). eapply Hplain; eassumption. }
  assert (Hraw_nd : bool_decide (NoDup raw_columns) = true) by (vm_compute; reflexivity).
  assert (Hdisj : forallb (fun x => negb (bool_decide (x ∈ activity_keys))) raw_columns = true)
    by (vm_compute; reflexivity).
  assert (Hdate1 : bool_decide ("date" ∈ raw_columns) = false) by (vm_compute; reflexivity).
  assert (Hdate2 : bool_decide ("date" ∈ activity_keys) = false) by (vm_compute; reflexivity).
  apply bool_decide_eq_true in Hraw_nd. apply bool_decide_eq_false in Hdate1, Hdate2.
  rewrite forallb_forall in Hdisj.
  apply NoDup_app. split; [exact Hraw_nd|]. split.
  - intros x Hraw Hx. apply elem_of_app in Hx as [Hx|Hx].
    + apply Hsub in Hx. apply list_elem_of_In in Hraw.
      specialize (Hdisj x Hraw). apply negb_true_iff, bool_decide_eq_false in Hdisj.
      contradiction.
    + apply list_elem_of_singleton in Hx as ->. contradiction.
  - apply NoDup_app. split; [apply normalize_columns_NoDup|]. split.
    + intros x Hx Hd. apply list_elem_of_singleton in Hd as ->. apply Hsub in Hx.
      contradiction.
    + apply NoDup_singleton.
Qed.

Lemma sample_plain_activity : plain_activity [eur_row; gbp_row].
Proof.
  intros r k Hr Hk.
  apply elem_of_cons in Hr as [->|Hr]; [|apply list_elem_of_singleton in Hr as ->].
  - exact Hk.
  - simpl in Hk. apply list_elem_of_singleton in Hk as ->. left.
Qed.

(** X7. On a non-empty table whose activity dicts are plain,
    [preprocess_data] without a readable rate file raises
    [FileNotFoundError]; by then it has floored the timestamps of the
    caller's table and has tried to read the rate file once, and it has
    built no other table. *)
Theorem preprocess_data_missing_rates fs df st rows :
  heap st !! df = Some (RawFrame rows) →
  rows ≠ [] →
  plain_activity rows →
  rates_file fs = None →
  preprocess_data fs df st
  = (Raise FileNotFoundError,
     mkState (<[df := RawFrame (map floor_timestamp rows)]> (heap st))
             (trace st ++ [ReadRates])).
Proof.
  intros Hdf Hne Hplain Hnone.
  rewrite (preprocess_data_eq _ _ _ _ Hdf).
  replace (frame_empty (RawFrame rows)) with false
    by (destruct rows; [congruence|reflexivity]).
  rewrite enrich_frame_eq. cbv zeta.
  rewrite bool_decide_eq_true_2 by (apply plain_activity_columns; exact Hplain).
  cbn [negb]. rewrite Hnone. reflexivity.
Qed.

Lemma preprocess_data_missing_rates_witness :
  preprocess_data no_files 1%positive sample_state
  = (Raise FileNotFoundError,
     mkState (<[1%positive := RawFrame (map floor_timestamp [eur_row; gbp_row])]>
                (heap sample_state))
             (trace sample_state ++ [ReadRates])).
Proof.
  apply (preprocess_data_missing_rates no_files 1%positive sample_state [eur_row; gbp_row]).
  - reflexivity.
  - discriminate.
  - apply sample_plain_activity.
  - reflexivity.
Defined.

(** ** Timestamps, dates and hours *)

Lemma floor_s_bounds ns :
  (floor_s ns ≤ ns < floor_s ns + ns_per_second)%Z
  ∧ (floor_s ns mod ns_per_second = 0)%Z.
Proof.
  unfold floor_s, ns_per_second.
  pose proof (Z.div_mod ns 1000000000 ltac:(lia)) as Hdm.
  pose proof (Z.mod_pos_bound ns 1000000000 ltac:(lia)) as Hb.
  split; [lia|]. apply Z.mod_mul. lia.
Qed.

Lemma floor_s_day ns : (floor_s ns / ns_per_day = ns / ns_per_day)%Z.
Proof.
  unfold floor_s, ns_per_day.
  rewrite Z.div_mul_cancel_r by (unfold ns_per_second; lia).
  rewrite (Z.mul_comm 86400 ns_per_second).
  rewrite <- Z.div_div by (unfold ns_per_second; lia). reflexivity.
Qed.

Lemma floor_s_hour ns : (floor_s ns / ns_per_hour = ns / ns_per_hour)%Z.
Proof.
  unfold floor_s, ns_per_hour.
  rewrite Z.div_mul_cancel_r by (unfold ns_per_second; lia).
  rewrite (Z.mul_comm 3600 ns_per_second).
  rewrite <- Z.div_div by (unfold ns_per_second; lia). reflexivity.
Qed.

Lemma dt_day_name_known ns : dt_day_name ns ∈ day_names.
Proof.
  unfold dt_day_name.
  pose proof (Z.mod_pos_bound (ns / ns_per_day + 3) 7 ltac:(lia)) as Hb.
  apply list_elem_of_In, nth_In. simpl. lia.
Qed.

(** A timestamp is its date, its hour and less than an hour. *)
Lemma timestamp_split ns :
  ∃ rest,
    (ns = (ns / ns_per_day) * ns_per_day + dt_hour ns * ns_per_hour + rest)%Z
    ∧ (0 ≤ rest < ns_per_hour)%Z.
Proof.
  exists (ns mod ns_per_hour)%Z. unfold dt_hour.
  assert (Hh : (0 < ns_per_hour)%Z) by (unfold ns_per_hour, ns_per_second; lia).
  pose proof (Z.div_mod ns ns_per_hour ltac:(lia)) as H1.
  pose proof (Z.mod_pos_bound ns ns_per_hour Hh) as H2.
  pose proof (Z.div_mod (ns / ns_per_hour) 24 ltac:(lia)) as H3.
  assert (H4 : (ns / ns_per_hour / 24 = ns / ns_per_day)%Z).
  { rewrite Z.div_div by lia. f_equal; unfold ns_per_day, ns_per_hour; lia. }
  rewrite H4 in H3. split; [|exact H2].
  clear H4 Hh. unfold ns_per_day, ns_per_hour, ns_per_second in *. lia.
Qed.

Lemma enr_row_origin fs df st rows l l2 st' t o :
  heap st !! df = Some (RawFrame rows) →
  preprocess_data fs df st = (Return (l, l2), st') →
  heap st' !! l = Some (EnrichedFrame t) →
  o ∈ enr_rows t →
  ∃ r, r ∈ rows ∧ raw o = floor_timestamp r
       ∧ date (merged o) = dt_date (timestamp (floor_timestamp r))
       ∧ hour o = dt_hour (timestamp (floor_timestamp r))
       ∧ weekday o = dt_day_name (timestamp (floor_timestamp r)).
Proof.
  intros Hdf Hrun Hl Ho.
  apply preprocess_data_Return in Hrun as (f & Hf & [(He & -> & -> & ->)|(rows' & Heq & Hne & Hrun)]).
  { rewrite Hdf in Hf. injection Hf as <-.
    simpl in Hl. rewrite lookup_alloc_other in Hl by eauto. rewrite Hdf in Hl. discriminate. }
  rewrite Hdf in Hf. injection Hf as <-. injection Heq as <-.
  apply enrich_frame_Return in Hrun as (rf & rows2 & Hrf & Happ & -> & -> & ->).
  simpl in Hl. rewrite lookup_insert_eq in Hl. injection Hl as <-. simpl in Ho.
  apply apply_rows_Return in Happ.
  destruct (Forall2_elem_r _ _ _ _ Happ Ho) as (m & Hm & Hen).
  unfold enrich in Hen.
  destruct (convert_to_usd (rate_table_of rf) m) as [usd| |]; try discriminate.
  injection Hen as <-. simpl.
  apply merge_left_elem in Hm as [Hleft _].
  apply left_rows_elem in Hleft as (Hin & _ & Hd).
  apply list_elem_of_fmap in Hin as (r & Hr & Hin).
  exists r. unfold raw. simpl. rewrite Hd, Hr. auto.
Qed.

(** X8. Every row of the table [preprocess_data] builds comes from a record
    of the input: its timestamp is that record's, rounded down to a whole
    second; its date, hour and weekday are those of the record's own
    timestamp (rounding changes none of them); the hour lies between 0 and
    23, the weekday is one of the seven names, and the timestamp is the
    date's midnight plus the hour plus less than an hour. *)
Theorem enriched_time_fields fs df st rows l l2 st' t o :
  heap st !! df = Some (RawFrame rows) →
  preprocess_data fs df st = (Return (l, l2), st') →
  heap st' !! l = Some (EnrichedFrame t) →
  o ∈ enr_rows t →
  ∃ r days rest,
    r ∈ rows
    ∧ raw o = floor_timestamp r
    ∧ (timestamp (raw o) ≤ timestamp r < timestamp (raw o) + ns_per_second)%Z
    ∧ (timestamp (raw o) mod ns_per_second = 0)%Z
    ∧ date (merged o) = dt_date (timestamp r)
    ∧ hour o = dt_hour (timestamp r)
    ∧ weekday o = dt_day_name (timestamp r)
    ∧ (0 ≤ hour o < 24)%Z
    ∧ weekday o ∈ day_names
    ∧ date (merged o) = PyDate days
    ∧ (timestamp (raw o) = days * ns_per_day + hour o * ns_per_hour + rest)%Z
    ∧ (0 ≤ rest < ns_per_hour)%Z.
Proof.
  intros Hdf Hrun Hl Ho.
  destruct (enr_row_origin _ _ _ _ _ _ _ _ _ Hdf Hrun Hl Ho)
    as (r & Hr & Hraw & Hdate & Hhour & Hday).
  assert (Hts : timestamp (raw o) = floor_s (timestamp r)) by (rewrite Hraw; reflexivity).
  change (timestamp (floor_timestamp r)) with (floor_s (timestamp r)) in *.
  destruct (timestamp_split (floor_s (timestamp r))) as (rest & Hsplit & Hrest).
  destruct (floor_s_bounds (timestamp r)) as [Hb Hm].
  assert (Hd' : dt_date (floor_s (timestamp r)) = dt_date (timestamp r))
    by (unfold dt_date; rewrite floor_s_day; reflexivity).
  assert (Hh' : dt_hour (floor_s (timestamp r)) = dt_hour (timestamp r))
    by (unfold dt_hour; rewrite floor_s_hour; reflexivity).
  assert (Hn' : dt_day_name (floor_s (timestamp r)) = dt_day_name (timestamp r))
    by (unfold dt_day_name; rewrite floor_s_day; reflexivity).
  exists r, (floor_s (timestamp r) / ns_per_day)%Z, rest.
  rewrite Hts, Hdate, Hhour, Hday, Hd', Hh', Hn'.
  split; [exact Hr|]. split; [exact Hraw|]. split; [exact Hb|]. split; [exact Hm|].
  split; [reflexivity|]. split; [reflexivity|]. split; [reflexivity|].
  split; [apply Z.mod_pos_bound; lia|]. split; [apply dt_day_name_known|].
  split; [unfold dt_date; rewrite floor_s_day; reflexivity|].
  split; [|exact Hrest]. rewrite <- Hh'. exact Hsplit.
Qed.

Lemma enriched_time_fields_witness :
  ∃ r days rest,
    r ∈ [eur_row; gbp_row]
    ∧ raw gbp_enriched = floor_timestamp r
    ∧ (timestamp (raw gbp_enriched) ≤ timestamp r
       < timestamp (raw gbp_enriched) + ns_per_second)%Z
    ∧ (timestamp (raw gbp_enriched) mod ns_per_second = 0)%Z
    ∧ date (merged gbp_enriched) = dt_date (timestamp r)
    ∧ hour gbp_enriched = dt_hour (timestamp r)
    ∧ weekday gbp_enriched = dt_day_name (timestamp r)
    ∧ (0 ≤ hour gbp_enriched < 24)%Z
    ∧ weekday gbp_enriched ∈ day_names
    ∧ date (merged gbp_enriched) = PyDate days
    ∧ (timestamp (raw gbp_enriched)
       = days * ns_per_day + hour gbp_enriched * ns_per_hour + rest)%Z
    ∧ (0 ≤ rest < ns_per_hour)%Z.
Proof.
  apply (enriched_time_fields sample_files 1%positive sample_state [eur_row; gbp_row]
           3%positive 2%positive
           (snd (preprocess_data sample_files 1%positive sample_state))
           sample_enriched gbp_enriched).
  - reflexivity.
  - vm_compute. reflexivity.
  - vm_compute. reflexivity.
  - right. left.
Defined.

(** ** The size of the enriched table *)

Lemma matches_length d df2 :
  length (matches d df2) = length (rate_rows_on d df2).
Proof.
  unfold matches, rate_rows_on.
  assert (H : ∀ (h : nat → nat) rows,
            length (omap (fun ir : nat * RateRow =>
                            if bool_decide (rate_date (snd ir) = d)
                            then Some (fst ir, rates (snd ir)) else None)
                         (imap (fun i rr => (h i, rr)) rows))
            = length (List.filter (fun rr => bool_decide (rate_date rr = d)) rows)).
  { intros h rows. revert h. induction rows as [|rr rows IH]; intros h; [reflexivity|].
    cbn [imap omap List.filter]. simpl.
    specialize (IH (h ∘ S)). unfold compose in IH.
    destruct (bool_decide (rate_date rr = d)); cbn [length]; rewrite <- IH; reflexivity. }
  apply (H (fun i => i)).
Qed.

Lemma merge_left_count left df2 :
  length (merge_left left df2)
  = sum_nat (map (fun x => join_multiplicity (length (rate_rows_on (snd x) df2))) left).
Proof.
  unfold merge_left. induction left as [|[[r a] d] left IH]; [reflexivity|].
  cbn [flat_map map sum_nat fold_right]. rewrite length_app.
  fold (sum_nat (map (fun x => join_multiplicity (length (rate_rows_on (snd x) df2))) left)).
  rewrite <- IH. f_equal. simpl. rewrite <- matches_length.
  destruct (matches d df2) as [|m ms]; [reflexivity|].
  unfold join_multiplicity. cbn [length map]. rewrite ?length_map. lia.
Qed.

Lemma unique_date_rows d rows :
  NoDup (map rate_date rows) →
  (length (List.filter (fun rr => bool_decide (rate_date rr = d)) rows) ≤ 1)%nat.
Proof.
  induction rows as [|rr rows IH]; simpl; intros Hnd; [lia|].
  apply NoDup_cons in Hnd as [Hnot Hnd]. specialize (IH Hnd).
  case_bool_decide as Hd; [|exact IH]. simpl.
  replace (List.filter (fun rr0 => bool_decide (rate_date rr0 = d)) rows) with (@nil RateRow);
    [simpl; lia|].
  symmetry. apply filter_none, Forall_forall. intros rr' Hrr'.
  apply bool_decide_eq_false. intros Hd'. apply Hnot.
  apply list_elem_of_fmap. exists rr'. split; [congruence|exact Hrr'].
Qed.

Lemma merge_left_unique left df2 :
  NoDup (map rate_date (rt_rows df2)) →
  map base (merge_left left df2) = map (fun x => fst (fst x)) left.
Proof.
  intros Hnd. unfold merge_left.
  induction left as [|[[r a] d] left IH]; [reflexivity|].
  cbn [flat_map]. rewrite map_app, IH.
  change (map (fun x : RawRow * list Num * DateCell => fst (fst x)) ((r, a, d) :: left))
    with (r :: map (fun x : RawRow * list Num * DateCell => fst (fst x)) left).
  pose proof (unique_date_rows d _ Hnd) as Hle.
  fold (rate_rows_on d df2) in Hle. rewrite <- matches_length in Hle.
  destruct (matches d df2) as [|m [|m' ms]]; [reflexivity|reflexivity|simpl in Hle; lia].
Qed.

Lemma enrich_rows_raw df2 ms rows2 :
  Forall2 (fun m o => enrich df2 m = Return o) ms rows2 →
  map raw rows2 = map base ms.
Proof.
  induction 1 as [|m o ms rows2 Hen _ IH]; [reflexivity|].
  cbn [map]. rewrite IH. apply enrich_Return in Hen as [<- _]. reflexivity.
Qed.

Lemma map_const_repeat {A B} (b : B) (l : list A) :
  map (fun _ => b) l = repeat b (length l).
Proof. induction l as [|x l IH]; simpl; [reflexivity|]. rewrite IH. reflexivity. Qed.

Lemma flat_map_fmap {A B C} (f : B → list C) (g : A → B) l :
  flat_map f (map g l) = flat_map (fun x => f (g x)) l.
Proof. induction l as [|x l IH]; simpl; [reflexivity|]. rewrite IH. reflexivity. Qed.

(** The rows of the left join, record by record. *)
Lemma merge_left_blocks left df2 :
  map base (merge_left left df2)
  = flat_map (fun x => repeat (fst (fst x))
                         (join_multiplicity (length (rate_rows_on (snd x) df2)))) left.
Proof.
  unfold merge_left. induction left as [|[[r a] d] left IH]; [reflexivity|].
  cbn [flat_map]. rewrite map_app, IH. f_equal. cbn [fst snd].
  rewrite <- matches_length. unfold join_multiplicity.
  destruct (matches d df2) as [|m ms]; [reflexivity|].
  rewrite map_map. cbn [base]. rewrite map_const_repeat. reflexivity.
Qed.

(** X9. In the table [preprocess_data] builds, each record of the input
    has as many rows as the rate table has rows for the record's date, and
    one row if it has none; the rows of a record stand together and the
    records keep their order. So the number of rows is the sum of these
    multiplicities, and with at most one rate row per date the table holds
    the input's records one for one. *)
Theorem enriched_row_count fs df st rows l l2 st' :
  heap st !! df = Some (RawFrame rows) →
  rows ≠ [] →
  preprocess_data fs df st = (Return (l, l2), st') →
  ∃ t df2,
    heap st' !! l = Some (EnrichedFrame t)
    ∧ heap st' !! l2 = Some (RatesFrame df2)
    ∧ length (enr_rows t)
      = sum_nat (map (fun r => join_multiplicity
                                 (length (rate_rows_on (dt_date (timestamp r)) df2)))
                     rows)
    ∧ (NoDup (map rate_date (rt_rows df2)) →
       map raw (enr_rows t) = map floor_timestamp rows)
    ∧ map raw (enr_rows t)
      = flat_map (fun r => repeat (floor_timestamp r)
                             (join_multiplicity
                                (length (rate_rows_on (dt_date (timestamp r)) df2))))
                 rows.
Proof.
  intros Hdf Hne Hrun.
  apply preprocess_data_Return in Hrun as (f & Hf & [(He & _)|(rows' & Heq & _ & Hrun)]).
  { rewrite Hdf in Hf. injection Hf as <-. destruct rows; [congruence|discriminate]. }
  rewrite Hdf in Hf. injection Hf as <-. injection Heq as <-.
  apply enrich_frame_Return in Hrun as (rf & rows2 & Hrf & Happ & -> & -> & ->).
  simpl. eexists _, (rate_table_of rf).
  split; [apply lookup_insert_eq|]. split; [apply lookup_second_alloc|].
  apply apply_rows_Return in Happ. simpl. split; [|split].
  - rewrite <- (Forall2_length _ _ _ Happ), merge_left_count.
    unfold left_rows. rewrite !map_map. f_equal. apply map_ext. intros r. simpl.
    unfold dt_date. rewrite floor_s_day. reflexivity.
  - intros Hnd. rewrite (enrich_rows_raw _ _ _ Happ).
    rewrite (merge_left_unique _ (rate_table_of rf) Hnd). unfold left_rows.
    rewrite map_map. simpl. rewrite map_id. reflexivity.
  - rewrite (enrich_rows_raw _ _ _ Happ), merge_left_blocks.
    unfold left_rows. rewrite !flat_map_fmap. simpl.
    apply flat_map_ext. intros r. unfold dt_date. rewrite floor_s_day. reflexivity.
Qed.

Lemma enriched_row_count_witness :
  ∃ t df2,
    heap (snd (preprocess_data sample_files 1%positive sample_state)) !! 3%positive
    = Some (EnrichedFrame t)
    ∧ heap (snd (preprocess_data sample_files 1%positive sample_state)) !! 2%positive
      = Some (RatesFrame df2)
    ∧ length (enr_rows t)
      = sum_nat (map (fun r => join_multiplicity
                                 (length (rate_rows_on (dt_date (timestamp r)) df2)))
                     [eur_row; gbp_row])
    ∧ (NoDup (map rate_date (rt_rows df2)) →
       map raw (enr_rows t) = map floor_timestamp [eur_row; gbp_row])
    ∧ map raw (enr_rows t)
      = flat_map (fun r => repeat (floor_timestamp r)
                             (join_multiplicity
                                (length (rate_rows_on (dt_date (timestamp r)) df2))))
                 [eur_row; gbp_row].
Proof.
  apply (enriched_row_count sample_files 1%positive sample_state [eur_row; gbp_row]
           3%positive 2%positive
           (snd (preprocess_data sample_files 1%positive sample_state))).
  - reflexivity.
  - discriminate.
  - vm_compute. reflexivity.
Defined.

(** ** Converting to the record's own currency *)

Lemma rate_table_rows rf rr :
  rr ∈ rt_rows (rate_table_of rf) →
  ∃ z, rate_date rr = PyDate z ∧ (z, rates rr) ∈ file_rows rf.
Proof.
  unfold rate_table_of. simpl. intros H.
  apply list_elem_of_fmap in H as ([z cells] & -> & Hin). exists z. auto.
Qed.

Lemma unique_key_value {A B} (l : list (A * B)) x y1 y2 :
  NoDup (map fst l) → (x, y1) ∈ l → (x, y2) ∈ l → y1 = y2.
Proof.
  induction l as [|[a b] l IH]; simpl; intros Hnd H1 H2; [inversion H1|].
  apply NoDup_cons in Hnd as [Hnot Hnd].
  apply elem_of_cons in H1 as [E1|H1]; apply elem_of_cons in H2 as [E2|H2].
  - congruence.
  - exfalso. apply Hnot. apply list_elem_of_fmap. exists (x, y2).
    split; [simpl; congruence|exact H2].
  - exfalso. apply Hnot. apply list_elem_of_fmap. exists (x, y1).
    split; [simpl; congruence|exact H1].
  - auto.
Qed.

Lemma to_datetime_date_inj z1 z2 :
  to_datetime (PyDate z1) = to_datetime (PyDate z2) → z1 = z2.
Proof.
  simpl. intros [= H]. unfold ns_per_day, ns_per_second in H. lia.
Qed.

(** With one rate row per date, the rows of the rate table that fall on the
    same day after [pd.to_datetime] are one row. *)
Lemma same_day_same_rates rf rr1 rr2 :
  NoDup (map fst (file_rows rf)) →
  rr1 ∈ rt_rows (rate_table_of rf) → rr2 ∈ rt_rows (rate_table_of rf) →
  to_datetime (rate_date rr1) = to_datetime (rate_date rr2) →
  rates rr1 = rates rr2.
Proof.
  intros Hnd H1 H2 Hd.
  apply rate_table_rows in H1 as (z1 & Hz1 & Hin1).
  apply rate_table_rows in H2 as (z2 & Hz2 & Hin2).
  rewrite Hz1, Hz2 in Hd. apply to_datetime_date_inj in Hd as ->.
  eapply unique_key_value; eassumption.
Qed.

Lemma rates_to_datetime_rows rt rr' :
  rr' ∈ rt_rows (rates_to_datetime rt) →
  ∃ rr, rr ∈ rt_rows rt ∧ rate_date rr' = to_datetime (rate_date rr)
        ∧ rates rr' = rates rr.
Proof.
  unfold rates_to_datetime. simpl. intros H.
  apply list_elem_of_fmap in H as (rr & -> & Hin). exists rr. auto.
Qed.

(** What [preprocess_data] has put into a row of its table. *)
Lemma enr_row_rate rf left rows2 o :
  Forall2 (fun m o => enrich (rate_table_of rf) m = Return o)
          (merge_left left (rate_table_of rf)) rows2 →
  o ∈ rows2 →
  amount_usd o
  = match rate_read (rate_table_of rf) (merged o) with
    | None => NaN
    | Some q => if Qeq_bool q 0 then NaN else Some (amount (raw o) / q)%Q
    end
  ∧ ((joined (merged o) = None
      ∧ ∀ rr, rr ∈ rt_rows (rate_table_of rf) → rate_date rr ≠ date (merged o))
     ∨ (∃ i rr, joined (merged o) = Some (i, rates rr)
                ∧ rr ∈ rt_rows (rate_table_of rf)
                ∧ rate_date rr = date (merged o))).
Proof.
  intros Happ Ho.
  destruct (Forall2_elem_r _ _ _ _ Happ Ho) as (m & Hm & Hen).
  apply enrich_Return in Hen as [Hmerged Husd].
  apply convert_to_usd_Return in Husd. unfold raw. rewrite Hmerged.
  split; [exact Husd|].
  apply merge_left_elem in Hm as [_ [[Hj Hnil]|([i cells] & Hj & Hp)]].
  - left. split; [exact Hj|]. apply matches_nil, Hnil.
  - right. apply matches_elem in Hp as (rr & Hrr & Hd & ->). eauto.
Qed.

(** A row of the table [preprocess_data] builds has no [amount_usd], or
    has the amount divided by the non-zero rate that a rate row of its date
    holds for its currency. *)
Lemma enr_row_usd rf rows1 rows2 o :
  Forall2 (fun m o => enrich (rate_table_of rf) m = Return o)
          (merge_left (left_rows rows1) (rate_table_of rf)) rows2 →
  o ∈ rows2 →
  date (merged o) = dt_date (timestamp (raw o))
  ∧ (amount_usd o = NaN
     ∨ ∃ rr q,
         rr ∈ rt_rows (rate_table_of rf)
         ∧ rate_date rr = date (merged o)
         ∧ currency (raw o) ∈ file_columns rf
         ∧ cell (file_columns rf) (rates rr) (currency (raw o)) = Some q
         ∧ ¬ (q == 0)%Q
         ∧ amount_usd o = Some (amount (raw o) / q)%Q).
Proof.
  intros Happ Ho.
  destruct (enr_row_rate _ _ _ _ Happ Ho) as [Husd Hjoin].
  destruct (Forall2_elem_r _ _ _ _ Happ Ho) as (m & Hm & Hen).
  apply enrich_Return in Hen as [Hmerged _].
  apply merge_left_elem in Hm as [Hleft _].
  apply left_rows_elem in Hleft as (_ & _ & Hdm).
  split; [unfold raw; rewrite Hmerged; exact Hdm|].
  unfold rate_read in Husd.
  change (rt_columns (rate_table_of rf)) with (file_columns rf) in Husd.
  case_bool_decide as Hcol; [|left; exact Husd].
  unfold joined_cell in Husd.
  destruct Hjoin as [[Hj _]|(i & rr & Hj & Hrr & Hd)]; rewrite Hj in Husd;
    [left; exact Husd|].
  destruct (cell (file_columns rf) (rates rr) (currency (base (merged o)))) as [q|] eqn:Hq;
    [|left; exact Husd].
  destruct (Qeq_bool q 0) eqn:Hz; [left; exact Husd|].
  right. exists rr, q. split; [exact Hrr|]. split; [exact Hd|]. split; [exact Hcol|].
  split; [exact Hq|]. split; [|exact Husd].
  intros H0. apply Qeq_bool_iff in H0. congruence.
Qed.

(** X10. Converting to a record's own currency multiplies by the very rate
    that [preprocess_data] divided by. With one rate row per date, a
    non-USD target and the two tables as [preprocess_data] returned them,
    a returned row whose currency is the target either has neither
    [amount_usd] nor [amount_converted], or the rate file has a row for the
    record's date whose non-zero cell for the currency is the row's target
    rate, [amount_usd] is the amount divided by it and [amount_converted]
    is that quotient multiplied by it. *)
Theorem own_currency_same_rate fs df st l l2 st1 fl c l' st2 t' r :
  preprocess_data fs df st = (Return (l, l2), st1) →
  filter_data l l2 fl (Some c) st1 = (Return l', st2) →
  heap st2 !! l' = Some (FilteredFrame t') →
  (∀ rf, rates_file fs = Some rf → NoDup (map fst (file_rows rf))) →
  wants_conversion (Some c) = true →
  r ∈ filt_rows t' →
  currency (raw (enr r)) = c →
  (amount_usd (enr r) = NaN ∧ amount_converted r = NaN)
  ∨ ∃ rf day cells q,
      rates_file fs = Some rf
      ∧ (day, cells) ∈ file_rows rf
      ∧ dt_date (timestamp (raw (enr r))) = PyDate day
      ∧ cell (file_columns rf) cells c = Some q
      ∧ ¬ (q == 0)%Q
      ∧ amount_usd (enr r) = Some (amount (raw (enr r)) / q)%Q
      ∧ target_rate r = Some (Some q)
      ∧ amount_converted r = Some (amount (raw (enr r)) / q * q)%Q.
Proof.
  intros Hpre Hfil Hl' Huniq Hwant Hr Hcur.
  apply preprocess_data_Return in Hpre
    as (f & Hf & [(He & -> & -> & ->)|(rows & -> & Hne & Hpre)]).
  { destruct (filter_data_Return _ _ _ _ _ _ _ Hfil) as (t0 & _ & Hdf & _).
    destruct (filter_data_rows_pass _ _ _ _ _ _ _ _ _ _ Hfil Hdf Hl' Hr)
      as (r0 & Hr0 & _).
    simpl in Hdf. rewrite lookup_alloc_other in Hdf by eauto.
    rewrite Hf in Hdf. injection Hdf as ->.
    unfold frame_empty in He. simpl in He. apply Nat.eqb_eq in He.
    destruct (enr_rows t0); [inversion Hr0|discriminate]. }
  apply enrich_frame_Return in Hpre as (rf & rows2 & Hrf & Happ & -> & -> & ->).
  apply apply_rows_Return in Happ. specialize (Huniq rf Hrf).
  set (df2 := rate_table_of rf) in *.
  apply filter_data_Return in Hfil
    as (t0 & f2 & Hdf & Hdf2 & [(Hc & -> & ->)|(Hc & rt & c' & -> & [= <-] & Hcol & -> & ->)]);
    simpl in Hdf, Hdf2; rewrite lookup_insert_eq in Hdf; injection Hdf as <-;
    rewrite lookup_second_alloc in Hdf2; injection Hdf2 as Hdf2;
    simpl in Hl'; rewrite lookup_insert_eq in Hl'; injection Hl' as <-; simpl in Hr.
  - (* the rate table has no rows *)
    subst f2. rewrite Hwant in Hc. simpl in Hc. apply negb_false_iff in Hc.
    unfold frame_empty in Hc. simpl in Hc. apply Nat.eqb_eq, length_zero_iff_nil in Hc.
    unfold copy_amount_usd in Hr. apply list_elem_of_fmap in Hr as (r0 & -> & Hr0).
    apply apply_filters_subset in Hr0. simpl in Hr0. simpl.
    destruct (enr_row_usd _ _ _ _ Happ Hr0) as [_ [Husd|(rr & q & Hrr & _)]]; [auto|].
    fold df2 in Hrr. unfold df2, rate_table_of in Hrr. simpl in Hrr.
    apply fmap_nil_inv in Hc. rewrite Hc in Hrr. inversion Hrr.
  - (* conversion *)
    subst rt.
    apply (merge_target_elem _ (rates_to_datetime df2) c r Hcol) in Hr
      as (e & rate & He & -> & Hrate).
    unfold dates_to_datetime in He. apply list_elem_of_fmap in He as (r0 & -> & Hr0).
    apply apply_filters_subset in Hr0. simpl in Hr0.
    simpl in Hcur, Hrate. unfold raw in Hcur. simpl in Hcur.
    rewrite convert_row_amount.
    change (amount_usd (enr (convert_row (set_date (to_datetime (date (merged r0))) r0)
                               rate)))
      with (amount_usd r0).
    change (amount_usd (set_date (to_datetime (date (merged r0))) r0)) with (amount_usd r0).
    change (raw (enr (convert_row (set_date (to_datetime (date (merged r0))) r0) rate)))
      with (raw r0).
    change (target_rate (convert_row (set_date (to_datetime (date (merged r0))) r0) rate))
      with (Some rate).
    destruct (enr_row_usd _ _ _ _ Happ Hr0)
      as [Hdate [Husd|(rr & q & Hrr & Hd & _ & Hq & Hnz & Husd)]].
    { left. rewrite Husd. split; reflexivity. }
    fold df2 in Hrr. unfold raw in Hq. rewrite Hcur in Hq.
    assert (Hrate' : rate = Some q).
    { destruct Hrate as [[Hno _]|[(_ & Hnone & _)|(_ & rr' & Hrr' & Hd' & ->)]].
      - contradiction.
      - exfalso. apply (Hnone (mkRateRow (to_datetime (rate_date rr)) (rates rr))).
        + unfold rates_to_datetime. simpl. apply list_elem_of_fmap. eauto.
        + simpl. rewrite Hd. reflexivity.
      - apply rates_to_datetime_rows in Hrr' as (rr0 & Hrr0 & Hd0 & Hr0').
        rewrite Hd0 in Hd'. rewrite Hr0'. simpl.
        assert (Hsame : rates rr0 = rates rr).
        { apply (same_day_same_rates rf); try assumption.
          rewrite Hd', Hd. reflexivity. }
        rewrite Hsame. exact Hq. }
    right. destruct (rate_table_rows _ _ Hrr) as (z & Hz & Hfile).
    exists rf, z, (rates rr), q.
    split; [exact Hrf|]. split; [exact Hfile|].
    split; [rewrite <- Hdate, <- Hd; exact Hz|].
    split; [exact Hq|]. split; [exact Hnz|]. split; [exact Husd|].
    split; [rewrite Hrate'; reflexivity|].
    rewrite Husd, Hrate'. reflexivity.
Qed.

Lemma own_currency_same_rate_witness :
  (amount_usd (enr (convert_row (set_date (Stamp 0) eur_enriched) (Some (9 # 10)%Q))) = NaN
   ∧ amount_converted (convert_row (set_date (Stamp 0) eur_enriched) (Some (9 # 10)%Q)) = NaN)
  ∨ ∃ rf day cells q,
      rates_file sample_files = Some rf
      ∧ (day, cells) ∈ file_rows rf
      ∧ dt_date (timestamp (raw (enr (convert_row (set_date (Stamp 0) eur_enriched)
                                        (Some (9 # 10)%Q)))))
        = PyDate day
      ∧ cell (file_columns rf) cells "EUR" = Some q
      ∧ ¬ (q == 0)%Q
      ∧ amount_usd (enr (convert_row (set_date (Stamp 0) eur_enriched) (Some (9 # 10)%Q)))
        = Some (amount (raw (enr (convert_row (set_date (Stamp 0) eur_enriched)
                                    (Some (9 # 10)%Q)))) / q)%Q
      ∧ target_rate (convert_row (set_date (Stamp 0) eur_enriched) (Some (9 # 10)%Q))
        = Some (Some q)
      ∧ amount_converted (convert_row (set_date (Stamp 0) eur_enriched) (Some (9 # 10)%Q))
        = Some (amount (raw (enr (convert_row (set_date (Stamp 0) eur_enriched)
                                    (Some (9 # 10)%Q)))) / q * q)%Q.
Proof.
  apply (own_currency_same_rate sample_files 1%positive sample_state 3%positive 2%positive
           enriched_state no_filters "EUR" 4%positive
           (snd (filter_data 3%positive 2%positive no_filters (Some "EUR") enriched_state))
           (mkFiltTable (activity_columns sample_enriched) (rate_columns sample_enriched)
              (Some "EUR_target_rate")
              [convert_row (set_date (Stamp 0) eur_enriched) (Some (9 # 10)%Q);
               convert_row (set_date (Stamp ns_per_day) gbp_enriched) NaN])).
  - vm_compute. reflexivity.
  - vm_compute. reflexivity.
  - vm_compute. reflexivity.
  - intros rf [= <-]. apply (bool_decide_eq_true_1 _). vm_compute. reflexivity.
  - reflexivity.
  - left.
  - reflexivity.
Defined.

(** ** The ranges of the widget values *)

Lemma filter_length_le {A} (p : A → bool) l : (length (List.filter p l) ≤ length l)%nat.
Proof. induction l as [|x l IH]; simpl; [lia|]. destruct (p x); simpl; lia. Qed.

Lemma mean_bool_range bs :
  bs ≠ [] → (0 <= mean_bool bs)%Q ∧ (mean_bool bs <= 1)%Q.
Proof.
  intros Hbs. unfold mean_bool.
  assert (Hlen : (0 < length bs)%nat) by (destruct bs; [congruence|simpl; lia]).
  assert (Hpos : (0 < inject_Z (Z.of_nat (length bs)))%Q).
  { unfold Qlt. simpl. lia. }
  pose proof (filter_length_le id bs) as Hle.
  split.
  - apply Qle_shift_div_l; [exact Hpos|]. unfold Qle. simpl. lia.
  - apply Qle_shift_div_r; [exact Hpos|]. unfold Qle. simpl. lia.
Qed.

Lemma defined_nil xs : defined xs = [] ↔ ∀ x, x ∈ xs → x = NaN.
Proof.
  unfold defined. induction xs as [|x xs IH]; simpl.
  - split; [intros _ x Hx; inversion Hx|reflexivity].
  - destruct x as [q|]; simpl.
    + split; [discriminate|]. intros H. specialize (H (Some q)).
      discriminate H. left.
    + rewrite IH. split.
      * intros H x Hx. apply elem_of_cons in Hx as [->|Hx]; auto.
      * intros H x Hx. apply H. right. exact Hx.
Qed.

Lemma mean_skipna_nan xs : mean_skipna xs = NaN ↔ ∀ x, x ∈ xs → x = NaN.
Proof.
  rewrite <- defined_nil. unfold mean_skipna.
  destruct (defined xs); split; intros H; try reflexivity; discriminate H.
Qed.

(** X11. Whatever table the widget values are computed from, the count is
    the number of its rows and the fraud percentage lies between 0 and 100;
    if the table has rows and [amount_converted] is not-a-number in every
    one of them, the average amount is not-a-number and the fraud amount
    is 0. *)
Theorem widgets_ranges dff w :
  widgets dff = Return w →
  total_transactions w = frame_len dff
  ∧ (0 <= fraud_percentage w)%Q
  ∧ (fraud_percentage w <= 100)%Q
  ∧ ∀ t, dff = FilteredFrame t → filt_rows t ≠ [] →
      (∀ r, r ∈ filt_rows t → amount_converted r = NaN) →
      avg_transaction_amount w = NaN ∧ total_fraud_amount w = 0%Q.
Proof.
  destruct dff as [|rows|t|t|rt]; simpl; try discriminate.
  - intros [= <-]. simpl.
    split; [reflexivity|]. split; [unfold Qle; simpl; lia|].
    split; [unfold Qle; simpl; lia|]. discriminate.
  - intros [= <-]. simpl.
    destruct (filt_rows t) as [|r rows] eqn:Hrows.
    + simpl. split; [reflexivity|]. split; [unfold Qle; simpl; lia|].
      split; [unfold Qle; simpl; lia|]. intros t' [= <-] Hne. congruence.
    + assert (Hne : map fraud (r :: rows) ≠ []) by discriminate.
      destruct (mean_bool_range _ Hne) as [H0 H1].
      change (0 <? length (r :: rows))%nat with true. cbv iota.
      split; [reflexivity|]. split; [|split].
      * apply Qmult_le_0_compat; [exact H0|unfold Qle; simpl; lia].
      * apply Qle_trans with (1 * 100)%Q; [|unfold Qle; simpl; lia].
        apply Qmult_le_compat_r; [exact H1|unfold Qle; simpl; lia].
      * intros t' [= <-] _ Hnan. rewrite Hrows in Hnan. split.
        -- apply mean_skipna_nan. intros x Hx.
           apply list_elem_of_fmap in Hx as (r0 & -> & Hr0). auto.
        -- unfold sum_skipna.
           replace (defined (map amount_converted (List.filter fraud (r :: rows))))
             with (@nil Q); [reflexivity|].
           symmetry. apply defined_nil. intros x Hx.
           apply list_elem_of_fmap in Hx as (r0 & -> & Hr0). apply Hnan.
           apply list_elem_of_In, filter_In in Hr0 as [Hr0 _].
           apply list_elem_of_In, Hr0.
Qed.

Lemma widgets_ranges_witness :
  ∃ w,
    widgets (FilteredFrame (mkFiltTable [] [] None (copy_amount_usd [gbp_enriched])))
    = Return w
    ∧ total_transactions w
      = frame_len (FilteredFrame (mkFiltTable [] [] None (copy_amount_usd [gbp_enriched])))
    ∧ (0 <= fraud_percentage w)%Q
    ∧ (fraud_percentage w <= 100)%Q
    ∧ ∀ t, FilteredFrame (mkFiltTable [] [] None (copy_amount_usd [gbp_enriched]))
           = FilteredFrame t →
        filt_rows t ≠ [] →
        (∀ r, r ∈ filt_rows t → amount_converted r = NaN) →
        avg_transaction_amount w = NaN ∧ total_fraud_amount w = 0%Q.
Proof.
  eexists. split; [reflexivity|].
  apply (widgets_ranges
           (FilteredFrame (mkFiltTable [] [] None (copy_amount_usd [gbp_enriched])))).
  reflexivity.
Defined.

(** ** The device groups *)

Lemma indicator_sum (x : string) keys :
  NoDup keys → x ∈ keys →
  sum_nat (map (fun d => if String.eqb x d then 1 else 0)%nat keys) = 1%nat.
Proof.
  induction 1 as [|k keys Hk Hnd IH]; intros Hx; [inversion Hx|].
  simpl. destruct (String.eqb x k) eqn:Hxk.
  - apply String.eqb_eq in Hxk. subst k. f_equal.
    clear IH Hx Hnd. induction keys as [|k keys IH]; [reflexivity|].
    simpl. apply not_elem_of_cons in Hk as [Hne Hk].
    apply String.eqb_neq in Hne. rewrite Hne. simpl. apply IH, Hk.
  - apply String.eqb_neq in Hxk.
    apply elem_of_cons in Hx as [?|Hx]; [congruence|]. simpl. apply IH, Hx.
Qed.

Lemma sum_nat_add {A} (f g : A → nat) l :
  sum_nat (map (fun x => f x + g x)%nat l) = (sum_nat (map f l) + sum_nat (map g l))%nat.
Proof. induction l as [|x l IH]; simpl; [reflexivity|]. rewrite IH. lia. Qed.

Lemma group_sizes_sum (p : FiltRow → bool) keys rows :
  NoDup keys →
  (∀ r, r ∈ rows → device_of r ∈ keys) →
  sum_nat (map (fun d => length (List.filter p (device_group rows d))) keys)
  = length (List.filter p rows).
Proof.
  intros Hnd. induction rows as [|r rows IH]; intros Hin.
  - simpl. clear. induction keys as [|k keys IH]; simpl; auto.
  - rewrite (map_ext _ (fun d => (if String.eqb (device_of r) d
                                  then (if p r then 1 else 0) else 0)
                                 + length (List.filter p (device_group rows d)))%nat).
    2:{ intros d. unfold device_group. simpl.
        destruct (String.eqb (device_of r) d); [|reflexivity].
        simpl. destruct (p r); reflexivity. }
    rewrite sum_nat_add, IH by (intros; apply Hin; right; assumption).
    simpl. destruct (p r).
    + rewrite indicator_sum; [reflexivity|exact Hnd|apply Hin; left].
    + simpl. replace (sum_nat _) with 0%nat; [reflexivity|].
      clear. induction keys as [|k keys IH]; simpl; [reflexivity|].
      destruct (String.eqb _ _); exact IH.
Qed.

Lemma filter_true {A} (l : list A) : List.filter (fun _ => true) l = l.
Proof. induction l; simpl; congruence. Qed.

(** X12. [groupby('device')] splits the rows: the groups of [device_stats]
    have distinct devices, exactly the devices that occur; no group is
    empty, a group has no more fraud records than records; the counts add up
    to the number of rows and the sums to the number of fraud rows. *)
Theorem device_stats_partition rows :
  NoDup (map ds_device (device_stats rows))
  ∧ (∀ d, d ∈ map ds_device (device_stats rows) ↔ ∃ r, r ∈ rows ∧ device_of r = d)
  ∧ (∀ s, s ∈ device_stats rows → (1 ≤ ds_count s)%nat ∧ (ds_sum s ≤ ds_count s)%nat)
  ∧ sum_nat (map ds_count (device_stats rows)) = length rows
  ∧ sum_nat (map ds_sum (device_stats rows)) = length (List.filter fraud rows).
Proof.
  rewrite device_stats_devices.
  split; [apply group_keys_NoDup|]. split; [apply group_keys_elem|].
  assert (Hall : ∀ r, r ∈ rows → device_of r ∈ group_keys rows).
  { intros r Hr. apply group_keys_elem. eauto. }
  split; [|split].
  - intros s Hs. unfold device_stats in Hs.
    apply list_elem_of_fmap in Hs as (d & -> & Hd). simpl.
    apply group_keys_elem in Hd as (r & Hr & Hdev).
    pose proof (filter_length_le fraud (device_group rows d)).
    assert (Hg : r ∈ device_group rows d).
    { unfold device_group. apply list_elem_of_In, filter_In.
      split; [apply list_elem_of_In, Hr|apply String.eqb_eq, Hdev]. }
    destruct (device_group rows d); [inversion Hg|]. simpl in *. lia.
  - unfold device_stats. rewrite map_map. simpl.
    rewrite <- (filter_true rows) at 2.
    rewrite <- (group_sizes_sum (fun _ => true) (group_keys rows) rows)
      by (apply group_keys_NoDup || exact Hall).
    f_equal. apply map_ext. intros d. rewrite filter_true. reflexivity.
  - unfold device_stats. rewrite map_map. simpl.
    apply group_sizes_sum; [apply group_keys_NoDup|exact Hall].
Qed.

(** ** The currencies on offer *)

Lemma currency_columns_elem cols c :
  c ∈ List.filter (fun col => negb (String.eqb col "date")) ("date" :: cols)
  ↔ c ∈ cols ∧ c ≠ "date".
Proof.
  rewrite list_elem_of_In, filter_In, negb_true_iff, String.eqb_neq.
  rewrite <- list_elem_of_In, elem_of_cons. split.
  - intros [[->|H] Hne]; [congruence|auto].
  - intros [H Hne]. auto.
Qed.

Lemma currency_options_elem df2_global opts c :
  currency_options df2_global = Return opts →
  c ∈ opts ↔
  c = "USD" ∨ ∃ rt, df2_global = RatesFrame rt ∧ rt_rows rt ≠ []
                    ∧ c ∈ rt_columns rt ∧ c ≠ "date".
Proof.
  destruct df2_global as [| | | |rt]; unfold currency_options; try discriminate.
  - simpl. intros [= <-]. rewrite list_elem_of_singleton. split; [auto|].
    intros [?|(rt & ? & _)]; [assumption|discriminate].
  - unfold frame_empty. cbn [frame_len].
    set (cols := List.filter _ ("date" :: rt_columns rt)).
    assert (Hcols : ∀ x, x ∈ cols ↔ x ∈ rt_columns rt ∧ x ≠ "date")
      by (intros x; apply currency_columns_elem).
    clearbody cols.
    destruct (rt_rows rt) as [|rr rows] eqn:Hrows; simpl.
    + intros [= <-]. rewrite list_elem_of_singleton. split; [auto|].
      intros [?|(rt' & [= <-] & Hne & _)]; [assumption|congruence].
    + intros [= <-]. case_bool_decide as Husd.
      * rewrite Hcols. split.
        -- intros H. right. exists rt. rewrite Hrows. split; [reflexivity|].
           split; [discriminate|exact H].
        -- intros [->|(rt' & [= <-] & _ & H)]; [apply Hcols, Husd|exact H].
      * rewrite elem_of_cons, Hcols. split.
        -- intros [?|H]; [auto|]. right. exists rt. rewrite Hrows.
           split; [reflexivity|]. split; [discriminate|exact H].
        -- intros [?|(rt' & [= <-] & _ & H)]; auto.
Qed.

(** X13. The target-currency control always offers USD and never offers
    [date]; any other currency is offered exactly when it is a column of a
    rate table that has rows. *)
Theorem currency_options_offered df2_global opts :
  currency_options df2_global = Return opts →
  "USD" ∈ opts
  ∧ ("date" ∉ opts)
  ∧ ∀ c, c ≠ "USD" → c ≠ "date" →
      (c ∈ opts ↔ ∃ rt, df2_global = RatesFrame rt ∧ rt_rows rt ≠ [] ∧ c ∈ rt_columns rt).
Proof.
  intros H. pose proof (currency_options_elem _ _ "USD" H) as Husd.
  pose proof (currency_options_elem _ _ "date" H) as Hdate.
  split; [apply Husd; auto|]. split.
  - intros Hin. apply Hdate in Hin as [?|(rt & _ & _ & _ & ?)]; congruence.
  - intros c Hc Hd. rewrite (currency_options_elem _ _ c H). split.
    + intros [?|(rt & ? & ? & ? & _)]; [congruence|eauto].
    + intros (rt & ? & ? & ?). right. exists rt. auto.
Qed.

Lemma currency_options_offered_witness :
  "USD" ∈ ["USD"; "EUR"; "GBP"]
  ∧ ("date" ∉ ["USD"; "EUR"; "GBP"])
  ∧ ∀ c, c ≠ "USD" → c ≠ "date" →
      (c ∈ ["USD"; "EUR"; "GBP"] ↔
       ∃ rt, RatesFrame (rate_table_of sample_rates) = RatesFrame rt
             ∧ rt_rows rt ≠ [] ∧ c ∈ rt_columns rt).
Proof.
  apply (currency_options_offered (RatesFrame (rate_table_of sample_rates))).
  vm_compute. reflexivity.
Defined.

(** The two tables [preprocess_data] returns, when the first is an enriched
    table. *)
Lemma preprocess_data_tables fs df st l l2 st1 t :
  preprocess_data fs df st = (Return (l, l2), st1) →
  heap st1 !! l = Some (EnrichedFrame t) →
  (enr_rows t = [] ∧ heap st1 !! l2 = Some NoColumns)
  ∨ ∃ rf, heap st1 !! l2 = Some (RatesFrame (rate_table_of rf))
          ∧ rate_columns t = file_columns rf.
Proof.
  intros Hrun Hl.
  apply preprocess_data_Return in Hrun as (f & Hf & [(He & -> & -> & ->)|(rows & -> & Hne & Hrun)]).
  - left. simpl in *. rewrite lookup_insert_eq. split; [|reflexivity].
    rewrite lookup_alloc_other in Hl by eauto. rewrite Hf in Hl. injection Hl as ->.
    unfold frame_empty in He. simpl in He. apply Nat.eqb_eq in He.
    destruct (enr_rows t); [reflexivity|discriminate].
  - right. apply enrich_frame_Return in Hrun as (rf & rows2 & _ & _ & -> & -> & ->).
    exists rf. simpl in *. rewrite lookup_second_alloc. split; [reflexivity|].
    rewrite lookup_insert_eq in Hl. injection Hl as <-. reflexivity.
Qed.

(** X14. A currency that the control offers for the rate table of
    [preprocess_data] can be used: with the two tables [preprocess_data]
    returned, all of whose dates lie in the range of timestamps,
    [filter_data] returns a table for it, whatever the filters, provided no
    column is named [amount_converted] or after the currency with
    [_target_rate] appended. *)
Theorem offered_currency_converts fs df st l l2 st1 t f2 opts c fl :
  preprocess_data fs df st = (Return (l, l2), st1) →
  heap st1 !! l = Some (EnrichedFrame t) →
  heap st1 !! l2 = Some f2 →
  currency_options f2 = Return opts →
  c ∈ opts →
  NoDup (enr_columns t ++ ["amount_converted"]) →
  target_rate_name c ∉ enr_columns t →
  forallb (fun r => date_in_range (date (merged r))) (enr_rows t) = true →
  (∀ rt, f2 = RatesFrame rt →
     forallb (fun rr => date_in_range (rate_date rr)) (rt_rows rt) = true) →
  ∃ l' st2 t',
    filter_data l l2 fl (Some c) st1 = (Return l', st2)
    ∧ heap st2 !! l' = Some (FilteredFrame t').
Proof.
  intros Hrun Hl Hl2 Hopts Hc Hnd Hname _ _.
  assert (Hret : ∃ l' st2, filter_data l l2 fl (Some c) st1 = (Return l', st2)).
  { rewrite (filter_data_eq _ _ _ _ _ _ _ Hl Hl2). cbv zeta.
    rewrite bool_decide_eq_true_2 by assumption. cbn [negb].
    destruct (wants_conversion (Some c) && negb (frame_empty f2)) eqn:Hw; [|eauto].
    apply andb_prop in Hw as [Hw He].
    apply (currency_options_elem _ _ c Hopts) in Hc
      as [->|(rt & -> & Hrows & Hcol & Hdate)]; [discriminate Hw|].
    destruct (preprocess_data_tables _ _ _ _ _ _ _ Hrun Hl) as [[_ Hnone]|(rf & Hrf & Hcols)];
      [congruence|].
    rewrite Hl2 in Hrf. injection Hrf as ->.
    rewrite (bool_decide_eq_false_2 (c = "date")) by assumption.
    rewrite (bool_decide_eq_false_2 (target_rate_name c ∈ enr_columns t)) by assumption.
    cbn [orb].
    rewrite (bool_decide_eq_true_2 (c ∈ rt_columns (rates_to_datetime (rate_table_of rf))))
      by exact Hcol.
    cbn [negb].
    rewrite (bool_decide_eq_true_2 (c ∈ enr_columns t)); [eauto|].
    unfold enr_columns, merged_columns. rewrite Hcols.
    rewrite !elem_of_app. left. right. right. right. exact Hcol. }
  destruct Hret as (l' & st2 & Hfilter).
  destruct (filter_data_returns_filtered _ _ _ _ _ _ _ Hfilter) as [t' Ht'].
  exists l', st2, t'. split; [exact Hfilter|exact Ht'].
Qed.

Lemma offered_currency_converts_witness :
  ∃ l' st2 t',
    filter_data 3%positive 2%positive only_fraud (Some "GBP") enriched_state
    = (Return l', st2)
    ∧ heap st2 !! l' = Some (FilteredFrame t').
Proof.
  apply (offered_currency_converts sample_files 1%positive sample_state 3%positive
           2%positive enriched_state sample_enriched
           (RatesFrame (rate_table_of sample_rates)) ["USD"; "EUR"; "GBP"] "GBP" only_fraud).
  - vm_compute. reflexivity.
  - vm_compute. reflexivity.
  - vm_compute. reflexivity.
  - vm_compute. reflexivity.
  - apply (bool_decide_eq_true_1 _). vm_compute. reflexivity.
  - apply (bool_decide_eq_true_1 _). vm_compute. reflexivity.
  - apply (bool_decide_eq_false_1 _). vm_compute. reflexivity.
  - vm_compute. reflexivity.
  - intros rt [= <-]. vm_compute. reflexivity.
Defined.

(** ** The information panels *)

Lemma toggle_info_clicked n cs :
  n ≠ 0%Z →
  toggle_info (Some n) (Some cs)
  = Return (<["display" := if bool_decide (cs !! "display" = Some "block")
                           then "none" else "block"]> cs).
Proof.
  intros Hn. unfold toggle_info. apply Z.eqb_neq in Hn. rewrite Hn. simpl.
  case_bool_decide; reflexivity.
Qed.

(** X15. A click on an information button switches the panel between shown
    and hidden and changes no other style property; a panel whose display
    is [block] or [none] is back to the style it had after two clicks. *)
Theorem toggle_info_toggles n m cs :
  n ≠ 0%Z → m ≠ 0%Z →
  ∃ s1 s2,
    toggle_info (Some n) (Some cs) = Return s1
    ∧ toggle_info (Some m) (Some s1) = Return s2
    ∧ (∀ k, k ≠ "display" → s1 !! k = cs !! k)
    ∧ s1 !! "display"
      = Some (if bool_decide (cs !! "display" = Some "block") then "none" else "block")
    ∧ s2 !! "display" = Some (if bool_decide (cs !! "display" = Some "block")
                              then "block" else "none")
    ∧ (cs !! "display" = Some "block" ∨ cs !! "display" = Some "none" → s2 = cs).
Proof.
  intros Hn Hm. eexists _, _.
  split; [apply toggle_info_clicked, Hn|].
  split; [apply toggle_info_clicked, Hm|].
  unfold Style in *. rewrite !lookup_insert_eq. split; [|split; [reflexivity|split]].
  - intros k Hk. apply lookup_insert_ne. congruence.
  - destruct (bool_decide (cs !! "display" = Some "block")); reflexivity.
  - rewrite insert_insert_eq. intros [H|H].
    + rewrite (bool_decide_eq_true_2 _ H). simpl. apply insert_id, H.
    + rewrite (bool_decide_eq_false_2 (cs !! "display" = Some "block")) by congruence.
      simpl. apply insert_id, H.
Qed.

Lemma toggle_info_toggles_witness :
  ∃ s1 s2,
    toggle_info (Some 1%Z) (Some {["display" := "none"]}) = Return s1
    ∧ toggle_info (Some 2%Z) (Some s1) = Return s2
    ∧ (∀ k, k ≠ "display" → s1 !! k = ({["display" := "none"]} : Style) !! k)
    ∧ s1 !! "display"
      = Some (if bool_decide (({["display" := "none"]} : Style) !! "display" = Some "block")
              then "none" else "block")
    ∧ s2 !! "display"
      = Some (if bool_decide (({["display" := "none"]} : Style) !! "display" = Some "block")
              then "block" else "none")
    ∧ (({["display" := "none"]} : Style) !! "display" = Some "block"
       ∨ ({["display" := "none"]} : Style) !! "display" = Some "none" →
       s2 = {["display" := "none"]}).
Proof.
  apply (toggle_info_toggles 1 2 {["display" := "none"]}); lia.
Defined.

(** X16. Before any click ([n_clicks] absent or 0) the panel keeps the
    style it has, hidden unless the style says otherwise: a display it
    already has is kept, a missing one becomes [none], and calling again
    changes nothing. Without a style, every call raises [TypeError]. *)
Theorem toggle_info_unclicked n_clicks cs :
  n_clicks = None ∨ n_clicks = Some 0%Z →
  ∃ s,
    toggle_info n_clicks (Some cs) = Return s
    ∧ toggle_info n_clicks (Some s) = Return s
    ∧ (∀ k, k ≠ "display" → s !! k = cs !! k)
    ∧ s !! "display" = Some (default "none" (cs !! "display"))
    ∧ (is_Some (cs !! "display") → s = cs)
    ∧ ∀ n, toggle_info n None = Raise TypeError.
Proof.
  intros Hn. unfold Style in *.
  assert (Hun : ∀ c, toggle_info n_clicks (Some c) = Return (c ∪ {["display" := "none"]}))
    by (intros c; destruct Hn as [->| ->]; reflexivity).
  exists (cs ∪ {["display" := "none"]}).
  assert (Hd : (cs ∪ {["display" := "none"]}) !! "display"
               = Some (default "none" (cs !! "display"))).
  { rewrite lookup_union, lookup_singleton_eq. destruct (cs !! "display"); reflexivity. }
  split; [apply Hun|]. split; [|split; [|split; [exact Hd|split]]].
  - rewrite Hun. f_equal. eapply union_singleton_r, Hd.
  - intros k Hk. apply lookup_union_l, lookup_singleton_ne. congruence.
  - intros [v Hv]. eapply union_singleton_r, Hv.
  - intros [n|]; [destruct (Z.eqb n 0) eqn:E|]; unfold toggle_info; try rewrite E; reflexivity.
Qed.

Lemma toggle_info_unclicked_witness :
  ∃ s,
    toggle_info (Some 0%Z) (Some {["padding" := "15px"]}) = Return s
    ∧ toggle_info (Some 0%Z) (Some s) = Return s
    ∧ (∀ k, k ≠ "display" → s !! k = ({["padding" := "15px"]} : Style) !! k)
    ∧ s !! "display" = Some (default "none" (({["padding" := "15px"]} : Style) !! "display"))
    ∧ (is_Some (({["padding" := "15px"]} : Style) !! "display") → s = {["padding" := "15px"]})
    ∧ ∀ n, toggle_info n None = Raise TypeError.
Proof.
  apply (toggle_info_unclicked (Some 0%Z) {["padding" := "15px"]}).
  right. reflexivity.
Defined.

(** ** Loading the full data *)

Lemma read_groups_all pre post st :
  ∃ tr, read_groups (pre ++ post) (seq (length pre) (length post)) st
        = (Return post, mkState (heap st) tr).
Proof.
  revert pre st. induction post as [|g post IH]; intros pre st.
  - exists (trace st). destruct st; reflexivity.
  - cbn [length seq read_groups]. rewrite bind_run.
    unfold read_row_group. rewrite bind_run. unfold log.
    rewrite list_lookup_middle by reflexivity. unfold ret at 1.
    rewrite bind_run.
    destruct (IH (pre ++ [g]) (mkState (heap st) (trace st ++ [ReadRowGroup (length pre)])))
      as [tr Htr].
    rewrite <- app_assoc, length_app, Nat.add_1_r in Htr. simpl in Htr.
    rewrite Htr. exists tr. reflexivity.
Qed.

Lemma read_whole_file_run groups st :
  ∃ tr, read_whole_file groups st
        = (Return (fresh (dom (heap st))),
           mkState (<[fresh (dom (heap st)) := RawFrame (concat groups)]> (heap st)) tr).
Proof.
  unfold read_whole_file. rewrite bind_run.
  destruct (read_groups_all [] groups st) as [tr Htr]. simpl in Htr.
  rewrite Htr. exists tr. reflexivity.
Qed.

(** The whole file is read and preprocessed in a frame of its own. *)
Lemma full_data_keeps fs groups st r st2 :
  (let* l := read_whole_file groups in preprocess_data fs l) st = (r, st2) →
  ∀ l, l ∈ dom (heap st) → heap st2 !! l = heap st !! l.
Proof.
  rewrite bind_run. destruct (read_whole_file_run groups st) as [tr ->].
  intros Hrun l Hl. apply elem_of_dom in Hl.
  eapply preprocess_data_frame in Hrun as (_ & Hkeep & _);
    [|simpl; apply lookup_insert_eq].
  rewrite Hkeep; simpl.
  - apply lookup_alloc_other, Hl.
  - intros ->. rewrite fresh_lookup in Hl. destruct Hl as [? Hl]. discriminate.
  - rewrite lookup_alloc_other by exact Hl. exact Hl.
Qed.

(** X17. [load_full_data_to_store] never changes a table that existed
    before the call and never fills the full-data store without the rate
    store. After a click it lets no exception out and sets both stores or
    clears both; without the transaction file it clears both and does
    nothing else. Without a click it only re-serialises [df2_global]. *)
Theorem load_full_data_to_store_outcome to_json fs g n_clicks st r st' :
  load_full_data_to_store to_json fs g n_clicks st = (r, st') →
  (∀ l, l ∈ dom (heap st) → heap st' !! l = heap st !! l)
  ∧ (∀ a b, r = Return (a, b) → is_Some a → is_Some b)
  ∧ ((0 < n_clicks)%Z →
     (∀ e, r ≠ Raise e)
     ∧ (∀ a b, r = Return (a, b) → is_Some b → is_Some a)
     ∧ (pq_file_global g = None → r = Return (None, None) ∧ st' = st))
  ∧ ((n_clicks ≤ 0)%Z →
     st' = st
     ∧ ∀ a b, r = Return (a, b) →
         a = None
         ∧ ∃ f2 text, heap st !! df2_global g = Some f2 ∧ to_json f2 = Return text
                      ∧ b = Some text).
Proof.
  unfold load_full_data_to_store. destruct (Z.ltb 0 n_clicks) eqn:Hn.
  - apply Z.ltb_lt in Hn.
    assert (Hgoal : (∀ l, l ∈ dom (heap st) → heap st' !! l = heap st !! l)
                    ∧ (r = Return (None, None) ∨ (∃ a b, r = Return (Some a, Some b))
                       ∨ r = Unmodelled)
                    ∧ (pq_file_global g = None → r = Return (None, None) ∧ st' = st) →
            (∀ l, l ∈ dom (heap st) → heap st' !! l = heap st !! l)
            ∧ (∀ a b, r = Return (a, b) → is_Some a → is_Some b)
            ∧ ((0 < n_clicks)%Z →
               (∀ e, r ≠ Raise e)
               ∧ (∀ a b, r = Return (a, b) → is_Some b → is_Some a)
               ∧ (pq_file_global g = None → r = Return (None, None) ∧ st' = st))
            ∧ ((n_clicks ≤ 0)%Z →
               st' = st
               ∧ ∀ a b, r = Return (a, b) →
                   a = None
                   ∧ ∃ f2 text, heap st !! df2_global g = Some f2
                                ∧ to_json f2 = Return text ∧ b = Some text)).
    { intros (Hkeep & Hr & Hnone). split; [exact Hkeep|].
      split; [|split; [|intros; lia]].
      - intros a b -> [x ->].
        destruct Hr as [[=]|[(a' & b' & [= _ ->])|[=]]]. eauto.
      - intros _. split; [|split; [|exact Hnone]].
        + intros e ->. destruct Hr as [[=]|[(a' & b' & [=])|[=]]].
        + intros a b -> [x ->].
          destruct Hr as [[=]|[(a' & b' & [= -> _])|[=]]]. eauto. }
    destruct (pq_file_global g) as [groups|].
    2:{ intros [= <- <-]. apply Hgoal. auto. }
    unfold try_except.
    destruct ((let* l := read_whole_file groups in preprocess_data fs l) st)
      as [r2 st2] eqn:Hfull.
    pose proof (full_data_keeps _ _ _ _ _ Hfull) as Hkeep.
    assert (Hrun : (let* l := read_whole_file groups in
                    let* p := preprocess_data fs l in
                    let* df_full := deref (fst p) in
                    let* full_data := lift (to_json df_full) in
                    let* df2_full := deref (snd p) in
                    let* exchange_rates := lift (to_json df2_full) in
                    ret (Some full_data, Some exchange_rates)) st
                   = match r2 with
                     | Return p =>
                         (let* df_full := deref (fst p) in
                          let* full_data := lift (to_json df_full) in
                          let* df2_full := deref (snd p) in
                          let* exchange_rates := lift (to_json df2_full) in
                          ret (Some full_data, Some exchange_rates)) st2
                     | Raise e => (Raise e, st2)
                     | Unmodelled => (Unmodelled, st2)
                     end).
    { rewrite bind_run in Hfull. rewrite bind_run.
      destruct (read_whole_file groups st) as [[l|e|] st1].
      - rewrite bind_run, Hfull. reflexivity.
      - injection Hfull as <- <-. reflexivity.
      - injection Hfull as <- <-. reflexivity. }
    rewrite Hrun. clear Hrun Hfull.
    destruct r2 as [p|e|].
    + rewrite bind_run. unfold deref at 1.
      destruct (heap st2 !! fst p) as [df_full|];
        [|intros [= <- <-]; apply Hgoal; split; [exact Hkeep|]; split; [auto|discriminate]].
      rewrite bind_run. unfold lift at 1.
      destruct (to_json df_full) as [a|e|];
        [|intros [= <- <-]; apply Hgoal; split; [exact Hkeep|]; split; [auto|discriminate]
         |intros [= <- <-]; apply Hgoal; split; [exact Hkeep|]; split; [auto|discriminate]].
      rewrite bind_run. unfold deref at 1.
      destruct (heap st2 !! snd p) as [df2_full|];
        [|intros [= <- <-]; apply Hgoal; split; [exact Hkeep|]; split; [auto|discriminate]].
      rewrite bind_run. unfold lift at 1.
      destruct (to_json df2_full) as [b|e|];
        intros [= <- <-]; apply Hgoal; (split; [exact Hkeep|]); (split; [|discriminate]);
        eauto.
    + intros [= <- <-]. apply Hgoal. split; [exact Hkeep|]. split; [auto|discriminate].
    + intros [= <- <-]. apply Hgoal. split; [exact Hkeep|]. split; [auto|discriminate].
  - apply Z.ltb_ge in Hn. rewrite bind_run. unfold deref.
    destruct (heap st !! df2_global g) as [f2|] eqn:Hf2.
    2:{ intros [= <- <-]. split; [auto|]. split; [discriminate|].
        split; [intros; lia|]. intros _. split; [reflexivity|discriminate]. }
    rewrite bind_run. unfold lift.
    destruct (to_json f2) as [text|e|] eqn:Htext; intros [= <- <-];
      (split; [auto|]); (split; [try discriminate|]);
      try (split; [intros; lia|]; intros _; split; [reflexivity|try discriminate]).
    + intros a b [= <- <-] [x [=]].
    + intros a b [= <- <-]. split; [reflexivity|]. exists f2, text. auto.
Qed.

Lemma load_full_data_to_store_outcome_witness :
  (∀ l, l ∈ dom (heap enriched_state) →
     heap (snd (load_full_data_to_store frame_kind_json sample_files sample_globals 1
                  enriched_state)) !! l
     = heap enriched_state !! l)
  ∧ (∀ a b, Return (Some "enriched", Some "rates") = Return (a, b) → is_Some a → is_Some b)
  ∧ ((0 < 1)%Z →
     (∀ e, Return (Some "enriched", Some "rates") ≠ Raise e)
     ∧ (∀ a b, Return (Some "enriched", Some "rates") = Return (a, b) →
          is_Some b → is_Some a)
     ∧ (pq_file_global sample_globals = None →
        Return (Some "enriched", Some "rates") = Return (None, None)
        ∧ snd (load_full_data_to_store frame_kind_json sample_files sample_globals 1
                 enriched_state) = enriched_state))
  ∧ ((1 ≤ 0)%Z →
     snd (load_full_data_to_store frame_kind_json sample_files sample_globals 1
            enriched_state) = enriched_state
     ∧ ∀ a b, Return (Some "enriched", Some "rates") = Return (a, b) →
         a = None
         ∧ ∃ f2 text, heap enriched_state !! df2_global sample_globals = Some f2
                      ∧ frame_kind_json f2 = Return text ∧ b = Some text).
Proof.
  apply (load_full_data_to_store_outcome frame_kind_json sample_files sample_globals 1
           enriched_state).
  vm_compute. reflexivity.
Defined.

(** ** The values update_graphs returns and the outputs they go to *)

(** X18. When the filtered table is empty, [update_graphs] returns as many
    values as it has outputs, but in another order than the outputs: the
    figures come first and the four widget texts last, so the widget outputs
    10 to 13 receive a figure and the figure outputs 19 to 22 receive a
    text. The tuple returned at the end of the function fits every
    output. *)
Theorem early_return_misplaced format_count format_amount format_percentage
    dff target_currency vals :
  update_graphs_early_return format_count format_amount format_percentage dff target_currency
  = Return (Some vals) →
  frame_empty dff = true
  ∧ length vals = length update_graphs_outputs
  ∧ misplaced vals = [10; 11; 12; 13; 19; 20; 21; 22]%nat
  ∧ ∀ w, misplaced (full_return (widget_vals format_count format_amount format_percentage
                                   w target_currency)) = [].
Proof.
  unfold update_graphs_early_return.
  destruct (widgets dff) as [w| |]; try discriminate.
  destruct (frame_empty dff); [|discriminate].
  intros [= <-]. split; [reflexivity|]. split; [reflexivity|]. split; reflexivity.
Qed.

Lemma early_return_misplaced_witness :
  frame_empty (FilteredFrame (mkFiltTable [] ["EUR"; "GBP"] None [])) = true
  ∧ length (empty_return ["0"; "0.00 USD"; "0.00%"; "0.00 USD"])
    = length update_graphs_outputs
  ∧ misplaced (empty_return ["0"; "0.00 USD"; "0.00%"; "0.00 USD"])
    = [10; 11; 12; 13; 19; 20; 21; 22]%nat
  ∧ ∀ w, misplaced (full_return (widget_vals (fun _ => "0") (fun _ _ => "0.00 USD")
                                   (fun _ => "0.00%") w (Some "USD"))) = [].
Proof.
  apply (early_return_misplaced (fun _ => "0") (fun _ _ => "0.00 USD") (fun _ => "0.00%")
           (FilteredFrame (mkFiltTable [] ["EUR"; "GBP"] None [])) (Some "USD") (empty_return ["0"; "0.00 USD"; "0.00%"; "0.00 USD"])).
  reflexivity.
Defined.

(** ** update_graphs and the tables it is given *)

(** The two tables [update_graphs] passes to [filter_data]: the record
    table is the sample or a new frame, the rate table always a new
    frame. *)
Lemma update_graphs_filtered_run read_json g fl target_currency full_data_json
    exchange_rates_json st r st' :
  update_graphs_filtered read_json g fl target_currency full_data_json exchange_rates_json st
  = (r, st') →
  ((∀ l, l ∈ dom (heap st) → heap st' !! l = heap st !! l) ∧ ∀ l, r ≠ Return l)
  ∨ ∃ current_df df2 f2 st1,
      filter_data current_df df2 fl target_currency st1 = (r, st')
      ∧ (df2 ∉ dom (heap st))
      ∧ heap st1 !! df2 = Some f2
      ∧ (exchange_rates_json = None → f2 = NoColumns)
      ∧ (full_data_json = None → current_df = df_sampled g)
      ∧ (∀ l, l ∈ dom (heap st) → heap st1 !! l = heap st !! l).
Proof.
  unfold update_graphs_filtered. rewrite bind_run.
  assert (Hrates : ∀ current_df st0,
            (∀ l, l ∈ dom (heap st) → heap st0 !! l = heap st !! l) →
            (full_data_json = None → current_df = df_sampled g) →
            (let* df2 := match exchange_rates_json with
                         | Some text => let* f := lift (read_json text) in alloc f
                         | None => alloc NoColumns
                         end in
             filter_data current_df df2 fl target_currency) st0 = (r, st') →
            ((∀ l, l ∈ dom (heap st) → heap st' !! l = heap st !! l) ∧ ∀ l, r ≠ Return l)
            ∨ ∃ current_df df2 f2 st1,
                filter_data current_df df2 fl target_currency st1 = (r, st')
                ∧ (df2 ∉ dom (heap st))
                ∧ heap st1 !! df2 = Some f2
                ∧ (exchange_rates_json = None → f2 = NoColumns)
                ∧ (full_data_json = None → current_df = df_sampled g)
                ∧ (∀ l, l ∈ dom (heap st) → heap st1 !! l = heap st !! l)).
  { intros current_df st0 Hkeep Hcur. rewrite bind_run.
    assert (Hfresh : fresh (dom (heap st0)) ∉ dom (heap st)).
    { intros Hin. pose proof (Hkeep _ Hin) as Heq. rewrite fresh_lookup in Heq.
      apply elem_of_dom in Hin as [? Hin]. congruence. }
    assert (Hk : ∀ f l, l ∈ dom (heap st) →
              <[fresh (dom (heap st0)) := f]> (heap st0) !! l = heap st !! l).
    { intros f l Hl. rewrite lookup_alloc_other; [apply Hkeep, Hl|].
      rewrite Hkeep by exact Hl. apply elem_of_dom, Hl. }
    destruct exchange_rates_json as [text|].
    - rewrite bind_run. unfold lift. destruct (read_json text) as [f| |].
      + unfold alloc. intros Hrun. right.
        exists current_df, (fresh (dom (heap st0))), f,
          (mkState (<[fresh (dom (heap st0)) := f]> (heap st0)) (trace st0)).
        split; [exact Hrun|]. split; [exact Hfresh|]. simpl.
        split; [apply lookup_insert_eq|]. split; [discriminate|]. split; [exact Hcur|].
        apply Hk.
      + intros [= <- <-]. left. split; [exact Hkeep|discriminate].
      + intros [= <- <-]. left. split; [exact Hkeep|discriminate].
    - unfold alloc. intros Hrun. right.
      exists current_df, (fresh (dom (heap st0))), NoColumns,
        (mkState (<[fresh (dom (heap st0)) := NoColumns]> (heap st0)) (trace st0)).
      split; [exact Hrun|]. split; [exact Hfresh|]. simpl.
      split; [apply lookup_insert_eq|]. split; [reflexivity|]. split; [exact Hcur|].
      apply Hk. }
  destruct full_data_json as [text|].
  - rewrite bind_run. unfold lift. destruct (read_json text) as [f| |].
    + unfold alloc. apply Hrates; [|discriminate].
      intros l Hl. simpl. apply lookup_alloc_other, elem_of_dom, Hl.
    + intros [= <- <-]. left. split; [reflexivity|discriminate].
    + intros [= <- <-]. left. split; [reflexivity|discriminate].
  - unfold ret. apply Hrates; auto.
Qed.

(** X19. [update_graphs] changes no table that existed before the call,
    the sample and the module's rate table included, whatever the controls
    and the stores hold: the rate table whose dates [filter_data] rewrites
    is one that [update_graphs] has just made. *)
Theorem update_graphs_keeps_tables read_json g fl target_currency full_data_json
    exchange_rates_json st r st' :
  update_graphs_filtered read_json g fl target_currency full_data_json exchange_rates_json st
  = (r, st') →
  ∀ l, l ∈ dom (heap st) → heap st' !! l = heap st !! l.
Proof.
  intros Hrun l Hl.
  apply update_graphs_filtered_run in Hrun
    as [[Hkeep _]|(current_df & df2 & f2 & st1 & Hrun & Hnew & _ & _ & _ & Hkeep)];
    [apply Hkeep, Hl|].
  rewrite <- (Hkeep l Hl).
  eapply filter_data_keeps_others; [exact Hrun| |].
  - intros ->. contradiction.
  - rewrite Hkeep by exact Hl. apply elem_of_dom, Hl.
Qed.

Lemma update_graphs_keeps_tables_witness :
  heap (snd (update_graphs_filtered (fun _ => Return (RatesFrame (rate_table_of sample_rates)))
               sample_globals no_filters (Some "GBP") None (Some "rates") enriched_state))
    !! 2%positive
  = heap enriched_state !! 2%positive.
Proof.
  apply (update_graphs_keeps_tables
           (fun _ => Return (RatesFrame (rate_table_of sample_rates)))
           sample_globals no_filters (Some "GBP") None (Some "rates") enriched_state
           (Return 5%positive)).
  - vm_compute. reflexivity.
  - apply elem_of_dom. eexists. vm_compute. reflexivity.
Defined.

(** X20. While the rate store is empty, the target currency has no effect:
    whatever currency is selected, every row of the table [update_graphs]
    works on has [amount_converted] equal to [amount_usd] and no target
    rate, and the rows are those of the record table that pass the
    filters. *)
Theorem update_graphs_without_rates read_json g fl target_currency full_data_json st l st' :
  update_graphs_filtered read_json g fl target_currency full_data_json None st
  = (Return l, st') →
  ∃ t,
    heap st' !! l = Some (FilteredFrame t)
    ∧ target_rate_column t = None
    ∧ (∀ r, r ∈ filt_rows t →
         amount_converted r = amount_usd (enr r) ∧ target_rate r = None
         ∧ passes fl (enr r) = true).
Proof.
  intros Hrun.
  apply update_graphs_filtered_run in Hrun
    as [[_ Hno]|(current_df & df2 & f2 & st1 & Hrun & Hnew & Hf2 & Hnone & Hcur & Hkeep)];
    [exfalso; eapply Hno; reflexivity|].
  rewrite (Hnone eq_refl) in Hf2.
  apply filter_data_Return in Hrun
    as (t0 & f2' & Hdf & Hdf2 & [(_ & -> & ->)|(Hc & rt & c & -> & _)]).
  2:{ rewrite Hf2 in Hdf2. discriminate. }
  eexists. simpl. split; [apply lookup_insert_eq|]. split; [reflexivity|].
  simpl. intros r Hr. unfold copy_amount_usd in Hr.
  apply list_elem_of_fmap in Hr as (r0 & -> & Hr0). simpl.
  split; [reflexivity|]. split; [reflexivity|].
  rewrite apply_filters_passes in Hr0.
  apply list_elem_of_In, filter_In in Hr0 as [_ Hp]. exact Hp.
Qed.

Lemma update_graphs_without_rates_witness :
  ∃ t,
    heap (snd (update_graphs_filtered (fun _ => Raise ValueError) sample_globals only_fraud
                 (Some "GBP") None None enriched_state)) !! 5%positive
    = Some (FilteredFrame t)
    ∧ target_rate_column t = None
    ∧ (∀ r, r ∈ filt_rows t →
         amount_converted r = amount_usd (enr r) ∧ target_rate r = None
         ∧ passes only_fraud (enr r) = true).
Proof.
  apply (update_graphs_without_rates (fun _ => Raise ValueError) sample_globals only_fraud
           (Some "GBP") None enriched_state 5%positive).
  vm_compute. reflexivity.
Defined.

(** ** The options of the text filters *)

Lemma string_le_total : Total string_le.
Proof. intros s1 s2. apply String.leb_total. Qed.

Lemma sorted_values_spec (vals : list string) :
  Sorted string_le (merge_sort string_le (remove_dups vals))
  ∧ NoDup (merge_sort string_le (remove_dups vals))
  ∧ ∀ x, x ∈ merge_sort string_le (remove_dups vals) ↔ x ∈ vals.
Proof.
  split; [apply (@Sorted_merge_sort _ string_le _ string_le_total)|]. split.
  - rewrite merge_sort_Permutation. apply NoDup_remove_dups.
  - intros x. rewrite merge_sort_Permutation. apply elem_of_remove_dups.
Qed.

Lemma filter_all {A} (p : A → bool) l :
  (∀ x, x ∈ l → p x = true) → List.filter p l = l.
Proof.
  induction l as [|x l IH]; intros H; [reflexivity|]. simpl.
  rewrite (H x) by left. f_equal. apply IH. intros y Hy. apply H. right. exact Hy.
Qed.

(** X21. The options of a text filter are sorted and without repetition;
    an empty sample gives none; for an enriched sample they are exactly the
    values the column takes in it, so that selecting every option filters
    nothing out of the sample. *)
Theorem column_options_cover name col df_sampled opts :
  column_options name col df_sampled = Return opts →
  Sorted string_le opts
  ∧ NoDup opts
  ∧ (frame_empty df_sampled = true → opts = [])
  ∧ ∀ t, df_sampled = EnrichedFrame t →
      (∀ x, x ∈ opts ↔ ∃ r, r ∈ enr_rows t ∧ col (raw r) = x)
      ∧ isin_filter (Some opts) (fun r => col (raw r)) (enr_rows t) = enr_rows t.
Proof.
  unfold column_options. destruct (frame_empty df_sampled) eqn:He.
  - intros [= <-]. split; [constructor|]. split; [constructor|]. split; [reflexivity|].
    intros t ->. unfold frame_empty in He. simpl in He. apply Nat.eqb_eq in He.
    destruct (enr_rows t); [|discriminate]. split; [|reflexivity].
    intros x. split; [intros H; inversion H|intros (r & H & _); inversion H].
  - destruct df_sampled as [|rows|t| |]; try discriminate; intros [= <-].
    + destruct (sorted_values_spec (map col rows)) as (Hs & Hnd & _).
      split; [exact Hs|]. split; [exact Hnd|]. split; [discriminate|]. discriminate.
    + destruct (sorted_values_spec (map (fun r => col (raw r)) (enr_rows t)))
        as (Hs & Hnd & Hin).
      split; [exact Hs|]. split; [exact Hnd|]. split; [discriminate|].
      intros t' [= <-].
      assert (Hall : ∀ x, x ∈ merge_sort string_le
                                (remove_dups (map (fun r => col (raw r)) (enr_rows t)))
                          ↔ ∃ r, r ∈ enr_rows t ∧ col (raw r) = x).
      { intros x. rewrite Hin, list_elem_of_fmap.
        split; intros (r & H1 & H2); eauto. }
      split; [exact Hall|].
      destruct (merge_sort _ _) as [|v vs]; [reflexivity|].
      cbn [isin_filter]. apply filter_all. intros r Hr.
      apply bool_decide_eq_true_2, Hall. eauto.
Qed.

Lemma column_options_cover_witness :
  Sorted string_le ["retail"]
  ∧ NoDup ["retail"]
  ∧ (frame_empty (EnrichedFrame sample_enriched) = true → ["retail"] = [])
  ∧ ∀ t, EnrichedFrame sample_enriched = EnrichedFrame t →
      (∀ x, x ∈ ["retail"] ↔ ∃ r, r ∈ enr_rows t ∧ vendor_category (raw r) = x)
      ∧ isin_filter (Some ["retail"]) (fun r => vendor_category (raw r)) (enr_rows t)
        = enr_rows t.
Proof.
  apply (column_options_cover "vendor_category" vendor_category
           (EnrichedFrame sample_enriched) ["retail"]).
  vm_compute. reflexivity.
Defined.

(** ** The module's start *)

Lemma column_options_empty name col f :
  frame_empty f = true → column_options name col f = Return [].
Proof. intros He. unfold column_options. rewrite He. reflexivity. Qed.

Lemma currency_options_usd f :
  f = NoColumns ∨ (∃ rt, f = RatesFrame rt) →
  ∃ cur, currency_options f = Return cur ∧ "USD" ∈ cur.
Proof.
  intros Hf.
  assert (∃ cur, currency_options f = Return cur) as [cur Hcur]
    by (destruct Hf as [->|[rt ->]]; eexists; reflexivity).
  exists cur. split; [exact Hcur|]. apply (currency_options_elem _ _ "USD" Hcur). auto.
Qed.

(** The frames the sampling block leaves, when it returns. *)
Lemma load_sample_frames random_sample k fs st a b st' :
  load_sample random_sample k fs st = (Return (a, b), st') →
  (heap st' !! a = Some NoColumns ∧ heap st' !! b = Some NoColumns)
  ∨ (transactions_file fs ≠ None
     ∧ ((∃ fa, heap st' !! a = Some fa ∧ frame_empty fa = true
               ∧ heap st' !! b = Some NoColumns)
        ∨ (∃ t rt, heap st' !! a = Some (EnrichedFrame t)
                   ∧ heap st' !! b = Some (RatesFrame rt)))).
Proof.
  intros Hrun.
  assert (Hopen : transactions_file fs = None → ∀ l st1,
            read_sample random_sample k fs st ≠ (Return l, st1)).
  { intros Hnone l st1. unfold read_sample. rewrite bind_run. unfold log. rewrite Hnone.
    discriminate. }
  destruct (load_sample_cases random_sample k fs st)
    as [(l & st1 & e & Hread & Hraise & Heq)
       |[(l & st1 & Hread & Hno & Heq)
        |[(e & st1 & Hread & Heq)|(st1 & Hread & Heq)]]];
    rewrite Heq in Hrun.
  - injection Hrun as <- <- <-. left. apply no_data_frames.
  - right. split; [intros Hnone; exact (Hopen Hnone _ _ Hread)|].
    apply preprocess_data_Return in Hrun
      as (f & Hf & [(He & -> & -> & ->)|(rows & -> & Hne & Hrun)]).
    + left. exists f. simpl. split; [|split; [exact He|apply lookup_insert_eq]].
      rewrite lookup_alloc_other by eauto. exact Hf.
    + right. apply enrich_frame_Return in Hrun as (rf & rows2 & _ & _ & -> & -> & ->).
      eexists _, _. simpl. split; [apply lookup_insert_eq|apply lookup_second_alloc].
  - injection Hrun as <- <- <-. left. apply no_data_frames.
  - discriminate.
Qed.

(** X22. Whatever the sampling block has loaded, the option lists that the
    module builds next can be built: each text filter gets a list of
    options and the currency control a list that offers USD. If the
    transaction file could not be opened, the text filters have no options
    and USD is the only currency. *)
Theorem startup_options random_sample fs st g st' :
  startup random_sample fs st = (Return g, st') →
  ∃ fa fb cur,
    heap st' !! df_sampled g = Some fa
    ∧ heap st' !! df2_global g = Some fb
    ∧ (∀ name col, ∃ opts, column_options name col fa = Return opts)
    ∧ currency_options fb = Return cur
    ∧ "USD" ∈ cur
    ∧ (pq_file_global g = None →
       cur = ["USD"] ∧ ∀ name col, column_options name col fa = Return []).
Proof.
  unfold startup, sampling_block. rewrite bind_run.
  destruct (load_sample random_sample 3 fs st) as [[[a b]|e|] st1] eqn:Hload;
    try discriminate.
  unfold ret. intros [= <- <-]. simpl.
  apply load_sample_frames in Hload
    as [[Ha Hb]|[Hfile [(fa & Ha & He & Hb)|(t & rt & Ha & Hb)]]].
  - exists NoColumns, NoColumns, ["USD"]. split; [exact Ha|]. split; [exact Hb|].
    split; [intros; eexists; reflexivity|]. split; [reflexivity|].
    split; [left|]. intros _. split; reflexivity.
  - exists fa, NoColumns, ["USD"]. split; [exact Ha|]. split; [exact Hb|].
    split; [intros; eexists; apply column_options_empty, He|]. split; [reflexivity|].
    split; [left|]. intros Hnone. contradiction.
  - destruct (currency_options_usd (RatesFrame rt)) as (cur & Hcur & Husd); [eauto|].
    exists (EnrichedFrame t), (RatesFrame rt), cur.
    split; [exact Ha|]. split; [exact Hb|]. split.
    + intros name col. unfold column_options.
      destruct (frame_empty (EnrichedFrame t)); eexists; reflexivity.
    + split; [exact Hcur|]. split; [exact Husd|]. intros Hnone. contradiction.
Qed.

Lemma startup_options_witness :
  ∃ fa fb cur,
    heap (snd (startup descending_sample sample_files sample_state)) !! 4%positive = Some fa
    ∧ heap (snd (startup descending_sample sample_files sample_state)) !! 3%positive
      = Some fb
    ∧ (∀ name col, ∃ opts, column_options name col fa = Return opts)
    ∧ currency_options fb = Return cur
    ∧ "USD" ∈ cur
    ∧ (pq_file_global (mkGlobals (transactions_file sample_files) 4%positive 3%positive)
       = None →
       cur = ["USD"] ∧ ∀ name col, column_options name col fa = Return []).
Proof.
  apply (startup_options descending_sample sample_files sample_state
           (mkGlobals (transactions_file sample_files) 4%positive 3%positive)
           (snd (startup descending_sample sample_files sample_state))).
  vm_compute. reflexivity.
Defined.

(** ** The flattened activity columns *)

Lemma dict_get_missing d k : k ∉ map fst d → dict_get d k = NaN.
Proof.
  induction d as [|[k' v] d IH]; simpl; intros Hk; [reflexivity|].
  apply not_elem_of_cons in Hk as [Hne Hk].
  destruct (String.eqb k' k) eqn:E; [apply String.eqb_eq in E; congruence|].
  apply IH, Hk.
Qed.

Lemma cell_missing cols cells k : k ∉ cols → cell cols cells k = NaN.
Proof.
  revert cells. induction cols as [|c cols IH]; intros cells Hk; [reflexivity|].
  apply not_elem_of_cons in Hk as [Hne Hk]. destruct cells as [|v cells]; [reflexivity|].
  simpl. destruct (String.eqb c k) eqn:E; [apply String.eqb_eq in E; congruence|].
  apply IH, Hk.
Qed.

Lemma dict_get_entry d k v :
  NoDup (map fst d) → (k, v) ∈ d → dict_get d k = v.
Proof.
  induction d as [|[k' v'] d IH]; simpl; intros Hnd Hin; [inversion Hin|].
  apply NoDup_cons in Hnd as [Hk' Hnd].
  apply elem_of_cons in Hin as [[= -> ->]|Hin].
  - rewrite String.eqb_refl. reflexivity.
  - destruct (String.eqb k' k) eqn:E; [|apply IH; assumption].
    apply String.eqb_eq in E. subst k'. exfalso. apply Hk'.
    apply list_elem_of_fmap. exists (k, v). auto.
Qed.

(** X23. The activity columns of the table [preprocess_data] builds are,
    without repetition, the keys of the records' activity dicts, together
    with the five default names if some record has no dict. A row of a
    record with a dict carries under each key of the dict the value the
    dict gives it and not-a-number in every other activity column; a row
    of a record without a dict carries not-a-number in all of them. *)
Theorem activity_columns_flatten fs df st rows l l2 st' t :
  heap st !! df = Some (RawFrame rows) →
  preprocess_data fs df st = (Return (l, l2), st') →
  heap st' !! l = Some (EnrichedFrame t) →
  NoDup (activity_columns t)
  ∧ (∀ k, k ∈ activity_columns t ↔
          (∃ r d, r ∈ rows ∧ last_hour_activity r = PyDict d ∧ k ∈ map fst d)
          ∨ ((∃ r, r ∈ rows ∧ ∀ d, last_hour_activity r ≠ PyDict d)
             ∧ k ∈ ["num_transactions"; "total_amount"; "unique_merchants";
                    "unique_countries"; "max_single_amount"]))
  ∧ (∀ o, o ∈ enr_rows t →
       length (activity (merged o)) = length (activity_columns t)
       ∧ (∀ d, last_hour_activity (raw o) = PyDict d → NoDup (map fst d) →
            (∀ k v, (k, v) ∈ d → cell (activity_columns t) (activity (merged o)) k = v)
            ∧ (∀ k, k ∉ map fst d →
                 cell (activity_columns t) (activity (merged o)) k = NaN))
       ∧ ((∀ d, last_hour_activity (raw o) ≠ PyDict d) →
          ∀ k, cell (activity_columns t) (activity (merged o)) k = NaN)).
Proof.
  intros Hdf Hrun Hl.
  apply preprocess_data_Return in Hrun
    as (f & Hf & [(He & -> & -> & ->)|(rows' & Heq & Hne & Hrun)]).
  { rewrite Hdf in Hf. injection Hf as <-.
    simpl in Hl. rewrite lookup_alloc_other in Hl by eauto. rewrite Hdf in Hl. discriminate. }
  rewrite Hdf in Hf. injection Hf as <-. injection Heq as <-.
  apply enrich_frame_Return in Hrun as (rf & rows2 & Hrf & Happ & -> & -> & ->).
  simpl in Hl. rewrite lookup_insert_eq in Hl. injection Hl as <-. simpl.
  rewrite floored_activity in *.
  set (ds := map (fun r => safe_extract (last_hour_activity r)) rows) in *.
  assert (Hcols : ∀ k, k ∈ normalize_columns ds ↔
                       ∃ r, r ∈ rows ∧ k ∈ map fst (safe_extract (last_hour_activity r))).
  { intros k. split.
    - intros Hk. apply normalize_columns_elem in Hk as (d & Hd & Hk).
      apply list_elem_of_fmap in Hd as (r & -> & Hr). eauto.
    - intros (r & Hr & Hk). eapply normalize_columns_keys; [|exact Hk].
      apply list_elem_of_fmap. eauto. }
  split; [apply normalize_columns_NoDup|]. split.
  { intros k. rewrite Hcols. split.
    - intros (r & Hr & Hk).
      destruct (last_hour_activity r) as [| | |d] eqn:Hact.
      4: { left. exists r, d. auto. }
      all: right; split; [exists r; split; [exact Hr|]; intros d Hd; congruence|exact Hk].
    - intros [(r & d & Hr & Hact & Hk)|[(r & Hr & Hno) Hk]].
      + exists r. rewrite Hact. auto.
      + exists r. split; [exact Hr|].
        destruct (last_hour_activity r) as [| | |d]; try exact Hk.
        exfalso. apply (Hno d). reflexivity. }
  intros o Ho. apply apply_rows_Return in Happ.
  destruct (Forall2_elem_r _ _ _ _ Happ Ho) as (m & Hm & Hen).
  apply enrich_Return in Hen as [Hmerged _]. rewrite Hmerged. unfold raw. rewrite Hmerged.
  apply merge_left_elem in Hm as [Hleft _].
  apply left_rows_elem in Hleft as (Hin & Hact & _).
  rewrite floored_activity in Hact. fold ds in Hact.
  apply list_elem_of_fmap in Hin as (r & Hr & Hin).
  rewrite Hact, Hr. change (last_hour_activity (floor_timestamp r)) with (last_hour_activity r).
  assert (Hcell : ∀ k, cell (normalize_columns ds)
                         (map (dict_get (safe_extract (last_hour_activity r)))
                              (normalize_columns ds)) k
                       = dict_get (safe_extract (last_hour_activity r)) k).
  { intros k. destruct (decide (k ∈ normalize_columns ds)) as [Hk|Hk].
    - apply cell_map, Hk.
    - rewrite cell_missing by exact Hk. symmetry. apply dict_get_missing.
      intros Hkey. apply Hk, Hcols. eauto. }
  split; [apply length_map|]. split.
  - intros d Hd Hnd. split.
    + intros k v Hkv. rewrite Hcell, Hd. apply dict_get_entry; assumption.
    + intros k Hk. rewrite Hcell, Hd. apply dict_get_missing, Hk.
  - intros Hno k. rewrite Hcell.
    destruct (last_hour_activity r) as [| | |d]; try apply dict_get_defaults.
    exfalso. apply (Hno d). reflexivity.
Qed.

Lemma activity_columns_flatten_witness :
  NoDup (activity_columns sample_enriched)
  ∧ (∀ k, k ∈ activity_columns sample_enriched ↔
          (∃ r d, r ∈ [eur_row; gbp_row] ∧ last_hour_activity r = PyDict d ∧ k ∈ map fst d)
          ∨ ((∃ r, r ∈ [eur_row; gbp_row] ∧ ∀ d, last_hour_activity r ≠ PyDict d)
             ∧ k ∈ ["num_transactions"; "total_amount"; "unique_merchants";
                    "unique_countries"; "max_single_amount"]))
  ∧ (∀ o, o ∈ enr_rows sample_enriched →
       length (activity (merged o)) = length (activity_columns sample_enriched)
       ∧ (∀ d, last_hour_activity (raw o) = PyDict d → NoDup (map fst d) →
            (∀ k v, (k, v) ∈ d →
               cell (activity_columns sample_enriched) (activity (merged o)) k = v)
            ∧ (∀ k, k ∉ map fst d →
                 cell (activity_columns sample_enriched) (activity (merged o)) k = NaN))
       ∧ ((∀ d, last_hour_activity (raw o) ≠ PyDict d) →
          ∀ k, cell (activity_columns sample_enriched) (activity (merged o)) k = NaN)).
Proof.
  apply (activity_columns_flatten sample_files 1%positive sample_state [eur_row; gbp_row]
           3%positive 2%positive enriched_state sample_enriched).
  - reflexivity.
  - vm_compute. reflexivity.
  - vm_compute. reflexivity.
Defined.
